(** * The thought store tools: Neo4j thought graph, Pinecone vector index
      and the LightRAG knowledge base

    A shallow embedding of
      - [backend/src/agents/tools/neo_4j_tool.py]   (class Neo4jThoughtTools),
      - [backend/src/agents/tools/pinecone_tool.py] (class PineconeTools),
      - [backend/src/agents/tools/lightrag_tool.py] (class LightRAGTool).

    The three classes are wrappers around services that live outside the
    repository: a Neo4j server reached through Cypher statements, a Pinecone
    index, and a LightRAG instance.  The wrappers are embedded from their
    Python text.  What the services and the Python runtime do is taken through
    the interfaces [PyRuntime], [Neo4jServer] and [LightRAG] below; for Neo4j
    the Cypher statements written in the source are given their graph
    semantics on an explicit graph state. *)

From Stdlib Require Import ZArith Floats Ascii String Sorted.
From stdpp Require Import base strings list gmap pretty.
Open Scope string_scope.
Set Warnings "-register-all".

(** ** Python values, dictionaries and exceptions *)

(** The values that travel through the tools: JSON-like data, the
    temporal value Neo4j stores for [datetime()], and the tuple, which
    [json.dumps] writes as an array and [json.loads] never returns. *)
Inductive value : Type :=
| VNone
| VBool (b : bool)
| VInt (z : Z)
| VFloat (f : float)
| VStr (s : string)
| VDateTime (t : Z)
| VList (l : list value)
| VDict (d : list (string * value))
| VTuple (l : list value).

(** A Python [dict] with string keys: keys are unique and keep their
    insertion order. *)
Abbreviation pydict := (list (string * value)).

Fixpoint dict_get (k : string) (d : pydict) : option value :=
  match d with
  | [] => None
  | (k', v) :: d' => if String.eqb k' k then Some v else dict_get k d'
  end.

Definition dict_has (k : string) (d : pydict) : bool :=
  match dict_get k d with Some _ => true | None => false end.

(** [d[k] = v]: an existing key keeps its position, a new key goes last. *)
Fixpoint dict_set (k : string) (v : value) (d : pydict) : pydict :=
  match d with
  | [] => [(k, v)]
  | (k', v') :: d' =>
      if String.eqb k' k then (k, v) :: d' else (k', v') :: dict_set k v d'
  end.

(** [del d[k]] *)
Fixpoint dict_del (k : string) (d : pydict) : pydict :=
  match d with
  | [] => []
  | (k', v') :: d' =>
      if String.eqb k' k then d' else (k', v') :: dict_del k d'
  end.

Definition dict_keys (d : pydict) : list string := map fst d.

(** Python truthiness of the argument kinds the tools test with [not x]
    and [x or y]. *)
Definition truthy_str (s : string) : bool := negb (String.eqb s "").

Definition truthy_opt_str (s : option string) : bool :=
  match s with Some s => truthy_str s | None => false end.

Definition truthy_opt_dict (d : option pydict) : bool :=
  match d with Some (_ :: _) => true | _ => false end.

Definition is_Some_b {A} (o : option A) : bool :=
  match o with Some _ => true | None => false end.

Definition truthy_list {A} (l : list A) : bool :=
  match l with [] => false | _ => true end.

(** [bool(v)] *)
Definition truthy (v : value) : bool :=
  match v with
  | VNone => false
  | VBool b => b
  | VInt z => negb (z =? 0)%Z
  | VFloat f => negb (PrimFloat.eqb f 0%float)
  | VStr s => truthy_str s
  | VDateTime _ => true
  | VList l => truthy_list l
  | VDict d => truthy_list d
  | VTuple l => truthy_list l
  end.

(** [x or {}] on an optional dictionary. *)
Definition or_empty_dict (d : option pydict) : pydict :=
  match d with Some (p :: d') => p :: d' | _ => [] end.

(** [a in s] on strings (Python) and [s CONTAINS a] (Cypher). *)
Fixpoint contains (a s : string) : bool :=
  String.prefix a s ||
  match s with
  | EmptyString => false
  | String _ s' => contains a s'
  end.

(** [s[:n]] *)
Fixpoint str_take (n : nat) (s : string) : string :=
  match n, s with
  | S n', String c s' => String c (str_take n' s')
  | _, _ => ""
  end.

Definition nl : string := String (Ascii.ascii_of_nat 10) "".

(** Failures of the Neo4j server and driver, by cause. *)
Inductive neo4j_error : Type :=
| ConfigurationError (uri : string)
| ServiceUnavailable (uri : string)
| CypherSyntaxError (query : string)
| ConstraintValidationFailed (label property value : string)
| ConstraintCreationFailed (label property : string)
| CypherTypeError (key : string)
| NegativeIntegerArgument (z : Z).

(** Python exceptions (all of them subclasses of [Exception]; interpreter
    exit and task cancellation are outside the model). [JSONDecodeError]
    is a subclass of [ValueError]. *)
Inductive exn : Type :=
| ValueError (msg : string)
| JSONDecodeError (msg : string)
| TypeError (msg : string)
| RuntimeError (msg : string)
| Neo4jError (e : neo4j_error)
| OtherError (cls msg : string).

Definition is_ValueError (e : exn) : bool :=
  match e with ValueError _ | JSONDecodeError _ => true | _ => false end.

Inductive outcome (A : Type) : Type :=
| Return (a : A)
| Raise (e : exn).
Arguments Return {A} a.
Arguments Raise {A} e.

(** What the tools need from the Python runtime and its standard library. *)
Class PyRuntime := {
  (** [json.dumps(v)]: the text, or [TypeError] on a value that is not
      JSON serializable. *)
  json_dumps : value → outcome string;
  (** [json.dumps(v, default=str)] *)
  json_dumps_default_str : value → string;
  (** [json.loads(s)] on a [str]: the value or [JSONDecodeError]. *)
  json_loads : string → outcome value;
  (** [f"{x}"] on a float, on a list of strings and on any value. *)
  str_float : float → string;
  str_list : list string → string;
  str_value : value → string;
  (** [str(uuid.uuid4())], as a function of how many were drawn before. *)
  uuid4_at : nat → string;
  (** [str(e)] for a driver or server failure. *)
  str_neo4j_error : neo4j_error → string;
}.

Section Exceptions.
Context `{PyRuntime}.

(** [str(e)], as the f-strings of the [except] clauses print it. *)
Definition str_exn (e : exn) : string :=
  match e with
  | ValueError m | JSONDecodeError m | TypeError m | RuntimeError m => m
  | Neo4jError e => str_neo4j_error e
  | OtherError _ m => m
  end.
End Exceptions.

(** ** A state-and-exception monad for the method bodies *)

Definition M (S A : Type) : Type := S → outcome A * S.

Definition ret {S A} (a : A) : M S A := λ s, (Return a, s).
Definition raise {S A} (e : exn) : M S A := λ s, (Raise e, s).
Definition bind {S A B} (m : M S A) (k : A → M S B) : M S B :=
  λ s, match m s with
       | (Return a, s') => k a s'
       | (Raise e, s') => (Raise e, s')
       end.
(** [try: m  except Exception as e: h e] *)
Definition try_except {S A} (m : M S A) (h : exn → M S A) : M S A :=
  λ s, match m s with
       | (Return a, s') => (Return a, s')
       | (Raise e, s') => h e s'
       end.
Definition get {S} : M S S := λ s, (Return s, s).
Definition put {S} (s : S) : M S unit := λ _, (Return tt, s).
Definition lift_outcome {S A} (o : outcome A) : M S A := λ s, (o, s).

Declare Scope py_scope.
Delimit Scope py_scope with py.
Notation "'let*' x := m 'in' k" := (bind m (λ x, k))
  (at level 10, x name, m at level 100, k at level 200) : py_scope.
Notation "'do' m 'then' k" := (bind m (λ _, k))
  (at level 10, m at level 100, k at level 200) : py_scope.
Open Scope py_scope.

(** ** The Neo4j thought graph (neo_4j_tool.py) *)

Module Neo4j.

(** *** The graph held by the server *)

(** The [:Thought] nodes in the order the server scans them (creation
    order), and the relationships between them. *)
Record node := { node_id : nat; node_props : pydict }.

Record rel := {
  rel_start : nat;
  rel_end : nat;
  rel_type : string;
  rel_props : pydict;
}.

Record graph_db := {
  thought_id_unique : bool;   (* the constraint of that name exists *)
  next_node_id : nat;
  nodes : list node;
  rels : list rel;
}.

Definition empty_graph : graph_db :=
  {| thought_id_unique := false; next_node_id := 0; nodes := []; rels := [] |}.

(** What the server and the driver decide and the source does not: whether
    a driver can be built and can reach the server, whether a query text
    put together by an f-string parses as the statement it was meant to be,
    which values a property can hold, how Cypher compares property values,
    and what a caller-supplied query does. A driver that verified its
    connection keeps reaching the server. *)
Class Neo4jServer := {
  driver_accepts : string → string → string → bool;
  server_reachable : string → string → string → bool;
  cypher_parses : string → bool;
  storable : value → bool;
  prop_eqb : value → value → bool;
  prop_geb : value → float → bool;
  run_custom_query : string → pydict → graph_db → outcome (list pydict) * graph_db;
}.

Definition node_has_id (id : string) (n : node) : bool :=
  match dict_get "id" (node_props n) with
  | Some (VStr s) => String.eqb s id
  | _ => false
  end.

Definition node_thought_id (n : node) : option string :=
  match dict_get "id" (node_props n) with
  | Some (VStr s) => Some s
  | _ => None
  end.

Fixpoint distinct (l : list string) : bool :=
  match l with
  | [] => true
  | x :: l' => negb (existsb (String.eqb x) l') && distinct l'
  end.

Definition thought_ids (g : graph_db) : list string :=
  omap node_thought_id (nodes g).

(** [CREATE CONSTRAINT thought_id_unique IF NOT EXISTS
     FOR (t:Thought) REQUIRE t.id IS UNIQUE] *)
Definition run_create_constraint (g : graph_db) : outcome graph_db :=
  if thought_id_unique g then Return g
  else if distinct (thought_ids g) then
    Return {| thought_id_unique := true; next_node_id := next_node_id g;
              nodes := nodes g; rels := rels g |}
  else Raise (Neo4jError (ConstraintCreationFailed "Thought" "id")).

(** [CREATE (t:Thought {id: $id, content: $content, timestamp: datetime(),
     metadata_json: $metadata_json})], with [now] the server's [datetime()]. *)
Definition run_create_thought (id content metadata_json : string) (now : Z)
    (g : graph_db) : outcome graph_db :=
  if thought_id_unique g && existsb (node_has_id id) (nodes g) then
    Raise (Neo4jError (ConstraintValidationFailed "Thought" "id" id))
  else
    Return {| thought_id_unique := thought_id_unique g;
              next_node_id := S (next_node_id g);
              nodes := nodes g ++
                [{| node_id := next_node_id g;
                    node_props := [("id", VStr id); ("content", VStr content);
                                   ("timestamp", VDateTime now);
                                   ("metadata_json", VStr metadata_json)] |}];
              rels := rels g |}.

(** [MATCH (t:Thought {id: $id})] *)
Definition match_thought (id : string) (g : graph_db) : list node :=
  List.filter (node_has_id id) (nodes g).

(** A relationship pattern [-[r:`type` {k1: $p1, ...}]->] with its
    parameters resolved. *)
Definition resolve_pattern (pattern : list (string * string)) (params : pydict)
    : list (string * option value) :=
  map (λ kp, (fst kp, dict_get (snd kp) params)) pattern.

Definition pattern_props (rp : list (string * option value)) : pydict :=
  omap (λ kv, match snd kv with Some v => Some (fst kv, v) | None => None end) rp.

Section Server.
Context `{Neo4jServer}.

Definition rel_matches (s t : nat) (rtype : string) (props : pydict) (r : rel) : bool :=
  Nat.eqb (rel_start r) s && Nat.eqb (rel_end r) t &&
  String.eqb (rel_type r) rtype &&
  forallb (λ kv, match dict_get (fst kv) (rel_props r) with
                 | Some v => prop_eqb v (snd kv)
                 | None => false
                 end) props.

(** [MERGE (source)-[r:`type` {props}]->(target)] for one matched row:
    an existing relationship of that type with those property values is
    kept, otherwise one is created. *)
Definition merge_rel (rtype : string) (props : pydict) (rs : list rel)
    (row : node * node) : list rel :=
  let s := node_id (fst row) in
  let t := node_id (snd row) in
  if existsb (rel_matches s t rtype props) rs then rs
  else rs ++ [{| rel_start := s; rel_end := t; rel_type := rtype; rel_props := props |}].

(** [MATCH (source:Thought {id: $source_id})
     MATCH (target:Thought {id: $target_id})
     MERGE (source)-[r:`type` {props}]->(target) RETURN r]: the number of
    records returned. A failure leaves the graph as it was. *)
Definition run_connect (query rtype : string) (pattern : list (string * string))
    (params : pydict) (g : graph_db) : outcome nat * graph_db :=
  if negb (cypher_parses query) then (Raise (Neo4jError (CypherSyntaxError query)), g)
  else
    let source_id := match dict_get "source_id" params with Some (VStr s) => s | _ => "" end in
    let target_id := match dict_get "target_id" params with Some (VStr s) => s | _ => "" end in
    let rows := list_prod (match_thought source_id g) (match_thought target_id g) in
    match rows with
    | [] => (Return 0, g)
    | _ =>
        let rp := resolve_pattern pattern params in
        match List.find (λ kv, match snd kv with
                               | Some v => negb (storable v)
                               | None => true
                               end) rp with
        | Some kv => (Raise (Neo4jError (CypherTypeError (fst kv))), g)
        | None =>
            (Return (length rows),
             {| thought_id_unique := thought_id_unique g;
                next_node_id := next_node_id g;
                nodes := nodes g;
                rels := fold_left (merge_rel rtype (pattern_props rp)) rows (rels g) |})
        end
    end.

Definition node_content_contains (q : string) (n : node) : bool :=
  match dict_get "content" (node_props n) with
  | Some (VStr c) => contains q c
  | _ => false
  end.

(** [MATCH (t:Thought) WHERE t.content CONTAINS $query_text
     RETURN t LIMIT $limit] *)
Definition run_search (query_text : string) (limit : Z) (g : graph_db)
    : outcome (list node) :=
  if (limit <? 0)%Z then Raise (Neo4jError (NegativeIntegerArgument limit))
  else Return (take (Z.to_nat limit) (List.filter (node_content_contains query_text) (nodes g))).

(** [MATCH (t:Thought {id: $id})-[r:`type`]->(related:Thought)
     WHERE r.weight >= min_weight
     RETURN related, type(r), r.weight, properties(r)] *)
Definition run_related (query : string) (id : string) (rtype : option string)
    (min_weight : float) (g : graph_db)
    : outcome (list (node * rel)) :=
  if negb (cypher_parses query) then Raise (Neo4jError (CypherSyntaxError query))
  else
    Return
      (flat_map (λ t,
         flat_map (λ r,
           if Nat.eqb (rel_start r) (node_id t) &&
              match rtype with Some ty => String.eqb (rel_type r) ty | None => true end &&
              match dict_get "weight" (rel_props r) with
              | Some w => prop_geb w min_weight
              | None => false
              end
           then map (λ n, (n, r))
                    (List.filter (λ n, Nat.eqb (node_id n) (rel_end r)) (nodes g))
           else [])
         (rels g))
       (match_thought id g)).
End Server.

(** [ORDER BY x DESC] by insertion, stable. *)
Fixpoint insert_desc {A} (key : A → option Z) (x : A) (l : list A) : list A :=
  match l with
  | [] => [x]
  | y :: l' =>
      let before :=
        match key x, key y with
        | None, _ => true
        | Some _, None => false
        | Some a, Some b => (b <? a)%Z
        end in
      if before then x :: y :: l' else y :: insert_desc key x l'
  end.

Definition sort_desc {A} (key : A → option Z) (l : list A) : list A :=
  fold_right (insert_desc key) [] l.

Definition node_timestamp (n : node) : option Z :=
  match dict_get "timestamp" (node_props n) with
  | Some (VDateTime t) => Some t
  | _ => None
  end.

(** [MATCH (t:Thought) RETURN t.id as id ORDER BY t.timestamp DESC] *)
Definition run_all_ids (g : graph_db) : list value :=
  map (λ n, default VNone (dict_get "id" (node_props n)))
      (sort_desc node_timestamp (nodes g)).

Fixpoint count_type (ty : string) (h : list (string * Z)) : list (string * Z) :=
  match h with
  | [] => [(ty, 1%Z)]
  | (ty', c) :: h' =>
      if String.eqb ty' ty then (ty', (c + 1)%Z) :: h' else (ty', c) :: count_type ty h'
  end.

(** [MATCH ()-[r]->() RETURN DISTINCT type(r) as type, COUNT(r) as count
     ORDER BY count DESC], as [.values()] lists it. *)
Definition run_rel_types (g : graph_db) : list value :=
  map (λ tc, VList [VStr (fst tc); VInt (snd tc)])
      (sort_desc (λ tc, Some (snd tc))
         (fold_left (λ h r, count_type (rel_type r) h) (rels g) [])).

(** *** The toolkit object and its methods *)

Record driver_t := { drv_uri : string; drv_username : string; drv_password : string }.

Record Neo4jThoughtTools := {
  driver : option driver_t;
  is_initialized : bool;
  uri : string;
  username : string;
  password : string;
}.

(** The toolkit object, the server's graph, and how many UUIDs the process
    has drawn. *)
Record state := {
  self : Neo4jThoughtTools;
  graph : graph_db;
  uuid_draws : nat;
}.

Definition set_driver (d : driver_t) : M state unit :=
  λ st, (Return tt,
         {| self := {| driver := Some d; is_initialized := is_initialized (self st);
                       uri := uri (self st); username := username (self st);
                       password := password (self st) |};
            graph := graph st; uuid_draws := uuid_draws st |}).

Definition set_is_initialized (b : bool) : M state unit :=
  λ st, (Return tt,
         {| self := {| driver := driver (self st); is_initialized := b;
                       uri := uri (self st); username := username (self st);
                       password := password (self st) |};
            graph := graph st; uuid_draws := uuid_draws st |}).

(** A statement run in [with self.driver.session() as session]: what it
    returns or raises comes out of the [with] block, and what it leaves of
    the graph stays. *)
Definition session_run {A} (q : graph_db → outcome A * graph_db) : M state A :=
  λ st, let '(o, g) := q (graph st) in
        (o, {| self := self st; graph := g; uuid_draws := uuid_draws st |}).

Definition session_write (q : graph_db → outcome graph_db) : M state unit :=
  session_run (λ g, match q g with
                    | Return g' => (Return tt, g')
                    | Raise e => (Raise e, g)
                    end).

Definition session_read {A} (q : graph_db → outcome A) : M state A :=
  session_run (λ g, (q g, g)).

Fixpoint map_outcome {A B} (f : A → outcome B) (l : list A) : outcome (list B) :=
  match l with
  | [] => Return []
  | x :: l' =>
      match f x with
      | Raise e => Raise e
      | Return y =>
          match map_outcome f l' with
          | Raise e => Raise e
          | Return ys => Return (y :: ys)
          end
      end
  end.

Section Tool.
Context `{PyRuntime} `{Neo4jServer}.

(** [str(uuid.uuid4())] *)
Definition uuid4 : M state string :=
  λ st, (Return (uuid4_at (uuid_draws st)),
         {| self := self st; graph := graph st; uuid_draws := S (uuid_draws st) |}).

Definition not_initialized_msg : string :=
  "Neo4j connection not initialized. Call 'initialize_connection' first.".

Definition _ensure_initialized : M state unit :=
  let* st := get in
  if negb (is_initialized (self st)) || negb (is_Some_b (driver (self st)))
  then raise (ValueError not_initialized_msg)
  else ret tt.

(** The guard of [_ensure_initialized] passes. *)
Definition ready (st : state) : bool :=
  is_initialized (self st) && is_Some_b (driver (self st)).

(** [GraphDatabase.driver(uri=..., auth=(...))] assigned to [self.driver] *)
Definition new_driver : M state unit :=
  let* st := get in
  if driver_accepts (uri (self st)) (username (self st)) (password (self st))
  then set_driver {| drv_uri := uri (self st); drv_username := username (self st);
                     drv_password := password (self st) |}
  else raise (Neo4jError (ConfigurationError (uri (self st)))).

Definition verify_connectivity : M state unit :=
  let* st := get in
  match driver (self st) with
  | Some d =>
      if server_reachable (drv_uri d) (drv_username d) (drv_password d) then ret tt
      else raise (Neo4jError (ServiceUnavailable (drv_uri d)))
  | None => raise (Neo4jError (ServiceUnavailable ""))
  end.

Definition initialize_connection : M state string :=
  try_except
    (do new_driver then
     do verify_connectivity then
     do session_write run_create_constraint then
     do set_is_initialized true then
     ret "Neo4j connection initialized successfully")
    (λ e, ret ("Error: Failed to initialize Neo4j connection: " +:+ str_exn e)).

(** [Neo4jThoughtTools(uri, username, password)]: [__init__] ends by
    calling [initialize_connection] and drops what it returns. *)
Definition __init__ (uri0 username0 password0 : string) (g : graph_db) (draws : nat) : state :=
  snd (initialize_connection
         {| self := {| driver := None; is_initialized := false; uri := uri0;
                       username := username0; password := password0 |};
            graph := g; uuid_draws := draws |}).

(** [add_thought(content, thought_id="Thought", metadata=None)]; an
    argument left out is [None] here, and [now] is the server's clock. *)
Definition add_thought (content : string) (thought_id : option string)
    (metadata : option pydict) (now : Z) : M state string :=
  let thought_id := default "Thought" thought_id in
  try_except
    (do _ensure_initialized then
     let* thought_id :=
       (if negb (truthy_str thought_id) then uuid4 else ret thought_id) in
     let* metadata_str := lift_outcome (json_dumps (VDict (or_empty_dict metadata))) in
     do session_write (run_create_thought thought_id content metadata_str now) then
     ret thought_id)
    (λ e, ret ("Error: Failed to add thought: " +:+ str_exn e)).

(** The parameters of the relationship query: the three fixed ones, then
    one [prop_<key>] for each property other than the weight. *)
Definition connect_params (source_id target_id : string) (weight : float)
    (properties : pydict) : pydict :=
  fold_left
    (λ params kv,
       if negb (String.eqb (fst kv) "weight")
       then dict_set ("prop_" +:+ fst kv) (snd kv) params
       else params)
    properties
    [("source_id", VStr source_id); ("target_id", VStr target_id);
     ("weight", VFloat weight)].

(** The property string of the query. *)
Definition connect_props (properties : pydict) : string :=
  fold_left
    (λ props key,
       if negb (String.eqb key "weight")
       then props +:+ ", " +:+ key +:+ ": $prop_" +:+ key
       else props)
    (dict_keys properties)
    "{ weight: $weight"
  +:+ " }".

Definition indent : string := "                    ".

Definition connect_query (relationship_type props : string) : string :=
  nl +:+ indent +:+ "MATCH (source:Thought {id: $source_id})" +:+
  nl +:+ indent +:+ "MATCH (target:Thought {id: $target_id})" +:+
  nl +:+ indent +:+ "MERGE (source)-[r:`" +:+ relationship_type +:+ "` " +:+ props +:+ "]->(target)" +:+
  nl +:+ indent +:+ "RETURN r" +:+
  nl +:+ "                ".

(** The property map the query text spells: each key with the parameter
    that holds its value. *)
Definition connect_pattern (properties : pydict) : list (string * string) :=
  ("weight", "weight") ::
  map (λ key, (key, "prop_" +:+ key))
      (List.filter (λ key, negb (String.eqb key "weight")) (dict_keys properties)).

(** [connect_thoughts(source_id, target_id, relationship_type="RELATED_TO",
     weight=0.5, properties=None)] *)
Definition connect_thoughts (source_id target_id : string)
    (relationship_type : option string) (weight : option float)
    (properties : option pydict) : M state string :=
  let relationship_type := default "RELATED_TO" relationship_type in
  let weight := default 0.5%float weight in
  try_except
    (do _ensure_initialized then
     let properties := match properties with None => [] | Some p => p end in
     let properties := dict_set "weight" (VFloat weight) properties in
     let params := connect_params source_id target_id weight properties in
     let props := connect_props properties in
     let query := connect_query relationship_type props in
     let* records :=
       session_run (run_connect query relationship_type
                      (connect_pattern properties) params) in
     match records with
     | S _ =>
         ret ("Thoughts connected successfully with relationship type '" +:+
              relationship_type +:+ "' and weight " +:+ str_float weight)
     | O => ret "Error: Failed to connect thoughts - one or both thoughts not found"
     end)
    (λ e, ret ("Error: Failed to connect thoughts: " +:+ str_exn e)).

(** [json.loads(x)] on a property value: only a [str] is parsed. *)
Definition json_loads_value (x : value) : outcome value :=
  match x with
  | VStr s => json_loads s
  | _ => Raise (TypeError "the JSON object must be str, bytes or bytearray")
  end.

(** The block "Parse metadata_json back to dictionary if it exists", which
    [get_thought], [get_related_thoughts] and [search_thoughts] each
    carry: on a parse failure the fallback is the empty map. *)
Definition parse_metadata_json (thought : pydict) : outcome pydict :=
  match dict_get "metadata_json" thought with
  | Some x =>
      match json_loads_value x with
      | Return v => Return (dict_del "metadata_json" (dict_set "metadata" v thought))
      | Raise (JSONDecodeError _) | Raise (TypeError _) =>
          Return (dict_set "metadata" (VDict []) thought)
      | Raise e => Raise e
      end
  | None => Return thought
  end.

(** The dictionary [get_thought] builds before it serializes it. *)
Definition get_thought_record (thought_id : string) : M state (option pydict) :=
  let* records := session_read (λ g, Return (match_thought thought_id g)) in
  match records with
  | record :: _ =>
      let* thought := lift_outcome (parse_metadata_json (node_props record)) in
      ret (Some thought)
  | [] => ret None
  end.

Definition get_thought (thought_id : string) : M state string :=
  try_except
    (do _ensure_initialized then
     let* thought := get_thought_record thought_id in
     match thought with
     | Some thought => ret (json_dumps_default_str (VDict thought))
     | None => ret ("Error: Thought with ID '" +:+ thought_id +:+ "' not found")
     end)
    (λ e, ret ("Error: Failed to get thought: " +:+ str_exn e)).

Definition related_query (rel_filter weight_filter : string) : string :=
  nl +:+ indent +:+ "MATCH (t:Thought {id: $id})-[r" +:+ rel_filter +:+ "]->(related:Thought)" +:+
  nl +:+ indent +:+ "WHERE " +:+ weight_filter +:+
  nl +:+ indent +:+ "RETURN related, type(r) AS relationship_type, r.weight AS weight, " +:+
  nl +:+ indent +:+ "       properties(r) AS properties" +:+
  nl +:+ "                ".

(** [get_related_thoughts(thought_id, relationship_type=None, min_weight=0.0)] *)
Definition get_related_thoughts (thought_id : string)
    (relationship_type : option string) (min_weight : option float) : M state string :=
  let min_weight := default 0%float min_weight in
  try_except
    (do _ensure_initialized then
     let rel_filter :=
       if truthy_opt_str relationship_type
       then ":`" +:+ default "" relationship_type +:+ "`" else "" in
     let weight_filter := "r.weight >= " +:+ str_float min_weight in
     let* result :=
       session_read (run_related (related_query rel_filter weight_filter) thought_id
                       (if truthy_opt_str relationship_type then relationship_type else None)
                       min_weight) in
     let* related :=
       lift_outcome
         (map_outcome
            (λ record,
               match parse_metadata_json (node_props (fst record)) with
               | Raise e => Raise e
               | Return thought_data =>
                   Return (VDict [("thought", VDict thought_data);
                                  ("relationship",
                                   VDict [("type", VStr (rel_type (snd record)));
                                          ("weight", default VNone
                                             (dict_get "weight" (rel_props (snd record))));
                                          ("properties", VDict (rel_props (snd record)))])])
               end)
            result) in
     ret (json_dumps_default_str (VList related)))
    (λ e, ret ("Error: Failed to get related thoughts: " +:+ str_exn e)).

(** The list [search_thoughts] builds before it serializes it. *)
Definition search_thoughts_records (query_text : string) (limit : Z)
    : M state (list pydict) :=
  let* result := session_read (run_search query_text limit) in
  lift_outcome (map_outcome (λ record, parse_metadata_json (node_props record)) result).

(** [search_thoughts(query_text, limit=10)] *)
Definition search_thoughts (query_text : string) (limit : option Z) : M state string :=
  let limit := default 10%Z limit in
  try_except
    (do _ensure_initialized then
     let* thoughts := search_thoughts_records query_text limit in
     ret (json_dumps_default_str (VList (map VDict thoughts))))
    (λ e, ret ("Error: Failed to search thoughts: " +:+ str_exn e)).

(** [execute_custom_query(query, params=None)] *)
Definition execute_custom_query (query : string) (params : option pydict) : M state string :=
  try_except
    (do _ensure_initialized then
     let* records := session_run (run_custom_query query (or_empty_dict params)) in
     ret (json_dumps_default_str (VList (map VDict records))))
    (λ e, ret ("Error: Failed to execute custom query: " +:+ str_exn e)).

Definition get_graph_summary : M state string :=
  try_except
    (do _ensure_initialized then
     let* node_count := session_read (λ g, Return (Z.of_nat (length (nodes g)))) in
     let* rel_count := session_read (λ g, Return (Z.of_nat (length (rels g)))) in
     let* rel_types := session_read (λ g, Return (run_rel_types g)) in
     let summary := [("thought_count", VInt node_count);
                     ("relationship_count", VInt rel_count);
                     ("relationship_types", VList rel_types)] in
     ret (json_dumps_default_str (VDict summary)))
    (λ e, ret ("Error: Failed to get graph summary: " +:+ str_exn e)).

Definition get_all_node_ids : M state string :=
  try_except
    (do _ensure_initialized then
     let* node_ids := session_read (λ g, Return (run_all_ids g)) in
     lift_outcome (json_dumps (VDict [("node_ids", VList node_ids)])))
    (λ e, ret ("Error: Failed to retrieve thought node IDs: " +:+ str_exn e)).
End Tool.

End Neo4j.

(** ** The configuration records (agents/utils/responses.py) *)

Module Responses.

(** [PineconeAuthConfig]; a field that holds [None] is [None] here. *)
Record PineconeAuthConfig := {
  api_key : option string;
  index_name : option string;
  dimensions : Z;
  metric : string;
  cloud : string;
  region : string;
}.

Definition default_config (api_key : option string) : PineconeAuthConfig :=
  {| api_key := api_key; index_name := Some "retrieval-agent-index"; dimensions := 1536;
     metric := "cosine"; cloud := "aws"; region := "us-east-1" |}.

End Responses.

(** ** The Pinecone thought index (pinecone_tool.py) *)

Module Pinecone.

Record vector_record := { rec_values : list float; rec_metadata : pydict }.

(** The service: whether a client can be built from an API key and an
    index opened by name, whether the index takes a vector (its dimension
    and metadata limits), and the embedding [_get_embedding_from_openai]
    returns (from the provider, or the seeded fallback). *)
Class PineconeService := {
  client_accepts : option string → bool;
  index_opens : string → bool;
  upsert_accepts : string → list float → pydict → bool;
  get_embedding : string → list float;
}.

Record PineconeTools := {
  _pc : option (option string);        (* the client, by its API key *)
  _index : option string;              (* the open index, by its name *)
  api_key : option string;
  index_name : option string;
  dimension : Z;
  name_space : string;
}.

(** The toolkit object, the index contents by namespace and id, and how
    many UUIDs the process has drawn. *)
Record state := {
  self : PineconeTools;
  index_store : gmap string (gmap string vector_record);
  uuid_draws : nat;
}.

Definition namespace_records (ns : string) (st : state) : gmap string vector_record :=
  default ∅ (index_store st !! ns).

Section Tool.
Context `{PyRuntime} `{PineconeService}.

Definition uuid4 : M state string :=
  λ st, (Return (uuid4_at (uuid_draws st)),
         {| self := self st; index_store := index_store st;
            uuid_draws := S (uuid_draws st) |}).

Definition set_pc (c : option string) : M state unit :=
  λ st, (Return tt,
         {| self := {| _pc := Some c; _index := _index (self st);
                       api_key := api_key (self st); index_name := index_name (self st);
                       dimension := dimension (self st); name_space := name_space (self st) |};
            index_store := index_store st; uuid_draws := uuid_draws st |}).

(** [_connect_to_pinecone]: [True] when the client was built. *)
Definition _connect_to_pinecone : M state bool :=
  try_except
    (let* st := get in
     if client_accepts (api_key (self st))
     then do set_pc (api_key (self st)) then ret true
     else raise (OtherError "PineconeConfigurationError" "invalid API key"))
    (λ _, ret false).

Definition _ensure_connected : M state unit :=
  let* st := get in
  match _pc (self st) with
  | None =>
      let* ok := _connect_to_pinecone in
      if negb ok
      then raise (ValueError "Not connected to Pinecone. Please check your API key.")
      else ret tt
  | Some _ => ret tt
  end.

Definition _ensure_index_connected : M state unit :=
  do _ensure_connected then
  let* st := get in
  match _index (self st) with
  | None => raise (ValueError "Not connected to a Pinecone index. Please connect to an index first.")
  | Some _ => ret tt
  end.

(** [self._index.upsert(vectors=[{id, values, metadata}], namespace=ns)]:
    the record under [id] is written, over an earlier one if any. *)
Definition index_upsert (id : string) (values : list float) (metadata : pydict)
    (ns : string) : M state unit :=
  λ st,
    if upsert_accepts id values metadata then
      (Return tt,
       {| self := self st;
          index_store :=
            <[ns := <[id := {| rec_values := values; rec_metadata := metadata |}]>
                      (namespace_records ns st)]> (index_store st);
          uuid_draws := uuid_draws st |})
    else (Raise (OtherError "PineconeApiException" "upsert rejected"), st).

(** [upsert_thought(content, metadata=None, thought_id=None)] *)
Definition upsert_thought (content : string) (metadata : option pydict)
    (thought_id : option string) : M state string :=
  try_except
    (do _ensure_index_connected then
     let* thought_id :=
       (if negb (truthy_opt_str thought_id) then uuid4
        else ret (default "" thought_id)) in
     let embedding := get_embedding content in
     let metadata := match metadata with None => [] | Some m => m end in
     let metadata := dict_set "text" (VStr content) metadata in
     let* st := get in
     do index_upsert thought_id embedding metadata (name_space (self st)) then
     ret thought_id)
    (λ e, ret ("Error: Failed to upsert thought: " +:+ str_exn e)).
End Tool.

(** What else the index does: the matches it answers a similarity query
    with (id, score and metadata of each, in its order), whether it
    carries out a deletion or a write of several vectors, and the
    embedding [_get_embedding_from_openai] returns for a content that is
    not a [str]. *)
Class PineconeIndexApi := {
  query_matches : list float → Z → gmap string vector_record
                  → outcome (list (string * float * pydict));
  delete_accepts : string → gmap string vector_record → bool;
  upsert_many_accepts : list (string * vector_record) → bool;
  embed_other : value → outcome (list float);
}.

(** [namespace=None] is the default namespace of the index, whose name is
    the empty string. *)
Definition ns_key (namespace : option string) : string := default "" namespace.

(** [{k: v for k, v in metadata.items() if k != "text"}] *)
Definition without_text (metadata : pydict) : pydict :=
  List.filter (λ kv, negb (String.eqb (fst kv) "text")) metadata.

(** [type(v).__name__] *)
Definition type_name (v : value) : string :=
  match v with
  | VNone => "NoneType"
  | VBool _ => "bool"
  | VInt _ => "int"
  | VFloat _ => "float"
  | VStr _ => "str"
  | VDateTime _ => "DateTime"
  | VList _ => "list"
  | VDict _ => "dict"
  | VTuple _ => "tuple"
  end.

(** [metadata["text"] = content] on whatever [metadata] is. *)
Definition set_text (content metadata : value) : outcome pydict :=
  match metadata with
  | VDict d => Return (dict_set "text" content d)
  | VList _ => Raise (TypeError "list indices must be integers or slices, not str")
  | other => Raise (TypeError ("'" +:+ type_name other +:+
                               "' object does not support item assignment"))
  end.

Section Index.
Context `{PyRuntime} `{PineconeService} `{PineconeIndexApi}.

Definition set_index (name : string) : M state unit :=
  λ st, (Return tt,
         {| self := {| _pc := _pc (self st); _index := Some name;
                       api_key := api_key (self st); index_name := Some name;
                       dimension := dimension (self st); name_space := name_space (self st) |};
            index_store := index_store st; uuid_draws := uuid_draws st |}).

(** [_connect_to_index(index_name)]: [True] when the index was opened. *)
Definition _connect_to_index (index_name : string) : M state bool :=
  try_except
    (let* st := get in
     match _pc (self st) with
     | None => raise (OtherError "AttributeError"
                        "'NoneType' object has no attribute 'Index'")
     | Some _ =>
         if index_opens index_name
         then do set_index index_name then ret true
         else raise (OtherError "NotFoundException" ("index " +:+ index_name +:+ " not found"))
     end)
    (λ _, ret false).

(** [PineconeTools(pinecone_config=None, name_space="AI-Reflections")],
    with [env_api_key] what [os.getenv("PINECONE_API_KEY")] gives, on an
    index holding [store]. *)
Definition __init__ (pinecone_config : option Responses.PineconeAuthConfig)
    (name_space : option string) (env_api_key : option string)
    (store : gmap string (gmap string vector_record)) (draws : nat) : outcome state :=
  match pinecone_config with
  | None => Raise (OtherError "AttributeError"
                     "'NoneType' object has no attribute 'api_key'")
  | Some pinecone_config =>
      let key := if truthy_opt_str (Responses.api_key pinecone_config)
                 then Responses.api_key pinecone_config else env_api_key in
      let st0 :=
        {| self := {| _pc := None; _index := None; api_key := key;
                      index_name := Responses.index_name pinecone_config;
                      dimension := Responses.dimensions pinecone_config;
                      name_space := default "AI-Reflections" name_space |};
           index_store := store; uuid_draws := draws |} in
      match (if truthy_opt_str key then
               do _connect_to_pinecone then
               if truthy_opt_str (Responses.index_name pinecone_config)
               then do _connect_to_index
                         (default "" (Responses.index_name pinecone_config)) then ret tt
               else ret tt
             else ret tt) st0 with
      | (Return _, st) => Return st
      | (Raise e, _) => Raise e
      end
  end.

(** [self._index.fetch(ids=[id], namespace=namespace).vectors.get(id)] *)
Definition index_fetch (id : string) (namespace : option string)
    : M state (option vector_record) :=
  let* st := get in
  ret (namespace_records (ns_key namespace) st !! id).

(** [self._index.delete(ids=[id], namespace=namespace)] *)
Definition index_delete (id : string) (namespace : option string) : M state unit :=
  λ st,
    if delete_accepts id (namespace_records (ns_key namespace) st) then
      (Return tt,
       {| self := self st;
          index_store :=
            <[ns_key namespace := delete id (namespace_records (ns_key namespace) st)]>
              (index_store st);
          uuid_draws := uuid_draws st |})
    else (Raise (OtherError "PineconeApiException" "delete rejected"), st).

(** [self._index.upsert(vectors=vectors, namespace=namespace)]: all the
    vectors are written, in their order, or none. *)
Definition index_upsert_many (vectors : list (value * vector_record))
    (namespace : option string) : M state unit :=
  λ st,
    match mapM (λ v, match fst v with
                     | VStr id => Some (id, snd v)
                     | _ => None
                     end) vectors with
    | None => (Raise (OtherError "PineconeApiTypeError" "vector id must be a string"), st)
    | Some records =>
        if upsert_many_accepts records then
          (Return tt,
           {| self := self st;
              index_store :=
                <[ns_key namespace :=
                    fold_left (λ m r, <[fst r := snd r]> m) records
                      (namespace_records (ns_key namespace) st)]>
                  (index_store st);
              uuid_draws := uuid_draws st |})
        else (Raise (OtherError "PineconeApiException" "upsert rejected"), st)
    end.

(** [_get_embedding_from_openai(content)] on any value. *)
Definition get_embedding_of (content : value) : outcome (list float) :=
  match content with
  | VStr text => Return (get_embedding text)
  | other => embed_other other
  end.

(** The loop of [upsert_thoughts_batch]: the vectors it collects, each
    with its id. *)
Fixpoint batch_vectors (thoughts : list pydict) : M state (list (value * vector_record)) :=
  match thoughts with
  | [] => ret []
  | thought :: thoughts' =>
      let thought_id := default VNone (dict_get "id" thought) in
      let* thought_id :=
        (if negb (truthy thought_id)
         then let* u := uuid4 in ret (VStr u)
         else ret thought_id) in
      let* content :=
        (match dict_get "content" thought with
         | Some content => ret content
         | None => raise (OtherError "KeyError" "'content'")
         end) in
      let metadata := default (VDict []) (dict_get "metadata" thought) in
      let* metadata := lift_outcome (set_text content metadata) in
      let* embedding := lift_outcome (get_embedding_of content) in
      let* vectors := batch_vectors thoughts' in
      ret ((thought_id, {| rec_values := embedding; rec_metadata := metadata |}) :: vectors)
  end.

(** [upsert_thoughts_batch(thoughts, namespace=None)] *)
Definition upsert_thoughts_batch (thoughts : list pydict) (namespace : option string)
    : M state string :=
  try_except
    (do _ensure_index_connected then
     let* vectors := batch_vectors thoughts in
     do index_upsert_many vectors namespace then
     lift_outcome (json_dumps (VList (map fst vectors))))
    (λ e, ret ("Error: Failed to upsert thoughts batch: " +:+ str_exn e)).

(** One entry of the list [query_similar_thoughts] returns. *)
Definition match_entry (m : string * float * pydict) : value :=
  VDict [("id", VStr (fst (fst m)));
         ("score", VFloat (snd (fst m)));
         ("content", default (VStr "") (dict_get "text" (snd m)));
         ("metadata", VDict (without_text (snd m)))].

(** [query_similar_thoughts(query, top_k=5, namespace=None)] *)
Definition query_similar_thoughts (query : string) (top_k : option Z)
    (namespace : option string) : M state string :=
  let top_k := default 5%Z top_k in
  try_except
    (do _ensure_index_connected then
     let query_embedding := get_embedding query in
     let* st := get in
     let* results :=
       lift_outcome (query_matches query_embedding top_k
                       (namespace_records (ns_key namespace) st)) in
     ret (json_dumps_default_str (VList (map match_entry results))))
    (λ e, ret ("Error: Failed to query similar thoughts: " +:+ str_exn e)).

(** [fetch_thought(thought_id, namespace=None)] *)
Definition fetch_thought (thought_id : string) (namespace : option string) : M state string :=
  try_except
    (do _ensure_index_connected then
     let* vector_data := index_fetch thought_id namespace in
     match vector_data with
     | None => ret ("Error: Thought with ID '" +:+ thought_id +:+ "' not found")
     | Some vector_data =>
         let thought :=
           [("id", VStr thought_id);
            ("content", default (VStr "") (dict_get "text" (rec_metadata vector_data)));
            ("metadata", VDict (without_text (rec_metadata vector_data)))] in
         ret (json_dumps_default_str (VDict thought))
     end)
    (λ e, ret ("Error: Failed to fetch thought: " +:+ str_exn e)).

(** [delete_thought(thought_id, namespace=None)] *)
Definition delete_thought (thought_id : string) (namespace : option string) : M state string :=
  try_except
    (do _ensure_index_connected then
     do index_delete thought_id namespace then
     ret ("Thought with ID '" +:+ thought_id +:+ "' deleted successfully"))
    (λ e, ret ("Error: Failed to delete thought: " +:+ str_exn e)).
End Index.

End Pinecone.

(** ** The LightRAG knowledge base tool (lightrag_tool.py) *)

(** The five retrieval modes the tool offers. *)
Definition retrieval_modes : list string := ["naive"; "local"; "global"; "hybrid"; "mix"].

(** What [aquery] hands back: a [str], or an object of another type (given
    by [str(type(response))]). *)
Inductive response : Type :=
| RespStr (s : string)
| RespOther (type_repr : string).

(** The LightRAG instance, with [S] the state of its storages. Each method
    returns or raises, and leaves the storages in a new state. [has_node]
    and [has_edge] are the existence tests of its graph storage. *)
Class LightRAG (S : Type) := {
  initialize_storages : S → outcome unit * S;
  initialize_pipeline_status : S → outcome unit * S;
  finalize_storages : S → outcome unit * S;
  ainsert : string → option string → option string → S → outcome unit * S;
  aquery : string → string → Z → S → outcome response * S;
  acreate_entity : string → pydict → S → outcome value * S;
  aedit_entity : string → pydict → bool → S → outcome value * S;
  adelete_by_entity : string → S → outcome unit * S;
  acreate_relation : string → string → pydict → S → outcome value * S;
  aedit_relation : string → string → pydict → S → outcome value * S;
  adelete_by_relation : string → string → S → outcome unit * S;
  amerge_entities : list string → string → option pydict → S → outcome value * S;
  get_entity_info : string → bool → S → outcome value * S;
  get_relation_info : string → string → bool → S → outcome value * S;
  get_processing_status : S → outcome (list (string * Z)) * S;
  adelete_by_doc_id : string → S → outcome unit * S;
  aclear_cache : option (list string) → S → outcome unit * S;
  has_node : string → S → bool;
  has_edge : string → string → S → bool;
}.

Module LightRAGTool.

(** An instance attribute: never assigned, [None], or an object. *)
Inductive attr (S : Type) : Type :=
| Unset
| IsNone
| Obj (s : S).
Arguments Unset {S}.
Arguments IsNone {S}.
Arguments Obj {S} s.

Record LightRAGTool (S : Type) := {
  rag_instance : attr S;
  is_initialized : bool;
  default_top_k : Z;
}.
Arguments rag_instance {S} _.
Arguments is_initialized {S} _.
Arguments default_top_k {S} _.

(** [str(k).split('.')[-1]] *)
Fixpoint last_segment_from (acc s : string) : string :=
  match s with
  | EmptyString => acc
  | String c s' =>
      if Ascii.eqb c "."%char then last_segment_from "" s'
      else last_segment_from (acc +:+ String c "") s'
  end.

Definition last_segment (s : string) : string := last_segment_from "" s.

Section Tool.
Context `{PyRuntime} {S : Type} `{LightRAG S}.

Abbreviation tool := (LightRAGTool S).

Definition set_is_initialized (b : bool) : M tool unit :=
  λ t, (Return tt, {| rag_instance := rag_instance t; is_initialized := b;
                      default_top_k := default_top_k t |}).

(** Reading [self.rag_instance] for its truth value. *)
Definition rag_instance_truthy : M tool bool :=
  λ t, match rag_instance t with
       | Unset => (Raise (OtherError "AttributeError"
                     "'LightRAGTool' object has no attribute 'rag_instance'"), t)
       | IsNone => (Return false, t)
       | Obj _ => (Return true, t)
       end.

(** The tool with its LightRAG instance in state [s]. *)
Definition with_instance (s : S) (t : tool) : tool :=
  {| rag_instance := Obj s; is_initialized := is_initialized t;
     default_top_k := default_top_k t |}.

(** [await self.rag_instance.method(...)] *)
Definition call {A} (method : S → outcome A * S) : M tool A :=
  λ t, match rag_instance t with
       | Unset => (Raise (OtherError "AttributeError"
                     "'LightRAGTool' object has no attribute 'rag_instance'"), t)
       | IsNone => (Raise (OtherError "AttributeError"
                     "'NoneType' object has no attribute"), t)
       | Obj s => let '(o, s') := method s in (o, with_instance s' t)
       end.

(** [LightRAGTool(config)]: nothing is assigned to [rag_instance] when
    the library or the API key is missing; a failed construction leaves
    [None]. *)
Definition __init__ (lightrag_available : bool) (openai_api_key : option string)
    (construct : outcome S) (top_k : Z) : tool :=
  let t0 := {| rag_instance := Unset; is_initialized := false; default_top_k := top_k |} in
  if negb lightrag_available then t0
  else if negb (truthy_opt_str openai_api_key) then t0
  else match construct with
       | Return s => {| rag_instance := Obj s; is_initialized := false; default_top_k := top_k |}
       | Raise _ => {| rag_instance := IsNone; is_initialized := false; default_top_k := top_k |}
       end.

Definition initialize : M tool string :=
  let* t := get in
  if is_initialized t then ret "LightRAGTool is already initialized."
  else
    let* present := rag_instance_truthy in
    if negb present
    then ret "Error: Cannot initialize, LightRAG instance was not created during instantiation."
    else
      try_except
        (do call initialize_storages then
         do call initialize_pipeline_status then
         do set_is_initialized true then
         ret "Initialization successful.")
        (λ e, do set_is_initialized false then
              ret ("Error during LightRAGTool async initialization: " +:+ str_exn e)).

Definition finalize : M tool string :=
  let* t := get in
  if negb (is_initialized t)
  then ret "LightRAGTool was not initialized, skipping finalization."
  else
    let* present := rag_instance_truthy in
    if negb present then ret "Error: Cannot finalize, LightRAG instance is missing."
    else
      try_except
        (do call finalize_storages then
         do set_is_initialized false then
         ret "Finalization successful.")
        (λ e, do set_is_initialized false then
              ret ("Error during LightRAGTool async finalization: " +:+ str_exn e)).

Definition not_ready_msg : string :=
  "LightRAG instance is not available or not initialized. Call `await tool.initialize()` first.".

Definition _ensure_rag_ready : M tool unit :=
  let* present := rag_instance_truthy in
  let* t := get in
  if negb present || negb (is_initialized t)
  then raise (RuntimeError not_ready_msg)
  else ret tt.

(** The guard of [_ensure_rag_ready] passes. *)
Definition rag_ready (t : tool) : bool :=
  match rag_instance t with
  | Obj _ => is_initialized t
  | _ => false
  end.

(** [store_text(text_content, document_id=None, file_path=None)] *)
Definition store_text (text_content : string) (document_id file_path : option string)
    : M tool string :=
  do _ensure_rag_ready then
  if negb (truthy_str text_content)
  then ret "Error: Invalid input. 'text_content' must be a non-empty string."
  else
    try_except
      (do call (ainsert text_content document_id file_path) then
       ret ("Text content (ID: " +:+
            (if truthy_opt_str document_id then default "" document_id else "auto-generated")
            +:+ ") enqueued for processing in LightRAG."))
      (λ e, ret ("Error storing text into LightRAG: " +:+ str_exn e)).

Definition _retrieve (query mode : string) (top_k : option Z) : M tool string :=
  do _ensure_rag_ready then
  if negb (truthy_str query)
  then ret "Error: Invalid input. 'query' must be a non-empty string."
  else
    let* t := get in
    let k := match top_k with Some k => k | None => default_top_k t end in
    try_except
      (let* response := call (aquery query mode k) in
       match response with
       | RespStr response =>
           ret (if truthy_str response then response
                else "No results or response generated for mode '" +:+ mode +:+ "'.")
       | RespOther ty =>
           ret ("Received unexpected response type (" +:+ ty +:+ ") for mode '" +:+
                mode +:+ "'. Needs handling.")
       end)
      (λ e, ret ("Error during '" +:+ mode +:+ "' retrieval: " +:+ str_exn e)).

Definition retrieve_naive (query : string) (top_k : option Z) : M tool string :=
  _retrieve query "naive" top_k.
Definition retrieve_local_kg (query : string) (top_k : option Z) : M tool string :=
  _retrieve query "local" top_k.
Definition retrieve_global_kg (query : string) (top_k : option Z) : M tool string :=
  _retrieve query "global" top_k.
Definition retrieve_hybrid (query : string) (top_k : option Z) : M tool string :=
  _retrieve query "hybrid" top_k.
Definition retrieve_mix_kg_vector (query : string) (top_k : option Z) : M tool string :=
  _retrieve query "mix" top_k.

(** [try: body  except ValueError as ve: ...  except Exception as e: ...] *)
Definition try_except_value {A} (body : M tool A) (on_value : exn → M tool A)
    (on_other : exn → M tool A) : M tool A :=
  try_except body (λ e, if is_ValueError e then on_value e else on_other e).

(** The dictionary [create_entity] hands to [acreate_entity]. *)
Definition entity_data (description entity_type : option string) (source_id : string)
    : pydict :=
  [("description", VStr (if truthy_opt_str description then default "" description else ""));
   ("entity_type",
    VStr (if truthy_opt_str entity_type then default "" entity_type else "UNKNOWN"));
   ("source_id", VStr source_id)].

(** [create_entity(entity_name, description=None, entity_type=None,
     source_id="manual")] *)
Definition create_entity (entity_name : string) (description entity_type : option string)
    (source_id : option string) : M tool string :=
  let source_id := default "manual" source_id in
  do _ensure_rag_ready then
  if negb (truthy_str entity_name)
  then ret "Error: Invalid input. 'entity_name' must be a non-empty string."
  else
    try_except_value
      (do call (acreate_entity entity_name
                  (entity_data description entity_type source_id)) then
       ret ("Entity '" +:+ entity_name +:+ "' created successfully."))
      (λ ve, ret ("Error: " +:+ str_exn ve))
      (λ e, ret ("Error creating entity '" +:+ entity_name +:+ "': " +:+ str_exn e)).

(** [edit_entity(entity_name, updates, allow_rename=False)] *)
Definition edit_entity (entity_name : string) (updates : pydict)
    (allow_rename : option bool) : M tool string :=
  let allow_rename := default false allow_rename in
  do _ensure_rag_ready then
  if negb (truthy_str entity_name)
  then ret "Error: Invalid input. 'entity_name' must be a non-empty string."
  else if negb (truthy_list updates)
  then ret "Error: Invalid input. 'updates' must be a non-empty dictionary."
  else
    let new_name := default (VStr entity_name) (dict_get "entity_name" updates) in
    try_except_value
      (do call (aedit_entity entity_name updates allow_rename) then
       match new_name with
       | VStr new_name =>
           let action := if String.eqb new_name entity_name then "updated" else "renamed to" in
           ret ("Entity '" +:+ entity_name +:+ "' " +:+ action +:+ " '" +:+ new_name +:+
                "' successfully.")
       | other =>
           ret ("Entity '" +:+ entity_name +:+ "' renamed to '" +:+
                str_value other +:+ "' successfully.")
       end)
      (λ ve, ret ("Error: " +:+ str_exn ve))
      (λ e, ret ("Error editing entity '" +:+ entity_name +:+ "': " +:+ str_exn e)).

Definition delete_entity (entity_name : string) : M tool string :=
  do _ensure_rag_ready then
  if negb (truthy_str entity_name)
  then ret "Error: Invalid input. 'entity_name' must be a non-empty string."
  else
    try_except
      (do call (adelete_by_entity entity_name) then
       ret ("Entity '" +:+ entity_name +:+ "' and its relationships deleted successfully."))
      (λ e, ret ("Error deleting entity '" +:+ entity_name +:+ "': " +:+ str_exn e)).

(** The dictionary [create_relation] hands to [acreate_relation]. *)
Definition relation_data (description keywords : option string) (weight : float)
    (source_id : string) : pydict :=
  [("description", VStr (if truthy_opt_str description then default "" description else ""));
   ("keywords", VStr (if truthy_opt_str keywords then default "" keywords else ""));
   ("weight", VFloat weight);
   ("source_id", VStr source_id)].

(** [create_relation(source_entity, target_entity, description=None,
     keywords=None, weight=1.0, source_id="manual")] *)
Definition create_relation (source_entity target_entity : string)
    (description keywords : option string) (weight : option float)
    (source_id : option string) : M tool string :=
  let weight := default 1%float weight in
  let source_id := default "manual" source_id in
  do _ensure_rag_ready then
  if negb (truthy_str source_entity) || negb (truthy_str target_entity)
  then ret "Error: Both 'source_entity' and 'target_entity' must be non-empty strings."
  else
    try_except_value
      (do call (acreate_relation source_entity target_entity
                  (relation_data description keywords weight source_id)) then
       ret ("Relation '" +:+ source_entity +:+ "' -> '" +:+ target_entity +:+
            "' created successfully."))
      (λ ve, ret ("Error: " +:+ str_exn ve))
      (λ e, ret ("Error creating relation '" +:+ source_entity +:+ "'->'" +:+
                 target_entity +:+ "': " +:+ str_exn e)).

Definition edit_relation (source_entity target_entity : string) (updates : pydict)
    : M tool string :=
  do _ensure_rag_ready then
  if negb (truthy_str source_entity) || negb (truthy_str target_entity)
  then ret "Error: Both 'source_entity' and 'target_entity' must be non-empty strings."
  else if negb (truthy_list updates)
  then ret "Error: Invalid input. 'updates' must be a non-empty dictionary."
  else
    try_except_value
      (do call (aedit_relation source_entity target_entity updates) then
       ret ("Relation '" +:+ source_entity +:+ "' -> '" +:+ target_entity +:+
            "' updated successfully."))
      (λ ve, ret ("Error: " +:+ str_exn ve))
      (λ e, ret ("Error editing relation '" +:+ source_entity +:+ "'->'" +:+
                 target_entity +:+ "': " +:+ str_exn e)).

Definition delete_relation (source_entity target_entity : string) : M tool string :=
  do _ensure_rag_ready then
  if negb (truthy_str source_entity) || negb (truthy_str target_entity)
  then ret "Error: Both 'source_entity' and 'target_entity' must be non-empty strings."
  else
    try_except
      (do call (adelete_by_relation source_entity target_entity) then
       ret ("Relation '" +:+ source_entity +:+ "' -> '" +:+ target_entity +:+
            "' deleted successfully (if it existed)."))
      (λ e, ret ("Error deleting relation '" +:+ source_entity +:+ "'->'" +:+
                 target_entity +:+ "': " +:+ str_exn e)).

(** [merge_entities(source_entities, target_entity, target_data_override=None)] *)
Definition merge_entities (source_entities : list string) (target_entity : string)
    (target_data_override : option pydict) : M tool string :=
  do _ensure_rag_ready then
  if negb (truthy_list source_entities)
  then ret "Error: 'source_entities' must be a non-empty list of strings."
  else if negb (truthy_str target_entity)
  then ret "Error: 'target_entity' must be a non-empty string."
  else if existsb (String.eqb target_entity) source_entities &&
          Nat.eqb (length source_entities) 1
  then ret ("Error: Cannot merge entity '" +:+ target_entity +:+ "' into itself.")
  else
    try_except_value
      (do call (amerge_entities source_entities target_entity target_data_override) then
       ret ("Entities " +:+ str_list source_entities +:+ " merged successfully into '" +:+
            target_entity +:+ "'."))
      (λ ve, ret ("Error: " +:+ str_exn ve))
      (λ e, ret ("Error merging entities into '" +:+ target_entity +:+ "': " +:+ str_exn e)).

(** [not details or not details.get("graph_data")]; [.get] exists on a
    dictionary only. *)
Definition details_missing (details : value) : outcome bool :=
  if negb (truthy details) then Return true
  else match details with
       | VDict d => Return (negb (truthy (default VNone (dict_get "graph_data" d))))
       | _ => Raise (OtherError "AttributeError" "object has no attribute 'get'")
       end.

Definition get_entity_details (entity_name : string) : M tool value :=
  do _ensure_rag_ready then
  if negb (truthy_str entity_name)
  then ret (VStr "Error: Invalid input. 'entity_name' must be a non-empty string.")
  else
    try_except
      (let* details := call (get_entity_info entity_name true) in
       let* missing := lift_outcome (details_missing details) in
       if missing then ret (VStr ("Entity '" +:+ entity_name +:+ "' not found."))
       else ret details)
      (λ e, ret (VStr ("Error getting details for entity '" +:+ entity_name +:+ "': " +:+
                       str_exn e))).

Definition get_relation_details (source_entity target_entity : string) : M tool value :=
  do _ensure_rag_ready then
  if negb (truthy_str source_entity) || negb (truthy_str target_entity)
  then ret (VStr "Error: Both 'source_entity' and 'target_entity' must be non-empty strings.")
  else
    try_except
      (let* details := call (get_relation_info source_entity target_entity true) in
       let* missing := lift_outcome (details_missing details) in
       if missing
       then ret (VStr ("Relation '" +:+ source_entity +:+ "' -> '" +:+ target_entity +:+
                       "' not found."))
       else ret details)
      (λ e, ret (VStr ("Error getting details for relation '" +:+ source_entity +:+ "'->'" +:+
                       target_entity +:+ "': " +:+ str_exn e))).

(** The status counts, keyed by the last dotted segment of [str(k)]. *)
Definition get_doc_processing_status : M tool value :=
  do _ensure_rag_ready then
  try_except
    (let* status_counts := call get_processing_status in
     ret (VDict (fold_left (λ d kv, dict_set (last_segment (fst kv)) (VInt (snd kv)) d)
                           status_counts [])))
    (λ e, ret (VStr ("Error getting document processing status: " +:+ str_exn e))).

Definition delete_document (document_id : string) : M tool string :=
  do _ensure_rag_ready then
  if negb (truthy_str document_id)
  then ret "Error: Invalid input. 'document_id' must be a non-empty string."
  else
    try_except
      (do call (adelete_by_doc_id document_id) then
       ret ("Document '" +:+ document_id +:+
            "' and its related data deleted successfully (if it existed)."))
      (λ e, ret ("Error deleting document '" +:+ document_id +:+ "': " +:+ str_exn e)).

Definition clear_llm_cache (modes : option (list string)) : M tool string :=
  do _ensure_rag_ready then
  try_except_value
    (do call (aclear_cache modes) then
     ret ("LLM cache cleared successfully for modes: " +:+
          match modes with
          | Some (m :: ms) => str_list (m :: ms)
          | _ => "ALL"
          end +:+ "."))
    (λ ve, ret ("Error: " +:+ str_exn ve))
    (λ e, ret ("Error clearing LLM cache: " +:+ str_exn e)).
End Tool.

End LightRAGTool.

(** ** Vocabulary of the statements

    Names for what the properties below speak about: the dictionaries and
    statements the methods build on the way, and the results they are
    compared with. *)

(** A computation that leaves the state as it found it, whether it
    returns or raises. *)
Definition keeps_state {St A} (m : M St A) : Prop := ∀ s, snd (m s) = s.

(** The order [ORDER BY key DESC] leaves two rows in: the first may stand
    before the second. A row without a key stands before the others. *)
Definition desc_before {A} (key : A → option Z) (x y : A) : Prop :=
  match key x, key y with
  | None, _ => True
  | Some _, None => False
  | Some a, Some b => (b ≤ a)%Z
  end.

Section Neo4jVocabulary.
Context `{PyRuntime} `{Neo4j.Neo4jServer}.
Import Neo4j.

(** The dictionary of properties [connect_thoughts] works with. *)
Definition weighted (weight : float) (properties : option pydict) : pydict :=
  dict_set "weight" (VFloat weight) (default [] properties).

(** The statement [connect_thoughts] runs, for given arguments. *)
Definition connect_run (source_id target_id relationship_type : string) (weight : float)
    (properties : option pydict) (g : graph_db) : outcome nat * graph_db :=
  run_connect (connect_query relationship_type (connect_props (weighted weight properties)))
    relationship_type (connect_pattern (weighted weight properties))
    (connect_params source_id target_id weight (weighted weight properties)) g.

(** What a relationship written for weight [w] carries under ["weight"]:
    [w] itself, or a value Cypher holds equal to it when an equal
    relationship was there to be merged with. *)
Definition carries_weight (w : float) (r : rel) : Prop :=
  ∃ v, dict_get "weight" (rel_props r) = Some v ∧
       (v = VFloat w ∨ prop_eqb v (VFloat w) = true).

(** The caller's properties form a dictionary whose values the server
    can store. *)
Definition storable_request (w : float) (props : option pydict) : Prop :=
  NoDup (dict_keys (default [] props)) ∧
  storable (VFloat w) = true ∧
  ∀ k v, (k, v) ∈ default [] props → k ≠ "weight" → storable v = true.

(** The success text of [connect_thoughts]. *)
Definition connected_msg (rt : string) (w : float) : string :=
  "Thoughts connected successfully with relationship type '" +:+ rt +:+
  "' and weight " +:+ str_float w.

(** The error text of a method called on a toolkit that is not
    initialized. *)
Definition not_ready_error (what : string) : string :=
  "Error: Failed to " +:+ what +:+ ": " +:+ not_initialized_msg.

(** The properties [add_thought] creates a node with. *)
Definition thought_props (id content : string) (now : Z) (metadata_json : string) : pydict :=
  [("id", VStr id); ("content", VStr content); ("timestamp", VDateTime now);
   ("metadata_json", VStr metadata_json)].

(** The record read back from a thought whose metadata text parses. *)
Definition thought_record (id content : string) (now : Z) (metadata : value) : pydict :=
  [("id", VStr id); ("content", VStr content); ("timestamp", VDateTime now);
   ("metadata", metadata)].



(** The server holds each property value of the request equal to itself
    (as it does every value but a NaN). *)
Definition self_equal_request (w : float) (props : option pydict) : Prop :=
  prop_eqb (VFloat w) (VFloat w) = true ∧
  ∀ k v, (k, v) ∈ default [] props → k ≠ "weight" → prop_eqb v v = true.


(** The number of relationships of a type. *)
Definition count_of (ty : string) (rs : list rel) : Z :=
  Z.of_nat (length (List.filter (λ r, String.eqb (rel_type r) ty) rs)).

(** The count a list of types with their counts holds for a type. *)
Definition tally (ty : string) (h : list (string * Z)) : Z :=
  match List.find (λ tc, String.eqb (fst tc) ty) h with
  | Some tc => snd tc
  | None => 0%Z
  end.
End Neo4jVocabulary.

Section PineconeVocabulary.
Context `{PyRuntime} `{Pinecone.PineconeService}.
Import Pinecone.

(** The client and the index are connected. *)
Definition index_ready (st : state) : bool :=
  is_Some_b (_pc (self st)) && is_Some_b (_index (self st)).

(** The record [upsert_thought] writes for a content. *)
Definition thought_vector (content : string) (metadata : option pydict) : vector_record :=
  {| rec_values := get_embedding content;
     rec_metadata := dict_set "text" (VStr content) (default [] metadata) |}.

(** The state after a record is written under [id] in namespace [ns]. *)
Definition put_record (ns id : string) (r : vector_record) (draws : nat) (st : state) : state :=
  {| self := self st;
     index_store := <[ns := <[id := r]> (namespace_records ns st)]> (index_store st);
     uuid_draws := draws |}.
End PineconeVocabulary.

Section PineconeIndexVocabulary.
Context `{PyRuntime} `{Pinecone.PineconeService} `{Pinecone.PineconeIndexApi}.
Import Pinecone.

(** The thought [fetch_thought] reads back. *)
Definition fetched_thought (id content : string) (metadata : pydict) : value :=
  VDict [("id", VStr id); ("content", VStr content);
         ("metadata", VDict (without_text metadata))].

(** The index names only records of the namespace it searched, each with
    the metadata stored. *)
Definition matches_are_stored : Prop :=
  ∀ v k records ms,
    query_matches v k records = Return ms →
    Forall (λ m, ∃ r, records !! fst (fst m) = Some r ∧ rec_metadata r = snd m) ms.

(** A record written for a thought of a batch: it carries the thought's
    content under ["text"] and the id the thought gave, if it gave one. *)
Definition batch_record (thought : pydict) (r : string * vector_record) : Prop :=
  is_Some (dict_get "content" thought) ∧
  dict_get "text" (rec_metadata (snd r)) = dict_get "content" thought ∧
  ∀ id, dict_get "id" thought = Some (VStr id) → id ≠ "" → fst r = id.
End PineconeIndexVocabulary.

Section LightRAGVocabulary.
Context `{PyRuntime} {S : Type} `{LightRAG S}.
Import LightRAGTool.

(** What the guard raises on a tool that is not ready: reading an
    attribute that was never assigned fails first. *)
Definition guard_exn (t : LightRAGTool S) : exn :=
  match rag_instance t with
  | Unset => OtherError "AttributeError"
               "'LightRAGTool' object has no attribute 'rag_instance'"
  | _ => RuntimeError not_ready_msg
  end.

(** The text [merge_entities] answers a merge of an entity into itself
    with. *)
Definition self_merge_msg (target : string) : string :=
  if String.eqb target "" then "Error: 'target_entity' must be a non-empty string."
  else "Error: Cannot merge entity '" +:+ target +:+ "' into itself.".

(** A computation that, started on a ready tool, returns and leaves the
    tool ready. *)
Definition stays_ready {A} (m : M (LightRAGTool S) A) : Prop :=
  ∀ t, rag_ready t = true → ∃ r t', m t = (Return r, t') ∧ rag_ready t' = true.

(** A computation that, started on a ready tool, leaves the tool ready,
    whether it returns or raises. *)
Definition keeps_ready {A} (m : M (LightRAGTool S) A) : Prop :=
  ∀ t, rag_ready t = true → rag_ready (snd (m t)) = true.
End LightRAGVocabulary.

(** ** A reference environment

    Concrete instances of the three interfaces, small enough to run: a JSON
    codec for ASCII text, a server that takes every well-quoted statement,
    an index of three-dimensional vectors and an in-memory knowledge graph.
    They serve to run the tools on concrete inputs. *)

Module Reference.

Definition quote_char : ascii := Ascii.ascii_of_nat 34.
Definition backslash : ascii := Ascii.ascii_of_nat 92.
Definition newline_char : ascii := Ascii.ascii_of_nat 10.

Fixpoint escape (s : string) : string :=
  match s with
  | EmptyString => ""
  | String c s' =>
      if Ascii.eqb c quote_char then String backslash (String quote_char (escape s'))
      else if Ascii.eqb c backslash then String backslash (String backslash (escape s'))
      else if Ascii.eqb c newline_char then String backslash (String "n" (escape s'))
      else String c (escape s')
  end.

Definition quoted (s : string) : string :=
  String quote_char (escape s) +:+ String quote_char "".

Fixpoint strip_trailing_zeros_rev (s : list ascii) : list ascii :=
  match s with
  | "0"%char :: (_ :: _) as s' => strip_trailing_zeros_rev s'
  | _ => s
  end.

Definition pad_left (n : nat) (s : string) : string :=
  string_of_list_ascii (replicate (n - String.length s) "0"%char) +:+ s.

(** The exact decimal expansion of a float. *)
Definition ref_str_float (f : float) : string :=
  match Prim2SF f with
  | S754_zero s => if s then "-0.0" else "0.0"
  | S754_infinity s => if s then "-inf" else "inf"
  | S754_nan => "nan"
  | S754_finite s m e =>
      (if s then "-" else "") +:+
      (if (0 <=? e)%Z then pretty (Z.pos m * 2 ^ e)%Z +:+ ".0"
       else
         let k := Z.to_nat (- e) in
         let digits := pad_left (S k) (pretty (Z.pos m * 5 ^ (- e))%Z) in
         let int_len := (String.length digits - k)%nat in
         let frac := list_ascii_of_string (String.substring int_len k digits) in
         String.substring 0 int_len digits +:+ "." +:+
         string_of_list_ascii (rev (strip_trailing_zeros_rev (rev frac))))
  end.

(** The serializer, with [dt] what to do with a temporal value. *)
Fixpoint dumps_with (dt : Z → option string) (v : value) : option string :=
  match v with
  | VNone => Some "null"
  | VBool b => Some (if b then "true" else "false")
  | VInt z => Some (pretty z)
  | VFloat f => Some (ref_str_float f)
  | VStr s => Some (quoted s)
  | VDateTime t => dt t
  | VList l | VTuple l =>
      match (fix items (l : list value) : option (list string) :=
               match l with
               | [] => Some []
               | x :: l' =>
                   match dumps_with dt x, items l' with
                   | Some a, Some b => Some (a :: b)
                   | _, _ => None
                   end
               end) l with
      | Some parts => Some ("[" +:+ String.concat ", " parts +:+ "]")
      | None => None
      end
  | VDict d =>
      match (fix members (d : list (string * value)) : option (list string) :=
               match d with
               | [] => Some []
               | (k, x) :: d' =>
                   match dumps_with dt x, members d' with
                   | Some a, Some b => Some ((quoted k +:+ ": " +:+ a) :: b)
                   | _, _ => None
                   end
               end) d with
      | Some parts => Some ("{" +:+ String.concat ", " parts +:+ "}")
      | None => None
      end
  end.

Definition ref_str_datetime (t : Z) : string := "T" +:+ pretty t.

Definition ref_json_dumps (v : value) : outcome string :=
  match dumps_with (λ _, None) v with
  | Some s => Return s
  | None => Raise (TypeError "Object of type DateTime is not JSON serializable")
  end.

Definition ref_json_dumps_default_str (v : value) : string :=
  default "" (dumps_with (λ t, Some (quoted (ref_str_datetime t))) v).

Definition is_ws (c : ascii) : bool :=
  Ascii.eqb c " "%char || Ascii.eqb c newline_char ||
  Ascii.eqb c (Ascii.ascii_of_nat 9) || Ascii.eqb c (Ascii.ascii_of_nat 13).

Fixpoint skip_ws (s : string) : string :=
  match s with
  | String c s' => if is_ws c then skip_ws s' else s
  | EmptyString => s
  end.

Definition digit_of (c : ascii) : option Z :=
  let n := Ascii.nat_of_ascii c in
  if (48 <=? n)%nat && (n <=? 57)%nat then Some (Z.of_nat (n - 48)) else None.

Fixpoint read_digits (acc : Z) (s : string) : Z * string :=
  match s with
  | String c s' =>
      match digit_of c with
      | Some d => read_digits (10 * acc + d)%Z s'
      | None => (acc, s)
      end
  | EmptyString => (acc, s)
  end.

(** The text after an opening quote, up to the closing one. *)
Fixpoint read_string (s : string) : option (string * string) :=
  match s with
  | EmptyString => None
  | String c s' =>
      if Ascii.eqb c quote_char then Some ("", s')
      else if Ascii.eqb c backslash then
        match s' with
        | String e s'' =>
            let decoded :=
              if Ascii.eqb e "n"%char then Some newline_char
              else if Ascii.eqb e quote_char then Some quote_char
              else if Ascii.eqb e backslash then Some backslash
              else None in
            match decoded, read_string s'' with
            | Some d, Some (r, rest) => Some (String d r, rest)
            | _, _ => None
            end
        | EmptyString => None
        end
      else
        match read_string s' with
        | Some (r, rest) => Some (String c r, rest)
        | None => None
        end
  end.

Definition is_number_tail (s : string) : bool :=
  match s with
  | String c _ => Ascii.eqb c "."%char || Ascii.eqb c "e"%char || Ascii.eqb c "E"%char
  | EmptyString => false
  end.

Fixpoint parse_value (fuel : nat) (s : string) : option (value * string) :=
  match fuel with
  | O => None
  | S fuel' =>
      match skip_ws s with
      | String "n" (String "u" (String "l" (String "l" rest))) => Some (VNone, rest)
      | String "t" (String "r" (String "u" (String "e" rest))) => Some (VBool true, rest)
      | String "f" (String "a" (String "l" (String "s" (String "e" rest)))) =>
          Some (VBool false, rest)
      | String "[" rest =>
          match skip_ws rest with
          | String "]" rest' => Some (VList [], rest')
          | rest' =>
              match parse_elements fuel' rest' with
              | Some (vs, rest'') => Some (VList vs, rest'')
              | None => None
              end
          end
      | String "{" rest =>
          match skip_ws rest with
          | String "}" rest' => Some (VDict [], rest')
          | rest' =>
              match parse_members fuel' rest' with
              | Some (kvs, rest'') => Some (VDict kvs, rest'')
              | None => None
              end
          end
      | String "-" rest =>
          match rest with
          | String c _ =>
              match digit_of c with
              | Some _ =>
                  let '(n, rest') := read_digits 0 rest in
                  if is_number_tail rest' then None else Some (VInt (- n), rest')
              | None => None
              end
          | EmptyString => None
          end
      | String c rest =>
          if Ascii.eqb c quote_char then
            match read_string rest with
            | Some (r, rest') => Some (VStr r, rest')
            | None => None
            end
          else
            match digit_of c with
            | Some _ =>
                let '(n, rest') := read_digits 0 (String c rest) in
                if is_number_tail rest' then None else Some (VInt n, rest')
            | None => None
            end
      | EmptyString => None
      end
  end
with parse_elements (fuel : nat) (s : string) : option (list value * string) :=
  match fuel with
  | O => None
  | S fuel' =>
      match parse_value fuel' s with
      | Some (v, rest) =>
          match skip_ws rest with
          | String "," rest' =>
              match parse_elements fuel' rest' with
              | Some (vs, rest'') => Some (v :: vs, rest'')
              | None => None
              end
          | String "]" rest' => Some ([v], rest')
          | _ => None
          end
      | None => None
      end
  end
with parse_members (fuel : nat) (s : string) : option (list (string * value) * string) :=
  match fuel with
  | O => None
  | S fuel' =>
      match skip_ws s with
      | String c rest =>
          if Ascii.eqb c quote_char then
            match read_string rest with
            | Some (k, rest') =>
                match skip_ws rest' with
                | String ":" rest'' =>
                    match parse_value fuel' rest'' with
                    | Some (v, rest3) =>
                        match skip_ws rest3 with
                        | String "," rest4 =>
                            match parse_members fuel' rest4 with
                            | Some (kvs, rest5) =>
                                Some ((k, default v (dict_get k kvs)) :: dict_del k kvs, rest5)
                            | None => None
                            end
                        | String "}" rest4 => Some ([(k, v)], rest4)
                        | _ => None
                        end
                    | None => None
                    end
                | _ => None
                end
            | None => None
            end
          else None
      | EmptyString => None
      end
  end.

Definition ref_json_loads (s : string) : outcome value :=
  match parse_value (2 * String.length s + 2) s with
  | Some (v, rest) =>
      match skip_ws rest with
      | EmptyString => Return v
      | _ => Raise (JSONDecodeError "Extra data")
      end
  | None => Raise (JSONDecodeError "Expecting value")
  end.

Definition ref_uuid4_at (n : nat) : string :=
  "00000000-0000-4000-8000-" +:+ pad_left 12 (pretty (Z.of_nat n)).

Definition ref_str_list (l : list string) : string :=
  "[" +:+ String.concat ", " (map (λ s, "'" +:+ s +:+ "'") l) +:+ "]".

Definition ref_str_value (v : value) : string :=
  match v with
  | VStr s => s
  | _ => ref_json_dumps_default_str v
  end.

Definition ref_str_neo4j_error (e : neo4j_error) : string :=
  match e with
  | ConfigurationError u => "URI scheme of '" +:+ u +:+ "' is not supported"
  | ServiceUnavailable u => "Couldn't connect to " +:+ u
  | CypherSyntaxError _ => "Invalid input in the query"
  | ConstraintValidationFailed l p v =>
      "Node already exists with label `" +:+ l +:+ "` and property `" +:+ p +:+
      "` = '" +:+ v +:+ "'"
  | ConstraintCreationFailed l p =>
      "Unable to create constraint on label `" +:+ l +:+ "` and property `" +:+ p +:+ "`"
  | CypherTypeError k => "Property values can only be of primitive types or arrays thereof: " +:+ k
  | NegativeIntegerArgument z =>
      "Invalid input. '" +:+ pretty z +:+ "' is not a valid value. Must be a non-negative integer."
  end.

#[export] Instance RefPy : PyRuntime := {|
  json_dumps := ref_json_dumps;
  json_dumps_default_str := ref_json_dumps_default_str;
  json_loads := ref_json_loads;
  str_float := ref_str_float;
  str_list := ref_str_list;
  str_value := ref_str_value;
  uuid4_at := ref_uuid4_at;
  str_neo4j_error := ref_str_neo4j_error;
|}.

(** Equality of primitive property values and of lists of them. *)
Definition prim_eqb (a b : value) : bool :=
  match a, b with
  | VBool x, VBool y => Bool.eqb x y
  | VInt x, VInt y => (x =? y)%Z
  | VFloat x, VFloat y => PrimFloat.eqb x y
  | VStr x, VStr y => String.eqb x y
  | VDateTime x, VDateTime y => (x =? y)%Z
  | _, _ => false
  end.

Fixpoint list_eqb (eqb : value → value → bool) (l1 l2 : list value) : bool :=
  match l1, l2 with
  | [], [] => true
  | a :: l1', b :: l2' => eqb a b && list_eqb eqb l1' l2'
  | _, _ => false
  end.

Definition ref_prop_eqb (a b : value) : bool :=
  match a, b with
  | VList x, VList y => list_eqb prim_eqb x y
  | _, _ => prim_eqb a b
  end.

Definition is_primitive (v : value) : bool :=
  match v with
  | VBool _ | VInt _ | VFloat _ | VStr _ | VDateTime _ => true
  | _ => false
  end.

Definition ref_storable (v : value) : bool :=
  match v with
  | VList l => forallb is_primitive l
  | _ => is_primitive v
  end.

Definition ref_prop_geb (w : value) (m : float) : bool :=
  match w with
  | VFloat f => PrimFloat.leb m f
  | VInt z => PrimFloat.leb m (PrimFloat.of_uint63 (Uint63.of_Z z))
  | _ => false
  end.

(** The server takes a statement unless a back-quoted name in it is empty. *)
#[export] Instance RefServer : Neo4j.Neo4jServer := {|
  Neo4j.driver_accepts u _ _ := String.prefix "bolt://" u || String.prefix "neo4j://" u;
  Neo4j.server_reachable u _ p := String.eqb u "bolt://localhost:7687" && String.eqb p "secret";
  Neo4j.cypher_parses q := negb (contains "``" q);
  Neo4j.storable := ref_storable;
  Neo4j.prop_eqb := ref_prop_eqb;
  Neo4j.prop_geb := ref_prop_geb;
  Neo4j.run_custom_query q _ g := (Raise (Neo4jError (CypherSyntaxError q)), g);
|}.

#[export] Instance RefIndex : Pinecone.PineconeService := {|
  Pinecone.client_accepts k := truthy_opt_str k;
  Pinecone.index_opens n := truthy_str n;
  Pinecone.upsert_accepts id values _ := truthy_str id && Nat.eqb (length values) 3;
  Pinecone.get_embedding text :=
    [PrimFloat.of_uint63 (Uint63.of_Z (Z.of_nat (String.length text))); 1%float; 0%float];
|}.

(** The index answers a query with the first [top_k] records of the
    namespace, scored by the dot product with the query vector; it carries
    out every deletion, and takes several vectors when it takes each. *)
Definition dot (a b : list float) : float :=
  fold_left PrimFloat.add (zip_with PrimFloat.mul a b) 0%float.

Definition ref_query_matches (v : list float) (k : Z) (records : gmap string Pinecone.vector_record)
    : outcome (list (string * float * pydict)) :=
  if (k <? 1)%Z then Raise (OtherError "PineconeApiException" "top_k must be at least 1")
  else Return (take (Z.to_nat k)
                 (map (λ kr, (fst kr, dot v (Pinecone.rec_values (snd kr)),
                              Pinecone.rec_metadata (snd kr)))
                      (map_to_list records))).

#[export] Instance RefIndexApi : Pinecone.PineconeIndexApi := {|
  Pinecone.query_matches := ref_query_matches;
  Pinecone.delete_accepts _ _ := true;
  Pinecone.upsert_many_accepts records :=
    forallb (λ r, Pinecone.upsert_accepts (fst r) (Pinecone.rec_values (snd r))
                    (Pinecone.rec_metadata (snd r))) records;
  Pinecone.embed_other v :=
    Raise (TypeError ("unhashable type: '" +:+ Pinecone.type_name v +:+ "'"));
|}.

(** An in-memory knowledge base: documents by id, entities by name and
    relations by their end points. *)
Record kg := {
  kg_docs : gmap string string;
  kg_entities : gmap string pydict;
  kg_relations : gmap (string * string) pydict;
  kg_open : bool;
}.

Definition empty_kg : kg :=
  {| kg_docs := ∅; kg_entities := ∅; kg_relations := ∅; kg_open := false |}.

Definition kg_set_open (b : bool) (s : kg) : kg :=
  {| kg_docs := kg_docs s; kg_entities := kg_entities s;
     kg_relations := kg_relations s; kg_open := b |}.

Definition kg_set_docs (d : gmap string string) (s : kg) : kg :=
  {| kg_docs := d; kg_entities := kg_entities s;
     kg_relations := kg_relations s; kg_open := kg_open s |}.

Definition kg_set_graph (e : gmap string pydict) (r : gmap (string * string) pydict)
    (s : kg) : kg :=
  {| kg_docs := kg_docs s; kg_entities := e; kg_relations := r; kg_open := kg_open s |}.

Definition is_valid_mode (m : string) : bool := existsb (String.eqb m) retrieval_modes.

Definition dict_update (updates d : pydict) : pydict :=
  fold_left (λ d kv, dict_set (fst kv) (snd kv) d) updates d.

Definition rekey (old new : string) (k : string * string) : string * string :=
  ((if String.eqb (fst k) old then new else fst k),
   (if String.eqb (snd k) old then new else snd k)).

Definition rekey_relations (old new : string) (r : gmap (string * string) pydict)
    : gmap (string * string) pydict :=
  list_to_map (map (λ kv, (rekey old new (fst kv), snd kv)) (map_to_list r)).

Definition drop_incident (name : string) (r : gmap (string * string) pydict)
    : gmap (string * string) pydict :=
  list_to_map (List.filter (λ kv, negb (String.eqb (fst (fst kv)) name) &&
                                  negb (String.eqb (snd (fst kv)) name))
                           (map_to_list r)).

Definition kg_has_node (name : string) (s : kg) : bool := is_Some_b (kg_entities s !! name).

Definition kg_has_edge (a b : string) (s : kg) : bool := is_Some_b (kg_relations s !! (a, b)).

Definition kg_acreate_entity (name : string) (data : pydict) (s : kg) : outcome value * kg :=
  if kg_has_node name s
  then (Raise (ValueError ("Entity '" +:+ name +:+ "' already exists")), s)
  else (Return (VDict (("entity_name", VStr name) :: data)),
        kg_set_graph (<[name := data]> (kg_entities s)) (kg_relations s) s).

Definition kg_acreate_relation (a b : string) (data : pydict) (s : kg) : outcome value * kg :=
  if negb (kg_has_node a s)
  then (Raise (ValueError ("Source entity '" +:+ a +:+ "' does not exist")), s)
  else if negb (kg_has_node b s)
  then (Raise (ValueError ("Target entity '" +:+ b +:+ "' does not exist")), s)
  else if kg_has_edge a b s
  then (Raise (ValueError ("Relation from '" +:+ a +:+ "' to '" +:+ b +:+ "' already exists")), s)
  else (Return (VDict (("src_id", VStr a) :: ("tgt_id", VStr b) :: data)),
        kg_set_graph (kg_entities s) (<[(a, b) := data]> (kg_relations s)) s).

Definition kg_aedit_entity (name : string) (updates : pydict) (allow_rename : bool) (s : kg)
    : outcome value * kg :=
  match kg_entities s !! name with
  | None => (Raise (ValueError ("Entity '" +:+ name +:+ "' does not exist")), s)
  | Some d =>
      match dict_get "entity_name" updates with
      | Some (VStr new) =>
          if String.eqb new name
          then (Return (VDict d),
                kg_set_graph (<[name := dict_update (dict_del "entity_name" updates) d]>
                                (kg_entities s)) (kg_relations s) s)
          else if negb allow_rename
          then (Raise (ValueError "Entity renaming is not allowed"), s)
          else if kg_has_node new s
          then (Raise (ValueError ("Entity name '" +:+ new +:+ "' already exists")), s)
          else (Return (VDict d),
                kg_set_graph (<[new := dict_update (dict_del "entity_name" updates) d]>
                                (delete name (kg_entities s)))
                             (rekey_relations name new (kg_relations s)) s)
      | _ =>
          (Return (VDict d),
           kg_set_graph (<[name := dict_update updates d]> (kg_entities s)) (kg_relations s) s)
      end
  end.

Definition kg_aedit_relation (a b : string) (updates : pydict) (s : kg) : outcome value * kg :=
  match kg_relations s !! (a, b) with
  | None => (Raise (ValueError ("Relation from '" +:+ a +:+ "' to '" +:+ b +:+
                                "' does not exist")), s)
  | Some d =>
      (Return (VDict d),
       kg_set_graph (kg_entities s) (<[(a, b) := dict_update updates d]> (kg_relations s)) s)
  end.

Definition kg_amerge_entities (sources : list string) (target : string)
    (override : option pydict) (s : kg) : outcome value * kg :=
  match List.find (λ n, negb (kg_has_node n s)) sources with
  | Some n => (Raise (ValueError ("Source entity '" +:+ n +:+ "' does not exist")), s)
  | None =>
      let merged :=
        dict_update (or_empty_dict override)
          (default [] (match kg_entities s !! target with
                       | Some d => Some d
                       | None => match sources with
                                 | n :: _ => kg_entities s !! n
                                 | [] => None
                                 end
                       end)) in
      let relations :=
        fold_left (λ r n, if String.eqb n target then r else rekey_relations n target r)
                  sources (kg_relations s) in
      let entities :=
        fold_left (λ e n, if String.eqb n target then e else delete n e)
                  sources (kg_entities s) in
      (Return (VDict merged), kg_set_graph (<[target := merged]> entities) relations s)
  end.

Definition kg_aquery (q mode : string) (k : Z) (s : kg) : outcome response * kg :=
  if is_valid_mode mode
  then (Return (RespStr (String.concat nl
                  (take (Z.to_nat k)
                     (List.filter (contains q) (map snd (map_to_list (kg_docs s))))))), s)
  else (Raise (ValueError ("Unknown mode " +:+ mode)), s).

Definition kg_ainsert (text : string) (ids file_paths : option string) (s : kg)
    : outcome unit * kg :=
  let id := default ("doc-" +:+ text) ids in
  match kg_docs s !! id with
  | Some _ => (Return tt, s)
  | None => (Return tt, kg_set_docs (<[id := text]> (kg_docs s)) s)
  end.

Definition kg_info (name : string) (d : option pydict) : value :=
  VDict [("entity_name", VStr name);
         ("graph_data", match d with Some d => VDict d | None => VNone end)].

#[export] Instance RefKG : LightRAG kg := {|
  initialize_storages s := (Return tt, kg_set_open true s);
  initialize_pipeline_status s := (Return tt, s);
  finalize_storages s := (Return tt, kg_set_open false s);
  ainsert := kg_ainsert;
  aquery := kg_aquery;
  acreate_entity := kg_acreate_entity;
  aedit_entity := kg_aedit_entity;
  adelete_by_entity name s :=
    (Return tt, kg_set_graph (delete name (kg_entities s))
                             (drop_incident name (kg_relations s)) s);
  acreate_relation := kg_acreate_relation;
  aedit_relation := kg_aedit_relation;
  adelete_by_relation a b s :=
    (Return tt, kg_set_graph (kg_entities s) (delete (a, b) (kg_relations s)) s);
  amerge_entities := kg_amerge_entities;
  get_entity_info name _ s := (Return (kg_info name (kg_entities s !! name)), s);
  get_relation_info a b _ s :=
    (Return (kg_info (a +:+ "->" +:+ b) (kg_relations s !! (a, b))), s);
  get_processing_status s :=
    (Return [("DocStatus.PROCESSED", Z.of_nat (size (kg_docs s)))], s);
  adelete_by_doc_id id s := (Return tt, kg_set_docs (delete id (kg_docs s)) s);
  aclear_cache modes s :=
    match List.find (λ m, negb (String.eqb m "default" || is_valid_mode m))
                    (default [] modes) with
    | Some m => (Raise (ValueError ("Invalid mode: " +:+ m)), s)
    | None => (Return tt, s)
    end;
  has_node := kg_has_node;
  has_edge := kg_has_edge;
|}.

(** Runs of the reference environment: a toolkit connected to an empty
    graph and the states after one and two thoughts; a graph holding a
    thought whose metadata text is not JSON, as another writer to the
    database can leave it; a knowledge base tool after initialization and
    after one and two entities; a connected, empty index. *)
Definition ref_state0 : Neo4j.state :=
  Neo4j.__init__ "bolt://localhost:7687" "neo4j" "secret" Neo4j.empty_graph 0.

Definition ref_state1 : Neo4j.state :=
  snd (Neo4j.add_thought "alpha one" (Some "a1") (Some [("k", VInt 3)]) 1%Z ref_state0).

Definition ref_state2 : Neo4j.state :=
  snd (Neo4j.add_thought "alpha two" (Some "a2") None 2%Z ref_state1).

Definition ref_state_down : Neo4j.state :=
  Neo4j.__init__ "bolt://localhost:7687" "neo4j" "wrong" Neo4j.empty_graph 0.

Definition ref_k3_text : string :=
  Eval vm_compute in
    match ref_json_dumps (VDict [("k", VInt 3)]) with Return s => s | Raise _ => "" end.

(** A map that holds a tuple, its text, and the toolkit after a thought
    is added with it. *)
Definition ref_pair_metadata : pydict := [("k", VTuple [VInt 1; VInt 2])].

Definition ref_pair_text : string :=
  Eval vm_compute in
    match ref_json_dumps (VDict ref_pair_metadata) with Return s => s | Raise _ => "" end.

Definition ref_state_pair : Neo4j.state :=
  snd (Neo4j.add_thought "alpha" (Some "t1") (Some ref_pair_metadata) 1%Z ref_state0).

Definition ref_state_bad : Neo4j.state :=
  {| Neo4j.self := Neo4j.self ref_state0;
     Neo4j.graph :=
       {| Neo4j.thought_id_unique := true; Neo4j.next_node_id := 1;
          Neo4j.nodes :=
            [{| Neo4j.node_id := 0;
                Neo4j.node_props :=
                  [("id", VStr "bad"); ("content", VStr "beta"); ("timestamp", VDateTime 3);
                   ("metadata_json", VStr "{not json")] |}];
          Neo4j.rels := [] |};
     Neo4j.uuid_draws := 0 |}.

Definition ref_tool_new : LightRAGTool.LightRAGTool kg :=
  LightRAGTool.__init__ true (Some "sk-test") (Return empty_kg) 5%Z.

Definition ref_tool0 : LightRAGTool.LightRAGTool kg :=
  snd (LightRAGTool.initialize ref_tool_new).

Definition ref_tool1 : LightRAGTool.LightRAGTool kg :=
  snd (LightRAGTool.create_entity "X" (Some "d") (Some "Concept") None ref_tool0).

Definition ref_tool2 : LightRAGTool.LightRAGTool kg :=
  snd (LightRAGTool.create_entity "Y" None None None ref_tool1).

Definition instance_of (t : LightRAGTool.LightRAGTool kg) : kg :=
  match LightRAGTool.rag_instance t with
  | LightRAGTool.Obj s => s
  | _ => empty_kg
  end.

Definition ref_index0 : Pinecone.state :=
  {| Pinecone.self :=
       {| Pinecone._pc := Some (Some "pc-key"); Pinecone._index := Some "thoughts";
          Pinecone.api_key := Some "pc-key"; Pinecone.index_name := Some "thoughts";
          Pinecone.dimension := 3; Pinecone.name_space := "AI-Reflections" |};
     Pinecone.index_store := ∅;
     Pinecone.uuid_draws := 0 |}.


(** Further runs: the graph after the two thoughts are connected; the
    index after one thought is stored; a toolkit that has no client and
    no index. *)
Definition ref_state3 : Neo4j.state :=
  snd (Neo4j.connect_thoughts "a1" "a2" None None None ref_state2).

Definition ref_index1 : Pinecone.state :=
  snd (Pinecone.upsert_thought "The sky is blue" (Some [("mood", VStr "calm")])
         (Some "sky") ref_index0).

Definition ref_index_closed : Pinecone.state :=
  {| Pinecone.self :=
       {| Pinecone._pc := None; Pinecone._index := None;
          Pinecone.api_key := None; Pinecone.index_name := Some "thoughts";
          Pinecone.dimension := 3; Pinecone.name_space := "AI-Reflections" |};
     Pinecone.index_store := ∅;
     Pinecone.uuid_draws := 0 |}.

End Reference.

(** * Properties *)

(** ** Strings and dictionaries *)

Lemma prefix_spec (a s : string) :
  String.prefix a s = true ↔ ∃ suf, s = a +:+ suf.
Proof.
  revert s. induction a as [|c a IH]; intros s.
  - destruct s; simpl; (split; [intros _; eexists; reflexivity | reflexivity]).
  - destruct s as [|c' s]; simpl.
    + split; [discriminate | intros [suf Hs]; discriminate].
    + destruct (Ascii.ascii_dec c c') as [->|Hne].
      * rewrite IH. split; intros [suf Hs]; exists suf; [by rewrite Hs | by injection Hs].
      * split; [discriminate | intros [suf Hs]; injection Hs; congruence].
Qed.


Lemma truthy_str_true (s : string) : truthy_str s = true ↔ s ≠ "".
Proof.
  unfold truthy_str. destruct (String.eqb_spec s ""); simpl; split; congruence.
Qed.

Lemma dict_get_set_eq k v d : dict_get k (dict_set k v d) = Some v.
Proof.
  induction d as [|[k' v'] d IH]; simpl.
  - by rewrite String.eqb_refl.
  - destruct (String.eqb_spec k' k); simpl.
    + by rewrite String.eqb_refl.
    + destruct (String.eqb_spec k' k); [done | apply IH].
Qed.

Lemma dict_get_set_ne k k' v d : k ≠ k' → dict_get k' (dict_set k v d) = dict_get k' d.
Proof.
  intros Hne. induction d as [|[k0 v0] d IH]; simpl.
  - destruct (String.eqb_spec k k'); [done | done].
  - destruct (String.eqb_spec k0 k) as [->|]; simpl.
    + destruct (String.eqb_spec k k'); [done | done].
    + destruct (String.eqb_spec k0 k'); [done | apply IH].
Qed.

Lemma dict_get_del_eq k d :
  NoDup (dict_keys d) → dict_get k (dict_del k d) = None.
Proof.
  induction d as [|[k0 v0] d IH]; simpl; [done |].
  intros Hnd. apply NoDup_cons in Hnd as [Hnotin Hnd].
  destruct (String.eqb_spec k0 k) as [->|Hne]; simpl.
  - clear IH. induction d as [|[k1 v1] d IH]; simpl; [done |].
    destruct (String.eqb_spec k1 k) as [->|].
    + exfalso. apply Hnotin. simpl. left.
    + apply IH; [by intros ?; apply Hnotin; simpl; right | by apply NoDup_cons in Hnd as [_ ?]].
  - destruct (String.eqb_spec k0 k); [done | by apply IH].
Qed.


(** ** The Neo4j thought graph *)

Section Neo4jTheory.
Context `{PyRuntime} `{Neo4j.Neo4jServer}.
Import Neo4j.

Lemma state_eta (st : state) :
  {| self := self st; graph := graph st; uuid_draws := uuid_draws st |} = st.
Proof. by destruct st. Qed.

Lemma ensure_initialized_ready (st : state) :
  ready st = true → _ensure_initialized st = (Return tt, st).
Proof.
  unfold ready, _ensure_initialized, bind, get. intros Hr.
  apply andb_true_iff in Hr as [-> ->]. reflexivity.
Qed.

Lemma ensure_initialized_not_ready (st : state) :
  ready st = false →
  _ensure_initialized st = (Raise (ValueError not_initialized_msg), st).
Proof.
  unfold ready, _ensure_initialized, bind, get. intros Hr.
  destruct (is_initialized (self st)), (is_Some_b (driver (self st)));
    simpl in *; done.
Qed.

(** What [add_thought] does once the guard has passed and an id is at
    hand. *)
Lemma add_thought_ready (content : string) (thought_id : option string)
    (metadata : option pydict) (now : Z) (st : state) :
  ready st = true →
  truthy_str (default "Thought" thought_id) = true →
  add_thought content thought_id metadata now st =
    match json_dumps (VDict (or_empty_dict metadata)) with
    | Raise e => (Return ("Error: Failed to add thought: " +:+ str_exn e), st)
    | Return s =>
        match run_create_thought (default "Thought" thought_id) content s now (graph st) with
        | Raise e => (Return ("Error: Failed to add thought: " +:+ str_exn e), st)
        | Return g =>
            (Return (default "Thought" thought_id),
             {| self := self st; graph := g; uuid_draws := uuid_draws st |})
        end
    end.
Proof.
  intros Hr Hid. unfold add_thought, try_except, bind.
  rewrite (ensure_initialized_ready _ Hr), Hid. simpl.
  unfold ret, lift_outcome.
  destruct (json_dumps (VDict (or_empty_dict metadata))) as [s|e]; [|done].
  unfold session_write, session_run.
  destruct (run_create_thought _ content s now (graph st)) as [g|e]; simpl.
  - reflexivity.
  - by rewrite state_eta.
Qed.

Lemma add_thought_not_ready (content : string) (thought_id : option string)
    (metadata : option pydict) (now : Z) (st : state) :
  ready st = false →
  add_thought content thought_id metadata now st =
    (Return ("Error: Failed to add thought: " +:+ not_initialized_msg), st).
Proof.
  intros Hr. unfold add_thought, try_except, bind.
  by rewrite (ensure_initialized_not_ready _ Hr).
Qed.

(** A successful [CREATE] appends the node and touches nothing else. *)
Lemma run_create_thought_Return (id content s : string) (now : Z) (g g' : graph_db) :
  run_create_thought id content s now g = Return g' →
  (thought_id_unique g = true → existsb (node_has_id id) (nodes g) = false) ∧
  thought_id_unique g' = thought_id_unique g ∧
  rels g' = rels g ∧
  nodes g' = (nodes g ++
    [{| node_id := next_node_id g;
        node_props := [("id", VStr id); ("content", VStr content);
                       ("timestamp", VDateTime now); ("metadata_json", VStr s)] |}])%list.
Proof.
  unfold run_create_thought.
  destruct (thought_id_unique g) eqn:Hc; simpl;
    [destruct (existsb (node_has_id id) (nodes g)) eqn:He; simpl|];
    intros Hg; try discriminate; injection Hg as <-; simpl; repeat split; auto.
  all: intros; congruence.
Qed.

Lemma run_create_thought_existing (id content s : string) (now : Z) (g : graph_db) :
  thought_id_unique g = true →
  existsb (node_has_id id) (nodes g) = true →
  run_create_thought id content s now g =
    Raise (Neo4jError (ConstraintValidationFailed "Thought" "id" id)).
Proof. unfold run_create_thought. by intros -> ->. Qed.

Lemma node_has_id_new (id content s : string) (now : Z) (n : nat) :
  node_has_id id
    {| node_id := n;
       node_props := [("id", VStr id); ("content", VStr content);
                      ("timestamp", VDateTime now); ("metadata_json", VStr s)] |} = true.
Proof. unfold node_has_id. simpl. apply String.eqb_refl. Qed.

(** A call that returned the id it was given, and no error text, created
    the node. *)
Lemma add_thought_created (content X : string) (metadata : option pydict) (now : Z)
    (st st1 : state) :
  X ≠ "" →
  String.prefix "Error: " X = false →
  add_thought content (Some X) metadata now st = (Return X, st1) →
  ready st = true ∧ self st1 = self st ∧ uuid_draws st1 = uuid_draws st ∧
  ∃ s, json_dumps (VDict (or_empty_dict metadata)) = Return s ∧
       run_create_thought X content s now (graph st) = Return (graph st1).
Proof.
  intros HX Hpre Hadd.
  destruct (ready st) eqn:Hr.
  - rewrite add_thought_ready in Hadd; [|done|by apply truthy_str_true].
    simpl in Hadd.
    destruct (json_dumps (VDict (or_empty_dict metadata))) as [s|e].
    + destruct (run_create_thought X content s now (graph st)) as [g|e] eqn:Hrun.
      * injection Hadd as <-. simpl. eauto 10.
      * injection Hadd as HX' _. rewrite <- HX' in Hpre. discriminate.
    + injection Hadd as HX' _. rewrite <- HX' in Hpre. discriminate.
  - rewrite add_thought_not_ready in Hadd by done.
    injection Hadd as HX' _. rewrite <- HX' in Hpre. discriminate.
Qed.

(** Creating a thought under an id that is taken fails on the uniqueness
    constraint and changes nothing. *)
Lemma add_thought_existing (content : string) (thought_id : option string)
    (metadata : option pydict) (now : Z) (st : state) :
  ready st = true →
  thought_id_unique (graph st) = true →
  default "Thought" thought_id ≠ "" →
  existsb (node_has_id (default "Thought" thought_id)) (nodes (graph st)) = true →
  ∃ e, add_thought content thought_id metadata now st =
         (Return ("Error: Failed to add thought: " +:+ str_exn e), st) ∧
       (∀ s, json_dumps (VDict (or_empty_dict metadata)) = Return s →
             e = Neo4jError (ConstraintValidationFailed "Thought" "id"
                               (default "Thought" thought_id))).
Proof.
  intros Hr Hc HX Hex.
  rewrite add_thought_ready; [|done|by apply truthy_str_true].
  destruct (json_dumps (VDict (or_empty_dict metadata))) as [s|e].
  - rewrite run_create_thought_existing by done. eauto.
  - exists e. split; [done | intros s Hs; discriminate].
Qed.
End Neo4jTheory.

(** ** The LightRAG tool *)

Section LightRAGTheory.
Context `{PyRuntime} {S : Type} `{LightRAG S}.
Import LightRAGTool.

Lemma bind_Raise {St A B} (m : M St A) (k : A → M St B) (e : exn) (s s' : St) :
  m s = (Raise e, s') → bind m k s = (Raise e, s').
Proof. unfold bind. by intros ->. Qed.

Lemma bind_Return {St A B} (m : M St A) (k : A → M St B) (a : A) (s s' : St) :
  m s = (Return a, s') → bind m k s = k a s'.
Proof. unfold bind. by intros ->. Qed.

Lemma ensure_rag_ready_ok (t : LightRAGTool S) :
  rag_ready t = true → _ensure_rag_ready t = (Return tt, t).
Proof.
  unfold rag_ready, _ensure_rag_ready, rag_instance_truthy, bind, get.
  destruct (rag_instance t); try discriminate. by intros ->.
Qed.

Lemma ensure_rag_ready_fail (t : LightRAGTool S) :
  rag_ready t = false → _ensure_rag_ready t = (Raise (guard_exn t), t).
Proof.
  unfold rag_ready, _ensure_rag_ready, rag_instance_truthy, guard_exn, bind, get.
  destruct (rag_instance t); try done. by intros ->.
Qed.

Lemma rag_ready_Obj (t : LightRAGTool S) :
  rag_ready t = true → ∃ s, rag_instance t = Obj s ∧ is_initialized t = true.
Proof. unfold rag_ready. destruct (rag_instance t); try discriminate. eauto. Qed.

Lemma with_instance_same (t : LightRAGTool S) (s : S) :
  rag_instance t = Obj s → with_instance s t = t.
Proof. unfold with_instance. destruct t; simpl. by intros ->. Qed.

Lemma rag_ready_with_instance (t : LightRAGTool S) (s : S) :
  rag_ready (with_instance s t) = is_initialized t.
Proof. reflexivity. Qed.

Lemma call_Obj {A} (method : S → outcome A * S) (t : LightRAGTool S) (s : S) :
  rag_instance t = Obj s →
  call method t = (fst (method s), with_instance (snd (method s)) t).
Proof. unfold call. intros ->. by destruct (method s). Qed.

(** [create_entity] on a ready tool and a non-empty name. *)
Lemma create_entity_ready (name : string) (description entity_type source_id : option string)
    (t : LightRAGTool S) (s : S) :
  rag_instance t = Obj s → is_initialized t = true → name ≠ "" →
  create_entity name description entity_type source_id t =
    let r := acreate_entity name
               (entity_data description entity_type (default "manual" source_id)) s in
    (Return match fst r with
            | Return _ => "Entity '" +:+ name +:+ "' created successfully."
            | Raise e =>
                if is_ValueError e then "Error: " +:+ str_exn e
                else "Error creating entity '" +:+ name +:+ "': " +:+ str_exn e
            end,
     with_instance (snd r) t).
Proof.
  intros Hs Hi Hn. unfold create_entity.
  rewrite (bind_Return _ _ tt t t)
    by (apply ensure_rag_ready_ok; unfold rag_ready; by rewrite Hs).
  apply truthy_str_true in Hn. rewrite Hn. simpl.
  unfold try_except_value, try_except, bind. rewrite (call_Obj _ _ _ Hs).
  destruct (acreate_entity name _ s) as [[r|e] s']; simpl; [done |].
  by destruct (is_ValueError e).
Qed.

(** A second [create_entity] under a name just created is refused, and
    the knowledge base is left as the first call made it. *)
Lemma create_entity_twice (name : string) (description entity_type source_id : option string)
    (t t1 : LightRAGTool S) :
  (∀ n d d' s r s',
      acreate_entity n d s = (Return r, s') →
      ∃ m, acreate_entity n d' s' = (Raise (ValueError m), s')) →
  create_entity name description entity_type source_id t =
    (Return ("Entity '" +:+ name +:+ "' created successfully."), t1) →
  ∀ description' entity_type' source_id',
    ∃ m, create_entity name description' entity_type' source_id' t1 =
           (Return ("Error: " +:+ m), t1).
Proof.
  intros Hlaw Hfirst d' ty' src'.
  destruct (rag_ready t) eqn:Hr.
  2:{ unfold create_entity in Hfirst.
      rewrite (bind_Raise _ _ _ _ _ (ensure_rag_ready_fail _ Hr)) in Hfirst. done. }
  apply rag_ready_Obj in Hr as [s [Hs Hi]].
  destruct (String.eqb_spec name "") as [->|Hn].
  { unfold create_entity in Hfirst.
    rewrite (bind_Return _ _ tt t t) in Hfirst
      by (apply ensure_rag_ready_ok; unfold rag_ready; by rewrite Hs).
    simpl in Hfirst. unfold ret in Hfirst. done. }
  rewrite (create_entity_ready _ _ _ _ _ _ Hs Hi Hn) in Hfirst. simpl in Hfirst.
  destruct (acreate_entity name _ s) as [[r|e] s'] eqn:Hc; simpl in Hfirst.
  2:{ destruct (is_ValueError e); injection Hfirst as Hm _; discriminate. }
  injection Hfirst as <-.
  rewrite (create_entity_ready name d' ty' src' _ s') by done. simpl.
  destruct (Hlaw _ _ (entity_data d' ty' (default "manual" src')) _ _ _ Hc) as [m Hm].
  rewrite Hm. simpl. exists m. reflexivity.
Qed.
End LightRAGTheory.

Section Neo4jConnect.
Context `{PyRuntime} `{Neo4j.Neo4jServer}.
Import Neo4j.

Lemma connect_thoughts_ready (source_id target_id : string)
    (relationship_type : option string) (weight : option float)
    (properties : option pydict) (st : state) :
  ready st = true →
  connect_thoughts source_id target_id relationship_type weight properties st =
    let rt := default "RELATED_TO" relationship_type in
    let w := default 0.5%float weight in
    let r := connect_run source_id target_id rt w properties (graph st) in
    (Return match fst r with
            | Return (S _) =>
                "Thoughts connected successfully with relationship type '" +:+ rt +:+
                "' and weight " +:+ str_float w
            | Return O => "Error: Failed to connect thoughts - one or both thoughts not found"
            | Raise e => "Error: Failed to connect thoughts: " +:+ str_exn e
            end,
     {| self := self st; graph := snd r; uuid_draws := uuid_draws st |}).
Proof.
  intros Hr. unfold connect_thoughts, try_except, bind.
  rewrite (ensure_initialized_ready _ Hr). unfold session_run, connect_run, weighted.
  destruct properties as [p|]; simpl;
    match goal with |- context [run_connect ?q ?rt ?pat ?par ?g] =>
      destruct (run_connect q rt pat par g) as [[[|n]|e] g'] end; reflexivity.
Qed.

Lemma connect_thoughts_not_ready (source_id target_id : string)
    (relationship_type : option string) (weight : option float)
    (properties : option pydict) (st : state) :
  ready st = false →
  connect_thoughts source_id target_id relationship_type weight properties st =
    (Return ("Error: Failed to connect thoughts: " +:+ not_initialized_msg), st).
Proof.
  intros Hr. unfold connect_thoughts, try_except, bind.
  by rewrite (ensure_initialized_not_ready _ Hr).
Qed.

Lemma graph_eta (g : graph_db) :
  {| thought_id_unique := thought_id_unique g; next_node_id := next_node_id g;
     nodes := nodes g; rels := rels g |} = g.
Proof. by destruct g. Qed.

Lemma list_prod_nil_r {A B} (l : list A) : list_prod l (@nil B) = [].
Proof. induction l; simpl; auto. Qed.

(** Parameters other than the [prop_] ones are as first set. *)
Lemma connect_params_fixed (k : string) (source_id target_id : string) (weight : float)
    (properties : pydict) :
  String.prefix "prop_" k = false →
  dict_get k (connect_params source_id target_id weight properties) =
  dict_get k [("source_id", VStr source_id); ("target_id", VStr target_id);
              ("weight", VFloat weight)].
Proof.
  intros Hk. unfold connect_params.
  generalize [("source_id", VStr source_id); ("target_id", VStr target_id);
              ("weight", VFloat weight)].
  induction properties as [|[k0 v0] ps IH]; intros init; simpl; [done |].
  rewrite IH. destruct (negb (String.eqb k0 "weight")); [|done].
  apply dict_get_set_ne. intros Heq. rewrite <- Heq in Hk. simpl in Hk.
  destruct k0; discriminate.
Qed.

Lemma connect_params_other (k : string) (properties : pydict) (init : pydict) :
  k ∉ dict_keys properties →
  dict_get ("prop_" +:+ k)
    (fold_left (λ params kv,
                  if negb (String.eqb (fst kv) "weight")
                  then dict_set ("prop_" +:+ fst kv) (snd kv) params else params)
               properties init) =
  dict_get ("prop_" +:+ k) init.
Proof.
  revert init. induction properties as [|[k0 v0] ps IH]; intros init Hk; simpl; [done |].
  simpl in Hk. apply not_elem_of_cons in Hk as [Hne Hk].
  rewrite IH by done. destruct (negb (String.eqb k0 "weight")); [|done].
  apply dict_get_set_ne. simpl. intros Heq. injection Heq as Heq. change (k0 = k) in Heq. congruence.
Qed.

Lemma connect_params_prop (k : string) (v : value) (source_id target_id : string)
    (weight : float) (properties : pydict) :
  NoDup (dict_keys properties) →
  (k, v) ∈ properties → k ≠ "weight" →
  dict_get ("prop_" +:+ k) (connect_params source_id target_id weight properties) = Some v.
Proof.
  unfold connect_params.
  generalize [("source_id", VStr source_id); ("target_id", VStr target_id);
              ("weight", VFloat weight)].
  induction properties as [|[k0 v0] ps IH]; intros init Hnd Hin Hk; simpl.
  - by apply elem_of_nil in Hin.
  - simpl in Hnd. apply NoDup_cons in Hnd as [Hnotin Hnd].
    apply elem_of_cons in Hin as [Heq | Hin].
    + injection Heq as <- <-.
      destruct (String.eqb_spec k "weight"); [done |]. simpl.
      rewrite connect_params_other by done. apply dict_get_set_eq.
    + by apply IH.
Qed.
End Neo4jConnect.

Section Neo4jConnect2.
Context `{PyRuntime} `{Neo4j.Neo4jServer}.
Import Neo4j.

Lemma connect_run_unparsed (a b rt : string) (w : float) (props : option pydict)
    (g : graph_db) :
  cypher_parses (connect_query rt (connect_props (weighted w props))) = false →
  connect_run a b rt w props g =
    (Raise (Neo4jError (CypherSyntaxError
              (connect_query rt (connect_props (weighted w props))))), g).
Proof. unfold connect_run, run_connect. by intros ->. Qed.

Lemma connect_params_source (a b : string) (w : float) (ps : pydict) :
  dict_get "source_id" (connect_params a b w ps) = Some (VStr a).
Proof. by rewrite connect_params_fixed. Qed.

Lemma connect_params_target (a b : string) (w : float) (ps : pydict) :
  dict_get "target_id" (connect_params a b w ps) = Some (VStr b).
Proof. by rewrite connect_params_fixed. Qed.

Lemma connect_params_weight (a b : string) (w : float) (ps : pydict) :
  dict_get "weight" (connect_params a b w ps) = Some (VFloat w).
Proof. by rewrite connect_params_fixed. Qed.

(** With an end point missing the statement matches no row: nothing is
    merged and no record comes back. *)
Lemma connect_run_missing (a b rt : string) (w : float) (props : option pydict)
    (g : graph_db) :
  cypher_parses (connect_query rt (connect_props (weighted w props))) = true →
  match_thought a g = [] ∨ match_thought b g = [] →
  connect_run a b rt w props g = (Return 0, g).
Proof.
  intros Hp Hm. unfold connect_run, run_connect. rewrite Hp. simpl.
  rewrite connect_params_source, connect_params_target.
  destruct Hm as [-> | ->]; [done | by rewrite list_prod_nil_r].
Qed.

Lemma find_none_Forall {A} (f : A → bool) (l : list A) :
  Forall (λ x, f x = false) l → List.find f l = None.
Proof. induction 1 as [|x l Hx _ IH]; simpl; [done | by rewrite Hx]. Qed.

Lemma dict_set_elem (k k0 : string) (v v0 : value) (d : pydict) :
  (k, v) ∈ dict_set k0 v0 d → k ≠ k0 → (k, v) ∈ d.
Proof.
  induction d as [|[k1 v1] d IH]; simpl; intros Hin Hne.
  - apply list_elem_of_singleton in Hin. congruence.
  - destruct (String.eqb_spec k1 k0) as [->|].
    + apply elem_of_cons in Hin as [Heq | Hin]; [congruence | by right].
    + apply elem_of_cons in Hin as [Heq | Hin]; [rewrite Heq; left | right; by apply IH].
Qed.

Lemma dict_set_keys (k0 : string) (v0 : value) (d : pydict) :
  NoDup (dict_keys d) → NoDup (dict_keys (dict_set k0 v0 d)) ∧
  ∀ k, k ∈ dict_keys (dict_set k0 v0 d) → k = k0 ∨ k ∈ dict_keys d.
Proof.
  induction d as [|[k1 v1] d IH]; simpl; intros Hnd.
  - split; [apply NoDup_singleton |].
    intros k Hk. apply list_elem_of_singleton in Hk. by left.
  - apply NoDup_cons in Hnd as [Hnotin Hnd]. destruct (IH Hnd) as [IH1 IH2].
    destruct (String.eqb_spec k1 k0) as [->|Hne]; simpl.
    + split; [by apply NoDup_cons |].
      intros k Hk. apply elem_of_cons in Hk as [-> | Hk]; [by left | right; by right].
    + split.
      * apply NoDup_cons. split; [|done]. intros Hin.
        destruct (IH2 _ Hin); [congruence | done].
      * intros k Hk. apply elem_of_cons in Hk as [-> | Hk]; [right; by left |].
        destruct (IH2 _ Hk); [by left | right; by right].
Qed.

Lemma merge_rel_incl (rt : string) (props : pydict) (rs : list rel) (row : node * node)
    (r : rel) :
  r ∈ rs → r ∈ merge_rel rt props rs row.
Proof.
  unfold merge_rel. intros Hr.
  destruct (existsb _ rs); [done | apply elem_of_app; by left].
Qed.

Lemma fold_merge_rel_incl (rt : string) (props : pydict) (rows : list (node * node))
    (rs : list rel) (r : rel) :
  r ∈ rs → r ∈ fold_left (merge_rel rt props) rows rs.
Proof.
  revert rs. induction rows as [|row rows IH]; intros rs Hr; simpl; [done |].
  apply IH. by apply merge_rel_incl.
Qed.

(** After the merge of a row there is a relationship of the asked type
    between its nodes, carrying the asked properties or Cypher-equal
    ones. *)
Lemma merge_rel_has (rt : string) (props : pydict) (rs : list rel) (row : node * node) :
  ∃ r, r ∈ merge_rel rt props rs row ∧
       rel_start r = node_id (fst row) ∧ rel_end r = node_id (snd row) ∧
       rel_type r = rt ∧
       (rel_props r = props ∨
        forallb (λ kv, match dict_get (fst kv) (rel_props r) with
                       | Some v => prop_eqb v (snd kv)
                       | None => false
                       end) props = true).
Proof.
  unfold merge_rel.
  destruct (existsb _ rs) eqn:He.
  - apply existsb_exists in He as [r [Hin Hm]]. exists r.
    unfold rel_matches in Hm.
    apply andb_true_iff in Hm as [Hm Hprops].
    apply andb_true_iff in Hm as [Hm Hty].
    apply andb_true_iff in Hm as [Hs Ht].
    apply Nat.eqb_eq in Hs, Ht. apply String.eqb_eq in Hty.
    apply list_elem_of_In in Hin. auto 10.
  - eexists. split; [apply elem_of_app; right; apply list_elem_of_singleton; reflexivity |].
    simpl. auto.
Qed.
End Neo4jConnect2.

Section Neo4jConnect3.
Context `{PyRuntime} `{Neo4j.Neo4jServer}.
Import Neo4j.

Lemma resolved_storable (a b : string) (w : float) (props : option pydict) :
  storable_request w props →
  List.find (λ kv : string * option value,
               match snd kv with Some v => negb (storable v) | None => true end)
    (resolve_pattern (connect_pattern (weighted w props))
       (connect_params a b w (weighted w props))) = None.
Proof.
  intros (Hnd & Hw & Hps). apply find_none_Forall.
  unfold resolve_pattern, connect_pattern. simpl. constructor.
  - simpl. by rewrite connect_params_weight, Hw.
  - apply List.Forall_forall. intros [k ov] Hin.
    apply in_map_iff in Hin as [[k' p] [Heq Hin]].
    apply in_map_iff in Hin as [key [Hkp Hin]].
    apply filter_In in Hin as [Hin Hne].
    injection Hkp as Hk' Hp'. subst k' p. simpl in Heq. injection Heq as Hk Hov.
    subst k ov. simpl.
    destruct (String.eqb_spec key "weight") as [|Hne']; [discriminate |].
    unfold dict_keys in Hin. apply in_map_iff in Hin as [[k0 v] [Hk Hin]].
    simpl in Hk. subst k0. apply list_elem_of_In in Hin.
    destruct (dict_set_keys "weight" (VFloat w) (default [] props) Hnd) as [Hnd' _].
    fold (weighted w props) in Hnd'.
    rewrite (connect_params_prop key v) by done.
    apply dict_set_elem in Hin; [|done]. by rewrite (Hps _ _ Hin Hne').
Qed.

Lemma pattern_props_weight (a b : string) (w : float) (ps : pydict) :
  ∃ rest,
    pattern_props (resolve_pattern (connect_pattern ps) (connect_params a b w ps)) =
    ("weight", VFloat w) :: rest.
Proof.
  unfold pattern_props, resolve_pattern, connect_pattern. simpl.
  rewrite connect_params_weight. simpl. eauto.
Qed.

(** With both end points present, a statement that parses and properties
    that can be stored, the relationship is merged in: a record comes
    back, the nodes and the relationships there were stay, and a
    relationship of the asked type links the two nodes. *)
Lemma connect_run_present (a b rt : string) (w : float) (props : option pydict)
    (g : graph_db) (s t : node) (ss ts : list node) :
  cypher_parses (connect_query rt (connect_props (weighted w props))) = true →
  match_thought a g = s :: ss →
  match_thought b g = t :: ts →
  storable_request w props →
  ∃ n g',
    connect_run a b rt w props g = (Return (S n), g') ∧
    thought_id_unique g' = thought_id_unique g ∧
    nodes g' = nodes g ∧
    (∀ r, r ∈ rels g → r ∈ rels g') ∧
    ∃ r, r ∈ rels g' ∧ rel_start r = node_id s ∧ rel_end r = node_id t ∧
         rel_type r = rt ∧ carries_weight w r.
Proof.
  intros Hp Ha Hb Hst. unfold connect_run, run_connect. rewrite Hp. simpl negb. cbv iota.
  rewrite connect_params_source, connect_params_target, Ha, Hb.
  rewrite (resolved_storable a b w props Hst).
  destruct (pattern_props_weight a b w (weighted w props)) as [rest Hpp].
  cbn [list_prod map app]. rewrite Hpp.
  eexists _, _. split; [reflexivity |]. cbn [thought_id_unique nodes rels].
  split; [done |]. split; [done |]. split.
  - intros r Hr. by apply fold_merge_rel_incl.
  - cbn [fold_left].
    destruct (merge_rel_has rt (("weight", VFloat w) :: rest) (rels g) (s, t))
      as (r & Hin & Hs & Ht & Hty & Hprops).
    exists r. split; [by apply fold_merge_rel_incl |]. do 3 (split; [done |]).
    unfold carries_weight. destruct Hprops as [-> | Hall].
    + exists (VFloat w). split; [reflexivity | by left].
    + cbn [forallb fst snd] in Hall. apply andb_true_iff in Hall as [Hw _].
      destruct (dict_get "weight" (rel_props r)) as [v|]; [|discriminate]. eauto.
Qed.

(** A failed statement leaves the graph as it was. *)
Lemma connect_run_Raise (a b rt : string) (w : float) (props : option pydict)
    (g g' : graph_db) (e : exn) :
  connect_run a b rt w props g = (Raise e, g') → g' = g.
Proof.
  unfold connect_run, run_connect.
  destruct (negb (cypher_parses _)); [congruence |].
  destruct (list_prod _ _); [congruence |].
  destruct (List.find _ _); congruence.
Qed.

Lemma connect_run_missing_any (a b rt : string) (w : float) (props : option pydict)
    (g : graph_db) :
  match_thought a g = [] ∨ match_thought b g = [] →
  connect_run a b rt w props g = (Return 0, g) ∨
  ∃ e, connect_run a b rt w props g = (Raise e, g).
Proof.
  intros Hm.
  destruct (cypher_parses (connect_query rt (connect_props (weighted w props)))) eqn:Hp.
  - left. by apply connect_run_missing.
  - right. eexists. by apply connect_run_unparsed.
Qed.
End Neo4jConnect3.

Section Neo4jConnect4.
Context `{PyRuntime} `{Neo4j.Neo4jServer}.
Import Neo4j.

(** [connect_thoughts] with an end point missing: an error, and the
    state as before. *)
Lemma connect_thoughts_missing (a b : string) (rt : option string) (w : option float)
    (props : option pydict) (st : state) :
  match_thought a (graph st) = [] ∨ match_thought b (graph st) = [] →
  ∃ msg,
    connect_thoughts a b rt w props st =
      (Return ("Error: Failed to connect thoughts" +:+ msg), st) ∧
    (ready st = true →
     cypher_parses (connect_query (default "RELATED_TO" rt)
                      (connect_props (weighted (default 0.5%float w) props))) = true →
     msg = " - one or both thoughts not found").
Proof.
  intros Hm. destruct (ready st) eqn:Hr.
  - rewrite connect_thoughts_ready by done. cbv zeta.
    destruct (connect_run_missing_any a b (default "RELATED_TO" rt)
                (default 0.5%float w) props (graph st) Hm) as [Hrun | [e Hrun]];
      rewrite Hrun; cbn [fst snd]; rewrite state_eta.
    + exists " - one or both thoughts not found". split; [reflexivity | done].
    + exists (": " +:+ str_exn e). split; [reflexivity |]. intros _ Hp.
      rewrite connect_run_missing in Hrun by done. discriminate.
  - rewrite connect_thoughts_not_ready by done.
    exists (": " +:+ not_initialized_msg). split; [reflexivity | discriminate].
Qed.

(** [connect_thoughts] between two thoughts that exist. *)
Lemma connect_thoughts_present (a b : string) (rt : option string) (w : option float)
    (props : option pydict) (st : state) (s t : node) (ss ts : list node) :
  ready st = true →
  cypher_parses (connect_query (default "RELATED_TO" rt)
                   (connect_props (weighted (default 0.5%float w) props))) = true →
  match_thought a (graph st) = s :: ss →
  match_thought b (graph st) = t :: ts →
  storable_request (default 0.5%float w) props →
  ∃ st',
    connect_thoughts a b rt w props st =
      (Return (connected_msg (default "RELATED_TO" rt) (default 0.5%float w)), st') ∧
    self st' = self st ∧
    nodes (graph st') = nodes (graph st) ∧
    (∀ r, r ∈ rels (graph st) → r ∈ rels (graph st')) ∧
    ∃ r, r ∈ rels (graph st') ∧ rel_start r = node_id s ∧ rel_end r = node_id t ∧
         rel_type r = default "RELATED_TO" rt ∧
         carries_weight (default 0.5%float w) r.
Proof.
  intros Hr Hp Ha Hb Hst. rewrite connect_thoughts_ready by done. cbv zeta.
  destruct (connect_run_present a b _ _ props (graph st) s t ss ts Hp Ha Hb Hst)
    as (n & g' & Hrun & _ & Hn & Hold & Hnew).
  rewrite Hrun. cbn [fst snd]. eexists. split; [reflexivity |]. simpl. auto.
Qed.

Lemma match_thought_app (id : string) (g : graph_db) (n : node) (g' : graph_db) :
  nodes g' = (nodes g ++ [n])%list →
  match_thought id g' =
    (match_thought id g ++ (if node_has_id id n then [n] else []))%list.
Proof.
  unfold match_thought. intros ->. rewrite List.filter_app. simpl.
  by destruct (node_has_id id n).
Qed.

(** A thought that was created is matched by its id, and the thoughts
    there were are still matched. *)
Lemma add_thought_matched (content X : string) (metadata : option pydict) (now : Z)
    (st st1 : state) :
  X ≠ "" →
  String.prefix "Error: " X = false →
  add_thought content (Some X) metadata now st = (Return X, st1) →
  ready st1 = true ∧
  match_thought X (graph st1) ≠ [] ∧
  ∀ Y, match_thought Y (graph st) ≠ [] → match_thought Y (graph st1) ≠ [].
Proof.
  intros HX Hpre Hadd.
  destruct (add_thought_created _ _ _ _ _ _ HX Hpre Hadd)
    as (Hr & Hself & _ & s & _ & Hrun).
  apply run_create_thought_Return in Hrun as (_ & _ & _ & Hnodes).
  split; [unfold ready; by rewrite Hself |]. split.
  - rewrite (match_thought_app _ _ _ _ Hnodes), node_has_id_new.
    intros Happ. by apply app_eq_nil in Happ as [_ ?].
  - intros Y HY. rewrite (match_thought_app _ _ _ _ Hnodes).
    intros Happ. by apply app_eq_nil in Happ as [? _].
Qed.
End Neo4jConnect4.

Section LightRAGRelation.
Context `{PyRuntime} {S : Type} `{LightRAG S}.
Import LightRAGTool.

Lemma create_relation_ready (a b : string) (description keywords : option string)
    (weight : option float) (source_id : option string) (t : LightRAGTool S) (s : S) :
  rag_instance t = Obj s → is_initialized t = true → a ≠ "" → b ≠ "" →
  create_relation a b description keywords weight source_id t =
    let r := acreate_relation a b
               (relation_data description keywords (default 1%float weight)
                  (default "manual" source_id)) s in
    (Return match fst r with
            | Return _ => "Relation '" +:+ a +:+ "' -> '" +:+ b +:+ "' created successfully."
            | Raise e =>
                if is_ValueError e then "Error: " +:+ str_exn e
                else "Error creating relation '" +:+ a +:+ "'->'" +:+ b +:+ "': " +:+ str_exn e
            end,
     with_instance (snd r) t).
Proof.
  intros Hs Hi Ha Hb. unfold create_relation.
  rewrite (bind_Return _ _ tt t t)
    by (apply ensure_rag_ready_ok; unfold rag_ready; by rewrite Hs).
  apply truthy_str_true in Ha, Hb. rewrite Ha, Hb. simpl.
  unfold try_except_value, try_except, bind. rewrite (call_Obj _ _ _ Hs).
  destruct (acreate_relation a b _ s) as [[r|e] s']; simpl; [done |].
  by destruct (is_ValueError e).
Qed.

Lemma create_relation_empty (a b : string) (description keywords : option string)
    (weight : option float) (source_id : option string) (t : LightRAGTool S) :
  rag_ready t = true → a = "" ∨ b = "" →
  create_relation a b description keywords weight source_id t =
    (Return "Error: Both 'source_entity' and 'target_entity' must be non-empty strings.", t).
Proof.
  intros Hr Hab. unfold create_relation.
  rewrite (bind_Return _ _ tt t t) by (by apply ensure_rag_ready_ok).
  destruct Hab as [-> | ->]; simpl; [done |].
  by rewrite orb_true_r.
Qed.

(** [create_relation] with an end point the graph does not have. *)
Lemma create_relation_missing (a b : string) (description keywords : option string)
    (weight : option float) (source_id : option string) (t : LightRAGTool S) (s : S) :
  (∀ a b d s, has_node a s = false ∨ has_node b s = false →
              ∃ m, acreate_relation a b d s = (Raise (ValueError m), s)) →
  rag_instance t = Obj s → is_initialized t = true →
  has_node a s = false ∨ has_node b s = false →
  ∃ m, create_relation a b description keywords weight source_id t =
         (Return ("Error: " +:+ m), t).
Proof.
  intros Hlaw Hs Hi Hm.
  destruct (String.eqb_spec a "") as [->|Ha].
  { eexists. rewrite create_relation_empty; [reflexivity | | by left].
    unfold rag_ready. by rewrite Hs. }
  destruct (String.eqb_spec b "") as [->|Hb].
  { eexists. rewrite create_relation_empty; [reflexivity | | by right].
    unfold rag_ready. by rewrite Hs. }
  rewrite (create_relation_ready _ _ _ _ _ _ _ _ Hs Hi Ha Hb). cbv zeta.
  destruct (Hlaw a b (relation_data description keywords (default 1%float weight)
                        (default "manual" source_id)) s Hm) as [m Hm'].
  rewrite Hm'. simpl. exists m. by rewrite (with_instance_same _ _ Hs).
Qed.

(** [create_relation] between two entities the graph has. *)
Lemma create_relation_present (a b : string) (description keywords : option string)
    (weight : option float) (source_id : option string) (t : LightRAGTool S) (s : S) :
  (∀ a b d s, has_node a s = true → has_node b s = true → has_edge a b s = false →
              ∃ r s', acreate_relation a b d s = (Return r, s') ∧ has_edge a b s' = true) →
  rag_instance t = Obj s → is_initialized t = true →
  a ≠ "" → b ≠ "" →
  has_node a s = true → has_node b s = true → has_edge a b s = false →
  ∃ s',
    snd (acreate_relation a b
           (relation_data description keywords (default 1%float weight)
              (default "manual" source_id)) s) = s' ∧
    create_relation a b description keywords weight source_id t =
      (Return ("Relation '" +:+ a +:+ "' -> '" +:+ b +:+ "' created successfully."),
       with_instance s' t) ∧
    has_edge a b s' = true.
Proof.
  intros Hlaw Hs Hi Ha Hb Hna Hnb He.
  rewrite (create_relation_ready _ _ _ _ _ _ _ _ Hs Hi Ha Hb). cbv zeta.
  destruct (Hlaw a b (relation_data description keywords (default 1%float weight)
                        (default "manual" source_id)) s Hna Hnb He) as (r & s' & Hc & Hedge).
  rewrite Hc. simpl. by exists s'.
Qed.
End LightRAGRelation.

Section LightRAGGuards.
Context `{PyRuntime} {S : Type} `{LightRAG S}.
Import LightRAGTool.

Lemma merge_entities_self (target : string) (override : option pydict)
    (t : LightRAGTool S) :
  rag_ready t = true →
  merge_entities [target] target override t = (Return (self_merge_msg target), t).
Proof.
  intros Hr. unfold merge_entities, self_merge_msg.
  rewrite (bind_Return _ _ tt t t) by (by apply ensure_rag_ready_ok).
  unfold truthy_str. simpl. destruct (String.eqb target ""); simpl; [done |].
  by rewrite String.eqb_refl.
Qed.

(** A tool that is not ready refuses before it looks at its arguments. *)
Lemma guarded_fail {A} (k : unit → M (LightRAGTool S) A) (t : LightRAGTool S) :
  rag_ready t = false → bind _ensure_rag_ready k t = (Raise (guard_exn t), t).
Proof. intros Hr. apply bind_Raise. by apply ensure_rag_ready_fail. Qed.

Lemma merge_entities_no_mutation (target : string) (override : option pydict)
    (t : LightRAGTool S) :
  snd (merge_entities [target] target override t) = t.
Proof.
  destruct (rag_ready t) eqn:Hr.
  - by rewrite merge_entities_self.
  - unfold merge_entities. by rewrite guarded_fail.
Qed.

(** [_retrieve] on a ready tool and a non-empty query. *)
Lemma retrieve_ready (query mode : string) (top_k : option Z) (t : LightRAGTool S) (s : S) :
  rag_instance t = Obj s → is_initialized t = true → query ≠ "" →
  _retrieve query mode top_k t =
    let r := aquery query mode (default (default_top_k t) top_k) s in
    (Return match fst r with
            | Return (RespStr response) =>
                if truthy_str response then response
                else "No results or response generated for mode '" +:+ mode +:+ "'."
            | Return (RespOther ty) =>
                "Received unexpected response type (" +:+ ty +:+ ") for mode '" +:+
                mode +:+ "'. Needs handling."
            | Raise e => "Error during '" +:+ mode +:+ "' retrieval: " +:+ str_exn e
            end,
     with_instance (snd r) t).
Proof.
  intros Hs Hi Hq. unfold _retrieve.
  rewrite (bind_Return _ _ tt t t)
    by (apply ensure_rag_ready_ok; unfold rag_ready; by rewrite Hs).
  apply truthy_str_true in Hq. rewrite Hq. simpl.
  unfold try_except, bind, get. rewrite (call_Obj _ _ _ Hs).
  destruct top_k as [k|]; simpl;
    match goal with |- context [aquery ?q ?m ?k ?s] =>
      destruct (aquery q m k s) as [[[r|ty]|e] s'] end; reflexivity.
Qed.

(** Retrieval on a ready tool always returns a text. *)
Lemma retrieve_returns (query mode : string) (top_k : option Z) (t : LightRAGTool S) :
  rag_ready t = true → query ≠ "" →
  ∃ r t', _retrieve query mode top_k t = (Return r, t').
Proof.
  intros Hr Hq. apply rag_ready_Obj in Hr as (s & Hs & Hi).
  rewrite (retrieve_ready _ _ _ _ _ Hs Hi Hq). cbv zeta. eauto.
Qed.

(** An empty answer of the library comes back as the "no results"
    text. *)
Lemma retrieve_no_results (query mode : string) (top_k : option Z) (t : LightRAGTool S)
    (s s' : S) :
  rag_instance t = Obj s → is_initialized t = true → query ≠ "" →
  aquery query mode (default (default_top_k t) top_k) s = (Return (RespStr ""), s') →
  _retrieve query mode top_k t =
    (Return ("No results or response generated for mode '" +:+ mode +:+ "'."),
     with_instance s' t).
Proof.
  intros Hs Hi Hq Ha. rewrite (retrieve_ready _ _ _ _ _ Hs Hi Hq). cbv zeta.
  by rewrite Ha.
Qed.

(** A mode the library refuses comes back as an error text naming it. *)
Lemma retrieve_rejected (query mode : string) (top_k : option Z) (t : LightRAGTool S) :
  (∀ q m k s, m ∉ retrieval_modes → ∃ e s', aquery q m k s = (Raise e, s')) →
  rag_ready t = true → query ≠ "" → mode ∉ retrieval_modes →
  ∃ e t', _retrieve query mode top_k t =
            (Return ("Error during '" +:+ mode +:+ "' retrieval: " +:+ str_exn e), t').
Proof.
  intros Hlaw Hr Hq Hm. apply rag_ready_Obj in Hr as (s & Hs & Hi).
  rewrite (retrieve_ready _ _ _ _ _ Hs Hi Hq). cbv zeta.
  destruct (Hlaw query mode (default (default_top_k t) top_k) s Hm) as (e & s' & Ha).
  rewrite Ha. simpl. eauto.
Qed.

(** Initialization of an initialized tool. *)
Lemma initialize_again (t : LightRAGTool S) :
  is_initialized t = true →
  initialize t = (Return "LightRAGTool is already initialized.", t).
Proof. unfold initialize, bind, get. by intros ->. Qed.

(** Every data operation of a tool that is not ready fails in the guard
    and leaves the tool, and with it the storages, untouched. *)
Lemma not_ready_data_operations (t : LightRAGTool S) :
  rag_ready t = false →
  (∀ text doc path, store_text text doc path t = (Raise (guard_exn t), t)) ∧
  (∀ q mode k, _retrieve q mode k t = (Raise (guard_exn t), t)) ∧
  (∀ q k, retrieve_naive q k t = (Raise (guard_exn t), t)) ∧
  (∀ q k, retrieve_local_kg q k t = (Raise (guard_exn t), t)) ∧
  (∀ q k, retrieve_global_kg q k t = (Raise (guard_exn t), t)) ∧
  (∀ q k, retrieve_hybrid q k t = (Raise (guard_exn t), t)) ∧
  (∀ q k, retrieve_mix_kg_vector q k t = (Raise (guard_exn t), t)) ∧
  (∀ n d ty src, create_entity n d ty src t = (Raise (guard_exn t), t)) ∧
  (∀ n u r, edit_entity n u r t = (Raise (guard_exn t), t)) ∧
  (∀ n, delete_entity n t = (Raise (guard_exn t), t)) ∧
  (∀ a b d k w src, create_relation a b d k w src t = (Raise (guard_exn t), t)) ∧
  (∀ a b u, edit_relation a b u t = (Raise (guard_exn t), t)) ∧
  (∀ a b, delete_relation a b t = (Raise (guard_exn t), t)) ∧
  (∀ srcs tgt o, merge_entities srcs tgt o t = (Raise (guard_exn t), t)) ∧
  (∀ n, get_entity_details n t = (Raise (guard_exn t), t)) ∧
  (∀ a b, get_relation_details a b t = (Raise (guard_exn t), t)) ∧
  get_doc_processing_status t = (Raise (guard_exn t), t) ∧
  (∀ d, delete_document d t = (Raise (guard_exn t), t)) ∧
  (∀ modes, clear_llm_cache modes t = (Raise (guard_exn t), t)).
Proof.
  intros Hr. repeat split; intros;
    unfold retrieve_naive, retrieve_local_kg, retrieve_global_kg, retrieve_hybrid,
      retrieve_mix_kg_vector;
    by apply guarded_fail.
Qed.

Lemma guard_exn_assigned (t : LightRAGTool S) :
  rag_instance t ≠ Unset → guard_exn t = RuntimeError not_ready_msg.
Proof. unfold guard_exn. by destruct (rag_instance t). Qed.
End LightRAGGuards.

Section Neo4jGuards.
Context `{PyRuntime} `{Neo4j.Neo4jServer}.
Import Neo4j.

Lemma try_not_ready {A} (k : unit → M state A) (h : exn → M state A) (st : state) :
  ready st = false →
  try_except (bind _ensure_initialized k) h st = h (ValueError not_initialized_msg) st.
Proof.
  intros Hr. unfold try_except, bind. by rewrite (ensure_initialized_not_ready _ Hr).
Qed.

(** Every data operation of a toolkit that is not initialized answers
    with the error text and leaves the state, and so the graph, as it
    was. *)
Lemma neo4j_not_ready_data_operations (st : state) :
  ready st = false →
  (∀ c id md now, add_thought c id md now st = (Return (not_ready_error "add thought"), st)) ∧
  (∀ a b rt w ps,
      connect_thoughts a b rt w ps st = (Return (not_ready_error "connect thoughts"), st)) ∧
  (∀ id, get_thought id st = (Return (not_ready_error "get thought"), st)) ∧
  (∀ id rt w,
      get_related_thoughts id rt w st = (Return (not_ready_error "get related thoughts"), st)) ∧
  (∀ q l, search_thoughts q l st = (Return (not_ready_error "search thoughts"), st)) ∧
  (∀ q ps,
      execute_custom_query q ps st = (Return (not_ready_error "execute custom query"), st)) ∧
  get_graph_summary st = (Return (not_ready_error "get graph summary"), st) ∧
  get_all_node_ids st = (Return (not_ready_error "retrieve thought node IDs"), st).
Proof.
  intros Hr. repeat split; intros;
    unfold add_thought, connect_thoughts, get_thought, get_related_thoughts,
      search_thoughts, execute_custom_query, get_graph_summary, get_all_node_ids;
    by rewrite try_not_ready.
Qed.

(** Re-running the initialization of a connected toolkit: the constraint
    is there already, so the graph is not touched. *)
Lemma initialize_connection_again (st : state) :
  ready st = true →
  thought_id_unique (graph st) = true →
  driver_accepts (uri (self st)) (username (self st)) (password (self st)) = true →
  server_reachable (uri (self st)) (username (self st)) (password (self st)) = true →
  ∃ st', initialize_connection st = (Return "Neo4j connection initialized successfully", st') ∧
         graph st' = graph st ∧ ready st' = true ∧ uuid_draws st' = uuid_draws st.
Proof.
  intros Hr Hc Hd Hs. unfold ready in Hr. apply andb_true_iff in Hr as [Hi _].
  destruct st as [[d i u n p] g k]. simpl in *.
  unfold initialize_connection, new_driver, verify_connectivity, session_write,
    session_run, set_driver, set_is_initialized, run_create_constraint, try_except.
  unfold bind, get, ret. simpl. rewrite Hd. simpl. rewrite Hs. simpl. rewrite Hc. simpl.
  eexists. split; [reflexivity |]. simpl. done.
Qed.

(** A toolkit comes out of its constructor ready only if the constraint
    is in place. *)
Lemma init_ready_constraint (u n p : string) (g : graph_db) (draws : nat) :
  ready (__init__ u n p g draws) = true →
  thought_id_unique (graph (__init__ u n p g draws)) = true.
Proof.
  unfold __init__, initialize_connection, new_driver, verify_connectivity, session_write,
    session_run, set_driver, set_is_initialized, run_create_constraint, try_except.
  unfold bind, get, ret. simpl.
  destruct (driver_accepts u n p); simpl; [|done].
  destruct (server_reachable u n p); simpl; [|done].
  destruct (thought_id_unique g) eqn:Hc; simpl; [done |].
  destruct (distinct (thought_ids g)); simpl; done.
Qed.
End Neo4jGuards.

Section Neo4jRead.
Context `{PyRuntime} `{Neo4j.Neo4jServer}.
Import Neo4j.

Lemma filter_none {A} (f : A → bool) (l : list A) :
  existsb f l = false → List.filter f l = [].
Proof.
  induction l as [|x l IH]; simpl; [done |].
  intros Hx. apply orb_false_iff in Hx as [-> Hl]. by apply IH.
Qed.

Lemma get_thought_ready (thought_id : string) (st : state) :
  ready st = true →
  get_thought thought_id st =
    (Return match match_thought thought_id (graph st) with
            | record :: _ =>
                match parse_metadata_json (node_props record) with
                | Return thought => json_dumps_default_str (VDict thought)
                | Raise e => "Error: Failed to get thought: " +:+ str_exn e
                end
            | [] => "Error: Thought with ID '" +:+ thought_id +:+ "' not found"
            end, st).
Proof.
  intros Hr. unfold get_thought, get_thought_record, try_except.
  unfold bind at 1. rewrite (ensure_initialized_ready _ Hr).
  unfold bind, session_read, session_run, lift_outcome, ret. simpl. rewrite state_eta.
  destruct (match_thought thought_id (graph st)) as [|record rest]; [done |].
  by destruct (parse_metadata_json (node_props record)).
Qed.

Lemma get_thought_record_eq (thought_id : string) (st : state) :
  get_thought_record thought_id st =
    (match match_thought thought_id (graph st) with
     | record :: _ =>
         match parse_metadata_json (node_props record) with
         | Return thought => Return (Some thought)
         | Raise e => Raise e
         end
     | [] => Return None
     end, st).
Proof.
  unfold get_thought_record, bind, session_read, session_run, lift_outcome, ret. simpl.
  rewrite state_eta.
  destruct (match_thought thought_id (graph st)) as [|record rest]; [done |].
  by destruct (parse_metadata_json (node_props record)).
Qed.

Lemma parse_metadata_json_valid (id content s : string) (now : Z) (v : value) :
  json_loads s = Return v →
  parse_metadata_json (thought_props id content now s) = Return (thought_record id content now v).
Proof. unfold parse_metadata_json. simpl. by intros ->. Qed.

Lemma parse_metadata_json_invalid (props : pydict) (s msg : string) :
  dict_get "metadata_json" props = Some (VStr s) →
  json_loads s = Raise (JSONDecodeError msg) →
  parse_metadata_json props = Return (dict_set "metadata" (VDict []) props).
Proof. unfold parse_metadata_json. intros ->. simpl. by intros ->. Qed.

Lemma parse_metadata_json_not_text (props : pydict) (x : value) :
  dict_get "metadata_json" props = Some x →
  (∀ s, x ≠ VStr s) →
  parse_metadata_json props = Return (dict_set "metadata" (VDict []) props).
Proof.
  unfold parse_metadata_json. intros -> Hx.
  destruct x; simpl; try done. by destruct (Hx s).
Qed.

(** After a thought is added under the uniqueness constraint, its id
    matches that one node. *)
Lemma add_thought_match (content X : string) (metadata : option pydict) (now : Z)
    (st st1 : state) :
  thought_id_unique (graph st) = true →
  X ≠ "" →
  String.prefix "Error: " X = false →
  add_thought content (Some X) metadata now st = (Return X, st1) →
  ready st1 = true ∧
  ∃ s, json_dumps (VDict (or_empty_dict metadata)) = Return s ∧
       match_thought X (graph st1) =
         [{| node_id := next_node_id (graph st);
             node_props := thought_props X content now s |}].
Proof.
  intros Hc HX Hpre Hadd.
  destruct (add_thought_created _ _ _ _ _ _ HX Hpre Hadd)
    as (Hr & Hself & _ & s & Hs & Hrun).
  apply run_create_thought_Return in Hrun as (Hnew & _ & _ & Hnodes).
  split; [unfold ready; by rewrite Hself |]. exists s. split; [done |].
  rewrite (match_thought_app _ _ _ _ Hnodes), node_has_id_new.
  unfold match_thought. by rewrite (filter_none _ _ (Hnew Hc)).
Qed.

(** The metadata given to [add_thought] is what [get_thought] reads
    back. *)
Lemma add_get_metadata (content X : string) (m : pydict) (s : string) (v : value) (now : Z)
    (st st1 : state) :
  thought_id_unique (graph st) = true →
  X ≠ "" →
  String.prefix "Error: " X = false →
  json_dumps (VDict m) = Return s →
  json_loads s = Return v →
  add_thought content (Some X) (Some m) now st = (Return X, st1) →
  get_thought_record X st1 = (Return (Some (thought_record X content now v)), st1) ∧
  get_thought X st1 =
    (Return (json_dumps_default_str (VDict (thought_record X content now v))), st1).
Proof.
  intros Hc HX Hpre Hd Hl Hadd.
  destruct (add_thought_match _ _ _ _ _ _ Hc HX Hpre Hadd) as (Hr & s' & Hs' & Hm).
  assert (or_empty_dict (Some m) = m) as Hor by (by destruct m).
  rewrite Hor, Hd in Hs'. injection Hs' as <-.
  rewrite get_thought_record_eq, get_thought_ready, Hm by done. simpl.
  by rewrite (parse_metadata_json_valid _ _ _ _ _ Hl).
Qed.

(** A thought whose stored metadata text does not parse is read with an
    empty map. *)
Lemma get_thought_invalid_metadata (X : string) (st : state) (n : node) (rest : list node)
    (s msg : string) :
  ready st = true →
  match_thought X (graph st) = n :: rest →
  dict_get "metadata_json" (node_props n) = Some (VStr s) →
  json_loads s = Raise (JSONDecodeError msg) →
  get_thought_record X st =
    (Return (Some (dict_set "metadata" (VDict []) (node_props n))), st) ∧
  get_thought X st =
    (Return (json_dumps_default_str
               (VDict (dict_set "metadata" (VDict []) (node_props n)))), st).
Proof.
  intros Hr Hm Hd Hl. rewrite get_thought_record_eq, get_thought_ready, Hm by done.
  by rewrite (parse_metadata_json_invalid _ _ _ Hd Hl).
Qed.

(** A call that leaves [thought_id] out uses the default id and draws no
    UUID. *)
Lemma add_thought_default_id (content : string) (metadata : option pydict) (now : Z)
    (st : state) :
  uuid_draws (snd (add_thought content None metadata now st)) = uuid_draws st ∧
  (ready st = true →
   add_thought content None metadata now st =
     match json_dumps (VDict (or_empty_dict metadata)) with
     | Raise e => (Return ("Error: Failed to add thought: " +:+ str_exn e), st)
     | Return s =>
         match run_create_thought "Thought" content s now (graph st) with
         | Raise e => (Return ("Error: Failed to add thought: " +:+ str_exn e), st)
         | Return g =>
             (Return "Thought",
              {| self := self st; graph := g; uuid_draws := uuid_draws st |})
         end
     end).
Proof.
  assert (ready st = true →
          add_thought content None metadata now st =
            match json_dumps (VDict (or_empty_dict metadata)) with
            | Raise e => (Return ("Error: Failed to add thought: " +:+ str_exn e), st)
            | Return s =>
                match run_create_thought "Thought" content s now (graph st) with
                | Raise e => (Return ("Error: Failed to add thought: " +:+ str_exn e), st)
                | Return g =>
                    (Return "Thought",
                     {| self := self st; graph := g; uuid_draws := uuid_draws st |})
                end
            end) as Hready.
  { intros Hr. by rewrite add_thought_ready. }
  split; [|done].
  destruct (ready st) eqn:Hr.
  - rewrite Hready by done.
    destruct (json_dumps _); [|done]. by destruct (run_create_thought _ _ _ _ _).
  - by rewrite add_thought_not_ready.
Qed.
End Neo4jRead.

Section Neo4jSearch.
Context `{PyRuntime} `{Neo4j.Neo4jServer}.
Import Neo4j.









End Neo4jSearch.

Section PineconeTheory.
Context `{PyRuntime} `{Pinecone.PineconeService}.
Import Pinecone.

Lemma pinecone_state_eta (st : state) :
  {| self := self st; index_store := index_store st; uuid_draws := uuid_draws st |} = st.
Proof. by destruct st. Qed.

Lemma ensure_index_connected_ready (st : state) :
  index_ready st = true → _ensure_index_connected st = (Return tt, st).
Proof.
  unfold index_ready, _ensure_index_connected, _ensure_connected, bind, get, ret.
  intros Hr. apply andb_true_iff in Hr as [Hpc Hix].
  destruct (_pc (self st)); [|discriminate]. simpl.
  by destruct (_index (self st)).
Qed.

(** [upsert_thought] under an id of the caller's. *)
Lemma upsert_thought_given_id (content X : string) (metadata : option pydict) (st : state) :
  index_ready st = true → X ≠ "" →
  upsert_accepts X (get_embedding content)
    (dict_set "text" (VStr content) (default [] metadata)) = true →
  upsert_thought content metadata (Some X) st =
    (Return X,
     put_record (name_space (self st)) X (thought_vector content metadata)
       (uuid_draws st) st).
Proof.
  intros Hr HX Hacc. apply truthy_str_true in HX.
  unfold upsert_thought, try_except. unfold bind at 1.
  rewrite (ensure_index_connected_ready _ Hr). simpl. rewrite HX. simpl.
  unfold bind, ret, get, index_upsert. simpl.
  destruct metadata; simpl in *; by rewrite Hacc.
Qed.


Lemma put_record_ready (ns id : string) (r : vector_record) (draws : nat) (st : state) :
  index_ready (put_record ns id r draws st) = index_ready st.
Proof. reflexivity. Qed.

Lemma put_record_lookup (ns id : string) (r : vector_record) (draws : nat) (st : state) :
  namespace_records ns (put_record ns id r draws st) = <[id := r]> (namespace_records ns st).
Proof. unfold namespace_records, put_record. simpl. by rewrite lookup_insert_eq. Qed.

End PineconeTheory.

(** ** The reference environment keeps the library's contracts *)

Section ReferenceLaws.
Import Reference.

Lemma ref_create_entity_law (n : string) (d d' : pydict) (s : kg) (r : value) (s' : kg) :
  acreate_entity n d s = (Return r, s') →
  ∃ m, acreate_entity n d' s' = (Raise (ValueError m), s').
Proof.
  simpl. unfold kg_acreate_entity. destruct (kg_has_node n s); [discriminate |].
  intros [= _ <-]. unfold kg_has_node, kg_set_graph. simpl.
  rewrite lookup_insert_eq. simpl. eauto.
Qed.

Lemma ref_relation_missing_law (a b : string) (d : pydict) (s : kg) :
  has_node a s = false ∨ has_node b s = false →
  ∃ m, acreate_relation a b d s = (Raise (ValueError m), s).
Proof.
  simpl. unfold kg_acreate_relation. intros [Ha | Hb].
  - rewrite Ha. simpl. eauto.
  - destruct (kg_has_node a s); simpl; [rewrite Hb; simpl |]; eauto.
Qed.

Lemma ref_relation_present_law (a b : string) (d : pydict) (s : kg) :
  has_node a s = true → has_node b s = true → has_edge a b s = false →
  ∃ r s', acreate_relation a b d s = (Return r, s') ∧ has_edge a b s' = true.
Proof.
  simpl. unfold kg_acreate_relation. intros -> -> ->. simpl.
  eexists _, _. split; [reflexivity |].
  unfold kg_has_edge. simpl. by rewrite lookup_insert_eq.
Qed.

Lemma existsb_eqb_elem (m : string) (l : list string) :
  existsb (String.eqb m) l = true → m ∈ l.
Proof.
  induction l as [|x l IH]; simpl; [discriminate |].
  destruct (String.eqb_spec m x) as [->|]; simpl; [left | right; auto].
Qed.

Lemma ref_unknown_mode_law (q m : string) (k : Z) (s : kg) :
  m ∉ retrieval_modes → ∃ e s', aquery q m k s = (Raise e, s').
Proof.
  intros Hm. simpl. unfold kg_aquery, is_valid_mode.
  destruct (existsb (String.eqb m) retrieval_modes) eqn:He.
  - by apply existsb_eqb_elem in He.
  - eauto.
Qed.
End ReferenceLaws.

Section LightRAGStore.
Context `{PyRuntime} {S : Type} `{LightRAG S}.
Import LightRAGTool.

End LightRAGStore.

(** ** The thought graph: what returns, what stays *)

Section Neo4jReturns.
Context `{PyRuntime} `{Neo4j.Neo4jServer}.
Import Neo4j.

Lemma try_except_returns {St A} (m : M St A) (f : exn → A) (s : St) :
  ∃ r s', try_except m (λ e, ret (f e)) s = (Return r, s').
Proof. unfold try_except, ret. destruct (m s) as [[a|e] s']; eauto. Qed.

(** A computation that leaves the state as it found it. *)

Lemma keeps_state_bind {St A B} (m : M St A) (k : A → M St B) :
  keeps_state m → (∀ a, keeps_state (k a)) → keeps_state (bind m k).
Proof.
  intros Hm Hk s. unfold bind. specialize (Hm s).
  destruct (m s) as [[a|e] s']; simpl in *; subst; [apply Hk | done].
Qed.

Lemma keeps_state_try {St A} (m : M St A) (h : exn → M St A) :
  keeps_state m → (∀ e, keeps_state (h e)) → keeps_state (try_except m h).
Proof.
  intros Hm Hh s. unfold try_except. specialize (Hm s).
  destruct (m s) as [[a|e] s']; simpl in *; subst; [done | apply Hh].
Qed.

Lemma keeps_state_ret {St A} (a : A) : keeps_state (ret a : M St A).
Proof. done. Qed.

Lemma keeps_state_lift {St A} (o : outcome A) : keeps_state (lift_outcome o : M St A).
Proof. done. Qed.

Lemma keeps_state_session_read {A} (q : graph_db → outcome A) : keeps_state (session_read q).
Proof. intros [s g d]. done. Qed.

Lemma keeps_state_ensure : keeps_state _ensure_initialized.
Proof.
  intros s. unfold _ensure_initialized, bind, get, raise, ret.
  by destruct (negb _ || negb _).
Qed.

Lemma keeps_state_returns {St A} (m : M St A) (f : exn → A) (s : St) :
  keeps_state m → ∃ r, try_except m (λ e, ret (f e)) s = (Return r, s).
Proof.
  intros Hm. specialize (Hm s). unfold try_except, ret.
  destruct (m s) as [[a|e] s']; simpl in *; subst; eauto.
Qed.

End Neo4jReturns.

Section Neo4jFrame.
Context `{PyRuntime} `{Neo4j.Neo4jServer}.
Import Neo4j.

Lemma fold_merge_rel_app (rt : string) (props : pydict) (rows : list (node * node))
    (rs : list rel) :
  ∃ new, fold_left (merge_rel rt props) rows rs = (rs ++ new)%list ∧
         Forall (λ r, rel_type r = rt ∧ rel_props r = props ∧
                      ∃ row, row ∈ rows ∧ rel_start r = node_id (fst row) ∧
                             rel_end r = node_id (snd row)) new.
Proof.
  revert rs. induction rows as [|row rows IH]; intros rs.
  - exists []. by rewrite app_nil_r.
  - cbn [fold_left]. unfold merge_rel at 2.
    destruct (existsb _ rs).
    + destruct (IH rs) as (new & -> & Hall). exists new. split; [done |].
      eapply Forall_impl; [exact Hall |]. intros r (? & ? & row' & ? & ?).
      do 2 (split; [done |]). exists row'. split; [by apply elem_of_cons; right | done].
    + destruct (IH (rs ++ [{| rel_start := node_id (fst row); rel_end := node_id (snd row);
                             rel_type := rt; rel_props := props |}])%list)
        as (new & -> & Hall).
      eexists (_ :: new). split; [by rewrite <- app_assoc |].
      constructor.
      * do 2 (split; [done |]). exists row. split; [by apply elem_of_cons; left | done].
      * eapply Forall_impl; [exact Hall |]. intros r (? & ? & row' & ? & ?).
        do 2 (split; [done |]). exists row'. split; [by apply elem_of_cons; right | done].
Qed.

Lemma elem_of_list_prod_inv {A B} (l : list A) (k : list B) (x : A * B) :
  x ∈ list_prod l k → fst x ∈ l ∧ snd x ∈ k.
Proof.
  intros Hx. apply list_elem_of_In in Hx. destruct x as [a b].
  apply in_prod_iff in Hx as [Ha Hb]. split; by apply list_elem_of_In.
Qed.

(** The relationship statement leaves the nodes and the constraint alone
    and only appends relationships, each of the asked type, between a
    matched source and a matched target, with the weight it was given. *)

Lemma connect_run_frame (a b rt : string) (w : float) (props : option pydict)
    (g : graph_db) :
  thought_id_unique (snd (connect_run a b rt w props g)) = thought_id_unique g ∧
  next_node_id (snd (connect_run a b rt w props g)) = next_node_id g ∧
  nodes (snd (connect_run a b rt w props g)) = nodes g ∧
  ∃ new,
    rels (snd (connect_run a b rt w props g)) = (rels g ++ new)%list ∧
    Forall (λ r, rel_type r = rt ∧
                 dict_get "weight" (rel_props r) = Some (VFloat w) ∧
                 ∃ s t, s ∈ match_thought a g ∧ t ∈ match_thought b g ∧
                        rel_start r = node_id s ∧ rel_end r = node_id t) new.
Proof.
  unfold connect_run, run_connect.
  destruct (negb (cypher_parses _)).
  { do 3 (split; [done |]). exists []. by rewrite app_nil_r. }
  rewrite connect_params_source, connect_params_target.
  destruct (list_prod (match_thought a g) (match_thought b g)) as [|row rows] eqn:Hrows.
  { do 3 (split; [done |]). exists []. by rewrite app_nil_r. }
  destruct (List.find _ _).
  { do 3 (split; [done |]). exists []. by rewrite app_nil_r. }
  cbn [snd thought_id_unique next_node_id nodes rels].
  do 3 (split; [done |]).
  destruct (pattern_props_weight a b w (weighted w props)) as [rest Hpp].
  destruct (fold_merge_rel_app rt
              (pattern_props (resolve_pattern (connect_pattern (weighted w props))
                                (connect_params a b w (weighted w props))))
              (row :: rows) (rels g)) as (new & Hnew & Hall).
  exists new. split; [exact Hnew |].
  eapply Forall_impl; [exact Hall |]. intros r (Hty & Hprops & row' & Hin & Hs & Ht).
  split; [done |]. split.
  - rewrite Hprops, Hpp. reflexivity.
  - rewrite <- Hrows in Hin. apply elem_of_list_prod_inv in Hin as [Hin1 Hin2].
    eauto 10.
Qed.

Lemma connect_thoughts_eq (a b : string) (rt : option string) (w : option float)
    (props : option pydict) (st : state) :
  snd (connect_thoughts a b rt w props st) =
  if ready st
  then {| self := self st;
          graph := snd (connect_run a b (default "RELATED_TO" rt) (default 0.5%float w)
                          props (graph st));
          uuid_draws := uuid_draws st |}
  else st.
Proof.
  destruct (ready st) eqn:Hr.
  - by rewrite connect_thoughts_ready.
  - by rewrite connect_thoughts_not_ready.
Qed.

Lemma add_thought_frame (content : string) (thought_id : option string)
    (metadata : option pydict) (now : Z) (st : state) :
  self (snd (add_thought content thought_id metadata now st)) = self st ∧
  rels (graph (snd (add_thought content thought_id metadata now st))) = rels (graph st) ∧
  thought_id_unique (graph (snd (add_thought content thought_id metadata now st))) =
    thought_id_unique (graph st) ∧
  (graph (snd (add_thought content thought_id metadata now st)) = graph st ∨
   ∃ X s,
     fst (add_thought content thought_id metadata now st) = Return X ∧
     json_dumps (VDict (or_empty_dict metadata)) = Return s ∧
     nodes (graph (snd (add_thought content thought_id metadata now st))) =
       (nodes (graph st) ++
          [{| node_id := next_node_id (graph st);
              node_props := thought_props X content now s |}])%list).
Proof.
  destruct (ready st) eqn:Hr.
  2:{ rewrite add_thought_not_ready by done. simpl. eauto. }
  unfold add_thought, try_except, bind.
  rewrite ensure_initialized_ready by done.
  destruct (negb (truthy_str (default "Thought" thought_id))).
  - unfold uuid4, lift_outcome. cbn [fst snd].
    destruct (json_dumps _) as [s|e]; [| simpl; eauto].
    unfold session_write, session_run. cbn [graph self uuid_draws].
    destruct (run_create_thought _ content s now (graph st)) as [g|e] eqn:Hrun;
      [| simpl; eauto].
    apply run_create_thought_Return in Hrun as (_ & Hu & Hrels & Hnodes).
    simpl. do 3 (split; [done |]). right. eauto.
  - unfold ret, lift_outcome.
    destruct (json_dumps _) as [s|e]; [| simpl; eauto].
    unfold session_write, session_run. cbn [graph self uuid_draws].
    destruct (run_create_thought _ content s now (graph st)) as [g|e] eqn:Hrun;
      [| simpl; eauto].
    apply run_create_thought_Return in Hrun as (_ & Hu & Hrels & Hnodes).
    simpl. do 3 (split; [done |]). right. eauto.
Qed.

Lemma initialize_connection_frame (st : state) :
  nodes (graph (snd (initialize_connection st))) = nodes (graph st) ∧
  rels (graph (snd (initialize_connection st))) = rels (graph st) ∧
  next_node_id (graph (snd (initialize_connection st))) = next_node_id (graph st) ∧
  uuid_draws (snd (initialize_connection st)) = uuid_draws st.
Proof.
  destruct st as [[dr i u n p] g k].
  unfold initialize_connection, new_driver, verify_connectivity, session_write,
    session_run, set_driver, set_is_initialized, run_create_constraint, try_except.
  unfold bind, get, ret, raise. simpl.
  destruct (driver_accepts u n p); simpl; [|done].
  destruct (server_reachable u n p); simpl; [|done].
  destruct (thought_id_unique g) eqn:Hc; simpl; [done |].
  destruct (distinct (thought_ids g)); simpl; done.
Qed.

End Neo4jFrame.

(** ** Merging a relationship twice *)

Section Neo4jMerge.
Context `{PyRuntime} `{Neo4j.Neo4jServer}.
Import Neo4j.

Lemma dict_get_elem (k : string) (v : value) (d : pydict) :
  NoDup (dict_keys d) → (k, v) ∈ d → dict_get k d = Some v.
Proof.
  induction d as [|[k0 v0] d IH]; intros Hnd Hin.
  - by apply elem_of_nil in Hin.
  - cbn [dict_keys map fst] in Hnd. apply NoDup_cons in Hnd as [Hk0 Hnd].
    apply elem_of_cons in Hin as [Heq | Hin]; simpl.
    + injection Heq as -> ->. by rewrite String.eqb_refl.
    + destruct (String.eqb_spec k0 k) as [-> | Hne]; [| by apply IH].
      exfalso. apply Hk0. unfold dict_keys. apply list_elem_of_In, in_map_iff.
      exists (k, v). split; [done | by apply list_elem_of_In].
Qed.

Lemma pattern_props_keys (l : list (string * option value)) :
  dict_keys (pattern_props l) `sublist_of` map fst l.
Proof.
  unfold pattern_props, dict_keys.
  induction l as [|[k [v|]] l IH]; simpl; by constructor.
Qed.

Lemma connect_pattern_keys (a b : string) (w : float) (ps : pydict) :
  map fst (resolve_pattern (connect_pattern ps) (connect_params a b w ps)) =
  "weight" :: List.filter (λ key, negb (String.eqb key "weight")) (dict_keys ps).
Proof.
  unfold resolve_pattern, connect_pattern. cbn [map fst]. f_equal.
  rewrite !map_map. simpl. apply map_id.
Qed.

Lemma pattern_props_nodup (a b : string) (w : float) (props : option pydict) :
  NoDup (dict_keys (default [] props)) →
  NoDup (dict_keys (pattern_props
                      (resolve_pattern (connect_pattern (weighted w props))
                         (connect_params a b w (weighted w props))))).
Proof.
  intros Hnd. eapply sublist_NoDup; [| apply pattern_props_keys].
  rewrite connect_pattern_keys.
  destruct (dict_set_keys "weight" (VFloat w) (default [] props) Hnd) as [Hnd' _].
  fold (weighted w props) in Hnd'.
  apply NoDup_cons. split.
  - intros Hin. apply list_elem_of_In, filter_In in Hin as [_ Hne].
    by rewrite String.eqb_refl in Hne.
  - apply NoDup_ListNoDup, List.NoDup_filter. by apply NoDup_ListNoDup.
Qed.

Lemma pattern_props_elem (a b : string) (w : float) (props : option pydict)
    (k : string) (v : value) :
  NoDup (dict_keys (default [] props)) →
  (k, v) ∈ pattern_props (resolve_pattern (connect_pattern (weighted w props))
                            (connect_params a b w (weighted w props))) →
  (k = "weight" ∧ v = VFloat w) ∨ (k ≠ "weight" ∧ (k, v) ∈ default [] props).
Proof.
  intros Hnd Hin.
  destruct (dict_set_keys "weight" (VFloat w) (default [] props) Hnd) as [Hnd' _].
  fold (weighted w props) in Hnd'.
  unfold pattern_props in Hin. apply list_elem_of_omap in Hin as ([k' ov] & Hin & Hf).
  simpl in Hf. destruct ov as [v'|]; [|discriminate]. injection Hf as -> ->.
  unfold resolve_pattern, connect_pattern in Hin. cbn [map fst snd] in Hin.
  rewrite connect_params_weight in Hin.
  apply elem_of_cons in Hin as [Heq | Hin].
  - left. by injection Heq as -> ->.
  - right. apply list_elem_of_In, in_map_iff in Hin as [[k' p] [Heq Hin]].
    apply in_map_iff in Hin as [key [Hkp Hin]].
    apply filter_In in Hin as [Hin Hne].
    injection Hkp as Hk' Hp'. subst k' p. simpl in Heq. injection Heq as Hk Hov. subst key.
    destruct (String.eqb_spec k "weight") as [|Hne']; [discriminate |].
    split; [done |].
    unfold dict_keys in Hin. apply in_map_iff in Hin as [[k0 v0] [Hk Hin]].
    simpl in Hk. subst k0. apply list_elem_of_In in Hin.
    rewrite (connect_params_prop k v0) in Hov by done.
    injection Hov as <-. by apply dict_set_elem in Hin.
Qed.

(** Each property of the pattern is held equal to itself. *)

Lemma pattern_props_self (a b : string) (w : float) (props : option pydict) :
  NoDup (dict_keys (default [] props)) →
  self_equal_request w props →
  forallb (λ kv, match dict_get (fst kv)
                         (pattern_props
                            (resolve_pattern (connect_pattern (weighted w props))
                               (connect_params a b w (weighted w props)))) with
                 | Some v => prop_eqb v (snd kv)
                 | None => false
                 end)
    (pattern_props (resolve_pattern (connect_pattern (weighted w props))
                      (connect_params a b w (weighted w props)))) = true.
Proof.
  intros Hnd [Hw Hps]. apply forallb_forall. intros [k v] Hin.
  apply list_elem_of_In in Hin. cbn [fst snd].
  rewrite (dict_get_elem k v) by (by apply pattern_props_nodup || done).
  apply pattern_props_elem in Hin as [[-> ->] | [Hne Hin]]; [done | | done].
  by apply (Hps k).
Qed.

Lemma existsb_fold_merge (f : rel → bool) (rt : string) (props : pydict)
    (rows : list (node * node)) (rs : list rel) :
  existsb f rs = true → existsb f (fold_left (merge_rel rt props) rows rs) = true.
Proof.
  intros Hf. apply existsb_exists in Hf as (r & Hin & Hr).
  apply existsb_exists. exists r. split; [|done].
  apply list_elem_of_In. apply fold_merge_rel_incl. by apply list_elem_of_In.
Qed.

Lemma fold_merge_matched (rt : string) (props : pydict) (rows : list (node * node))
    (rs : list rel) (row : node * node) :
  forallb (λ kv, match dict_get (fst kv) props with
                 | Some v => prop_eqb v (snd kv)
                 | None => false
                 end) props = true →
  row ∈ rows →
  existsb (rel_matches (node_id (fst row)) (node_id (snd row)) rt props)
    (fold_left (merge_rel rt props) rows rs) = true.
Proof.
  intros Hself. revert rs. induction rows as [|row0 rows IH]; intros rs Hin.
  - by apply elem_of_nil in Hin.
  - cbn [fold_left]. apply elem_of_cons in Hin as [-> | Hin]; [| by apply IH].
    apply existsb_fold_merge. unfold merge_rel.
    destruct (existsb _ rs) eqn:Hex; [done |].
    rewrite existsb_app. apply orb_true_iff. right. cbn [existsb]. rewrite orb_false_r.
    unfold rel_matches. cbn [rel_start rel_end rel_type rel_props].
    by rewrite !Nat.eqb_refl, String.eqb_refl, Hself.
Qed.

Lemma fold_merge_idem (rt : string) (props : pydict) (rows : list (node * node))
    (rs : list rel) :
  (∀ row, row ∈ rows →
          existsb (rel_matches (node_id (fst row)) (node_id (snd row)) rt props) rs = true) →
  fold_left (merge_rel rt props) rows rs = rs.
Proof.
  induction rows as [|row rows IH]; intros Hall; [done |].
  cbn [fold_left]. unfold merge_rel at 2.
  rewrite (Hall row) by (apply elem_of_cons; by left).
  apply IH. intros row' Hin. apply Hall. apply elem_of_cons. by right.
Qed.

Lemma connect_run_rows (a b rt : string) (w : float) (props : option pydict)
    (g : graph_db) (s t : node) (ss ts : list node) :
  cypher_parses (connect_query rt (connect_props (weighted w props))) = true →
  match_thought a g = s :: ss →
  match_thought b g = t :: ts →
  storable_request w props →
  connect_run a b rt w props g =
    (Return (length (list_prod (s :: ss) (t :: ts))),
     {| thought_id_unique := thought_id_unique g; next_node_id := next_node_id g;
        nodes := nodes g;
        rels := fold_left
                  (merge_rel rt
                     (pattern_props
                        (resolve_pattern (connect_pattern (weighted w props))
                           (connect_params a b w (weighted w props)))))
                  (list_prod (s :: ss) (t :: ts)) (rels g) |}).
Proof.
  intros Hp Ha Hb Hst.
  unfold connect_run, run_connect. rewrite Hp. simpl negb. cbv iota.
  rewrite connect_params_source, connect_params_target, Ha, Hb.
  rewrite (resolved_storable a b w props Hst).
  cbn [list_prod map app]. reflexivity.
Qed.

(** The relationship statement run a second time finds what the first
    run merged and adds nothing. *)

Lemma connect_run_again (a b rt : string) (w : float) (props : option pydict)
    (g : graph_db) (s t : node) (ss ts : list node) :
  cypher_parses (connect_query rt (connect_props (weighted w props))) = true →
  match_thought a g = s :: ss →
  match_thought b g = t :: ts →
  storable_request w props →
  self_equal_request w props →
  ∃ n g',
    connect_run a b rt w props g = (Return (S n), g') ∧
    connect_run a b rt w props g' = (Return (S n), g').
Proof.
  intros Hp Ha Hb Hst Hself. pose proof Hst as (Hnd & _).
  rewrite (connect_run_rows a b rt w props g s t ss ts) by done.
  eexists _, _. split; [cbn [list_prod map app length]; reflexivity |].
  rewrite (connect_run_rows a b rt w props _ s t ss ts) by done.
  cbn [list_prod map app length]. f_equal. f_equal.
  cbn [rels thought_id_unique next_node_id nodes].
  apply fold_merge_idem. intros row Hin.
  apply fold_merge_matched; [by apply pattern_props_self | done].
Qed.

End Neo4jMerge.

(** ** Lookups, the constructor and the bounds of the search *)

Section Neo4jLookups.
Context `{PyRuntime} `{Neo4j.Neo4jServer}.
Import Neo4j.

Lemma get_related_thoughts_ready (thought_id : string) (relationship_type : option string)
    (min_weight : option float) (st : state) :
  ready st = true →
  get_related_thoughts thought_id relationship_type min_weight st =
    let rel_filter :=
      if truthy_opt_str relationship_type
      then ":`" +:+ default "" relationship_type +:+ "`" else "" in
    let weight_filter := "r.weight >= " +:+ str_float (default 0%float min_weight) in
    (Return
       match run_related (related_query rel_filter weight_filter) thought_id
               (if truthy_opt_str relationship_type then relationship_type else None)
               (default 0%float min_weight) (graph st) with
       | Raise e => "Error: Failed to get related thoughts: " +:+ str_exn e
       | Return result =>
           match map_outcome
                   (λ record,
                      match parse_metadata_json (node_props (fst record)) with
                      | Raise e => Raise e
                      | Return thought_data =>
                          Return (VDict [("thought", VDict thought_data);
                                         ("relationship",
                                          VDict [("type", VStr (rel_type (snd record)));
                                                 ("weight", default VNone
                                                    (dict_get "weight" (rel_props (snd record))));
                                                 ("properties",
                                                  VDict (rel_props (snd record)))])])
                      end) result with
           | Raise e => "Error: Failed to get related thoughts: " +:+ str_exn e
           | Return related => json_dumps_default_str (VList related)
           end
       end, st).
Proof.
  intros Hr. unfold get_related_thoughts, try_except, bind.
  rewrite ensure_initialized_ready by done.
  unfold session_read, session_run. destruct st as [sf g d]. cbn [graph self uuid_draws].
  cbv zeta.
  destruct (run_related _ _ _ _ g) as [result|e]; [| reflexivity].
  unfold lift_outcome. destruct (map_outcome _ result); reflexivity.
Qed.

Lemma add_thought_empty_id (content : string) (metadata : option pydict) (now : Z)
    (st : state) :
  ready st = true →
  uuid_draws (snd (add_thought content (Some "") metadata now st)) = S (uuid_draws st) ∧
  ∀ s,
    json_dumps (VDict (or_empty_dict metadata)) = Return s →
    thought_id_unique (graph st) &&
      existsb (node_has_id (uuid4_at (uuid_draws st))) (nodes (graph st)) = false →
    ∃ st',
      add_thought content (Some "") metadata now st =
        (Return (uuid4_at (uuid_draws st)), st') ∧
      nodes (graph st') =
        (nodes (graph st) ++
           [{| node_id := next_node_id (graph st);
               node_props := thought_props (uuid4_at (uuid_draws st)) content now s |}])%list ∧
      rels (graph st') = rels (graph st).
Proof.
  intros Hr. unfold add_thought, try_except, bind.
  rewrite ensure_initialized_ready by done.
  change (default "Thought" (Some "")) with "".
  change (negb (truthy_str "")) with true. cbv iota. unfold uuid4, lift_outcome.
  destruct (json_dumps _) as [s|e] eqn:Hd.
  - unfold session_write, session_run. cbn [graph self uuid_draws].
    split.
    + destruct (run_create_thought _ _ _ _ _); reflexivity.
    + intros s' [= <-] Hfresh. unfold run_create_thought. rewrite Hfresh.
      eexists. split; [reflexivity |]. done.
  - split; [reflexivity | intros s' [=]].
Qed.

(** The bounds of [search_thoughts]. *)










End Neo4jLookups.

(** ** Sorting and counting *)

Section Sorting.
Context {A : Type} (key : A → option Z).

Lemma desc_before_trans (x y z : A) :
  desc_before key x y → desc_before key y z → desc_before key x z.
Proof.
  unfold desc_before. destruct (key x), (key y), (key z); try done. lia.
Qed.

Lemma insert_desc_perm (x : A) (l : list A) : Neo4j.insert_desc key x l ≡ₚ x :: l.
Proof.
  induction l as [|y l IH]; [done |]. simpl.
  destruct (match key x with None => true | Some a => _ end); [done |].
  rewrite IH. apply Permutation_swap.
Qed.

Lemma sort_desc_perm (l : list A) : Neo4j.sort_desc key l ≡ₚ l.
Proof.
  unfold Neo4j.sort_desc. induction l as [|x l IH]; [done |]. simpl.
  by rewrite insert_desc_perm, IH.
Qed.

Lemma insert_desc_sorted (x : A) (l : list A) :
  StronglySorted (desc_before key) l →
  StronglySorted (desc_before key) (Neo4j.insert_desc key x l).
Proof.
  induction 1 as [|y l Hl IH Hy]; simpl.
  - constructor; [constructor | constructor].
  - destruct (match key x with None => true | Some a => _ end) eqn:Hb.
    + assert (desc_before key x y) as Hxy.
      { unfold desc_before. destruct (key x), (key y); try done.
        apply Z.ltb_lt in Hb. lia. }
      constructor; [by constructor |].
      constructor; [done |].
      eapply Forall_impl; [exact Hy |]. intros z Hz. by eapply desc_before_trans.
    + assert (desc_before key y x) as Hyx.
      { unfold desc_before. destruct (key x), (key y); try done.
        apply Z.ltb_ge in Hb. lia. }
      constructor; [done |].
      rewrite insert_desc_perm. by constructor.
Qed.

Lemma sort_desc_sorted (l : list A) : StronglySorted (desc_before key) (Neo4j.sort_desc key l).
Proof.
  unfold Neo4j.sort_desc. induction l as [|x l IH]; simpl; [constructor |].
  by apply insert_desc_sorted.
Qed.

End Sorting.

Section Neo4jListing.
Context `{PyRuntime} `{Neo4j.Neo4jServer}.
Import Neo4j.

Lemma get_all_node_ids_ready (st : state) :
  ready st = true →
  get_all_node_ids st =
    (Return match json_dumps (VDict [("node_ids", VList (run_all_ids (graph st)))]) with
            | Return s => s
            | Raise e => "Error: Failed to retrieve thought node IDs: " +:+ str_exn e
            end, st).
Proof.
  intros Hr. unfold get_all_node_ids, try_except, bind.
  rewrite ensure_initialized_ready by done.
  unfold session_read, session_run, lift_outcome. destruct st as [sf g d].
  cbn [graph self uuid_draws]. by destruct (json_dumps _).
Qed.

Lemma count_type_keys (ty : string) (h : list (string * Z)) :
  NoDup (map fst h) → NoDup (map fst (count_type ty h)).
Proof.
  induction h as [|[ty' c] h IH]; simpl; intros Hnd.
  - apply NoDup_singleton.
  - apply NoDup_cons in Hnd as [Hni Hnd].
    destruct (String.eqb_spec ty' ty) as [-> | Hne]; simpl.
    + by apply NoDup_cons.
    + apply NoDup_cons. split; [| by apply IH].
      intros Hin. apply Hni. clear IH Hnd Hni.
      induction h as [|[ty'' c''] h IH]; simpl in *.
      * apply list_elem_of_singleton in Hin. congruence.
      * destruct (String.eqb_spec ty'' ty); simpl in *; [done |].
        apply elem_of_cons in Hin as [-> | Hin]; [by left | right; by apply IH].
Qed.

Lemma count_type_positive (ty : string) (h : list (string * Z)) :
  Forall (λ tc, (0 < snd tc)%Z) h → Forall (λ tc, (0 < snd tc)%Z) (count_type ty h).
Proof.
  induction 1 as [|[ty' c] h Hc Hh IH]; simpl.
  - by repeat constructor.
  - destruct (String.eqb ty' ty); constructor; simpl in *; try done. lia.
Qed.

Lemma tally_count_type (ty ty' : string) (h : list (string * Z)) :
  tally ty' (count_type ty h) =
  (tally ty' h + if String.eqb ty ty' then 1 else 0)%Z.
Proof.
  unfold tally. induction h as [|[ty0 c] h IH]; simpl.
  - rewrite String.eqb_sym. by destruct (String.eqb ty' ty).
  - destruct (String.eqb_spec ty0 ty) as [-> | Hne]; simpl.
    + destruct (String.eqb ty ty'); simpl; lia.
    + destruct (String.eqb_spec ty0 ty') as [-> | Hne']; simpl; [| exact IH].
      destruct (String.eqb_spec ty ty'); [congruence | lia].
Qed.

Lemma tally_sum (ty : string) (h : list (string * Z)) :
  foldr Z.add 0%Z (map snd (count_type ty h)) = (foldr Z.add 0%Z (map snd h) + 1)%Z.
Proof.
  induction h as [|[ty0 c] h IH]; simpl; [done |].
  destruct (String.eqb ty0 ty); simpl; lia.
Qed.

Lemma tally_elem (ty : string) (c : Z) (h : list (string * Z)) :
  NoDup (map fst h) → Forall (λ tc, (0 < snd tc)%Z) h →
  (ty, c) ∈ h ↔ tally ty h = c ∧ (0 < c)%Z.
Proof.
  unfold tally. induction h as [|[ty0 c0] h IH]; simpl; intros Hnd Hpos.
  - split; [intros Hin; by apply elem_of_nil in Hin | lia].
  - apply NoDup_cons in Hnd as [Hni Hnd]. apply Forall_cons in Hpos as [Hc0 Hpos].
    simpl in Hc0. rewrite elem_of_cons.
    destruct (String.eqb_spec ty0 ty) as [-> | Hne]; simpl.
    + split.
      * intros [[= ->] | Hin]; [done |]. exfalso. apply Hni.
        apply list_elem_of_In, in_map_iff. exists (ty, c).
        split; [done | by apply list_elem_of_In].
      * intros [-> _]. by left.
    + rewrite <- (IH Hnd Hpos). split; [intros [[= ? ?] | Hin]; [congruence | done] | by right].
Qed.

(** The histogram a list of relationships folds to. *)

Lemma fold_count_type (rs : list rel) (h : list (string * Z)) :
  NoDup (map fst h) → Forall (λ tc, (0 < snd tc)%Z) h →
  NoDup (map fst (fold_left (λ h r, count_type (rel_type r) h) rs h)) ∧
  Forall (λ tc, (0 < snd tc)%Z) (fold_left (λ h r, count_type (rel_type r) h) rs h) ∧
  (∀ ty, tally ty (fold_left (λ h r, count_type (rel_type r) h) rs h) =
         (tally ty h + count_of ty rs)%Z) ∧
  foldr Z.add 0%Z (map snd (fold_left (λ h r, count_type (rel_type r) h) rs h)) =
    (foldr Z.add 0%Z (map snd h) + Z.of_nat (length rs))%Z.
Proof.
  revert h. induction rs as [|r rs IH]; intros h Hnd Hpos; cbn [fold_left].
  - repeat split; try done; [intros ty; unfold count_of; simpl; lia | simpl; lia].
  - destruct (IH (count_type (rel_type r) h)) as (Hnd' & Hpos' & Htally & Hsum);
      [by apply count_type_keys | by apply count_type_positive |].
    repeat split; try done.
    + intros ty. rewrite Htally, tally_count_type. unfold count_of. simpl.
      destruct (String.eqb (rel_type r) ty); simpl length; lia.
    + rewrite Hsum, tally_sum. simpl length. lia.
Qed.

Lemma foldr_add_perm (l k : list Z) :
  l ≡ₚ k → foldr Z.add 0%Z l = foldr Z.add 0%Z k.
Proof. induction 1; simpl; lia. Qed.

Lemma StronglySorted_impl {A} (R R' : A → A → Prop) (l : list A) :
  (∀ x y, R x y → R' x y) → StronglySorted R l → StronglySorted R' l.
Proof.
  intros HR. induction 1 as [|x l Hl IH Hx]; constructor; [done |].
  eapply Forall_impl; [exact Hx | auto].
Qed.

Lemma get_graph_summary_ready (st : state) :
  ready st = true →
  get_graph_summary st =
    (Return (json_dumps_default_str
               (VDict [("thought_count", VInt (Z.of_nat (length (nodes (graph st)))));
                       ("relationship_count", VInt (Z.of_nat (length (rels (graph st)))));
                       ("relationship_types", VList (run_rel_types (graph st)))])), st).
Proof.
  intros Hr. unfold get_graph_summary, try_except, bind.
  rewrite ensure_initialized_ready by done.
  destruct st as [sf g d]. reflexivity.
Qed.

End Neo4jListing.

(** ** The knowledge base tool: ready tools, arguments, life cycle *)

Section LightRAGReady.
Context `{PyRuntime} {S : Type} `{LightRAG S}.
Import LightRAGTool.

Lemma keeps_ready_call {A} (method : S → outcome A * S) : keeps_ready (call method).
Proof.
  intros t Hr. apply rag_ready_Obj in Hr as (s & Hs & Hi).
  rewrite (call_Obj _ _ _ Hs). simpl. by rewrite rag_ready_with_instance.
Qed.

Lemma keeps_ready_ret {A} (a : A) : keeps_ready (ret a : M (LightRAGTool S) A).
Proof. by intros t Hr. Qed.

Lemma keeps_ready_lift {A} (o : outcome A) : keeps_ready (lift_outcome o : M (LightRAGTool S) A).
Proof. by intros t Hr. Qed.

Lemma keeps_ready_bind {A B} (m : M (LightRAGTool S) A) (k : A → M (LightRAGTool S) B) :
  keeps_ready m → (∀ a, keeps_ready (k a)) → keeps_ready (bind m k).
Proof.
  intros Hm Hk t Hr. unfold bind. specialize (Hm t Hr).
  destruct (m t) as [[a|e] t']; simpl in *; [by apply Hk | done].
Qed.

Lemma stays_ready_ret {A} (a : A) : stays_ready (ret a : M (LightRAGTool S) A).
Proof. intros t Hr. by exists a, t. Qed.

Lemma stays_ready_try {A} (m : M (LightRAGTool S) A) (h : exn → M (LightRAGTool S) A) :
  keeps_ready m → (∀ e, stays_ready (h e)) → stays_ready (try_except m h).
Proof.
  intros Hm Hh t Hr. unfold try_except. specialize (Hm t Hr).
  destruct (m t) as [[a|e] t']; simpl in *; [by exists a, t' | by apply Hh].
Qed.

Lemma stays_ready_try_value {A} (m : M (LightRAGTool S) A)
    (h1 h2 : exn → M (LightRAGTool S) A) :
  keeps_ready m → (∀ e, stays_ready (h1 e)) → (∀ e, stays_ready (h2 e)) →
  stays_ready (try_except_value m h1 h2).
Proof.
  intros Hm H1 H2. apply stays_ready_try; [done |]. intros e. by destruct (is_ValueError e).
Qed.

Lemma stays_ready_guard {A} (k : M (LightRAGTool S) A) :
  stays_ready k → stays_ready (bind _ensure_rag_ready (λ _, k)).
Proof.
  intros Hk t Hr. unfold bind. rewrite ensure_rag_ready_ok by done. by apply Hk.
Qed.

Lemma stays_ready_if {A} (b : bool) (m k : M (LightRAGTool S) A) :
  stays_ready m → stays_ready k → stays_ready (if b then m else k).
Proof. by destruct b. Qed.

Ltac ready_step :=
  first
    [ apply stays_ready_guard
    | apply stays_ready_if
    | apply stays_ready_ret
    | apply stays_ready_try_value
    | apply stays_ready_try
    | apply keeps_ready_bind
    | apply keeps_ready_call
    | apply keeps_ready_ret
    | apply keeps_ready_lift
    | intros ? ].

Lemma ready_operations (t : LightRAGTool S) :
  rag_ready t = true →
  (∀ text doc path, ∃ r t', store_text text doc path t = (Return r, t') ∧ rag_ready t' = true) ∧
  (∀ q mode k, ∃ r t', _retrieve q mode k t = (Return r, t') ∧ rag_ready t' = true) ∧
  (∀ n d ty src, ∃ r t', create_entity n d ty src t = (Return r, t') ∧ rag_ready t' = true) ∧
  (∀ n u r0, ∃ r t', edit_entity n u r0 t = (Return r, t') ∧ rag_ready t' = true) ∧
  (∀ n, ∃ r t', delete_entity n t = (Return r, t') ∧ rag_ready t' = true) ∧
  (∀ a b d k w src,
      ∃ r t', create_relation a b d k w src t = (Return r, t') ∧ rag_ready t' = true) ∧
  (∀ a b u, ∃ r t', edit_relation a b u t = (Return r, t') ∧ rag_ready t' = true) ∧
  (∀ a b, ∃ r t', delete_relation a b t = (Return r, t') ∧ rag_ready t' = true) ∧
  (∀ srcs tgt o, ∃ r t', merge_entities srcs tgt o t = (Return r, t') ∧ rag_ready t' = true) ∧
  (∀ n, ∃ r t', get_entity_details n t = (Return r, t') ∧ rag_ready t' = true) ∧
  (∀ a b, ∃ r t', get_relation_details a b t = (Return r, t') ∧ rag_ready t' = true) ∧
  (∃ r t', get_doc_processing_status t = (Return r, t') ∧ rag_ready t' = true) ∧
  (∀ d, ∃ r t', delete_document d t = (Return r, t') ∧ rag_ready t' = true) ∧
  (∀ modes, ∃ r t', clear_llm_cache modes t = (Return r, t') ∧ rag_ready t' = true).
Proof.
  intros Hr.
  repeat split; intros;
    match goal with
    | |- ∃ r t', ?m t = _ ∧ _ => assert (stays_ready m) as Hm; [| exact (Hm t Hr)]
    end.
  all: unfold store_text, _retrieve, create_entity, edit_entity, delete_entity,
         create_relation, edit_relation, delete_relation, merge_entities,
         get_entity_details, get_relation_details, get_doc_processing_status,
         delete_document, clear_llm_cache.
  all: cbv zeta.
  all: repeat ready_step.
  all: try (match goal with |- stays_ready (match ?x with _ => _ end) => destruct x end;
            repeat ready_step).
  all: try (match goal with |- keeps_ready (match ?x with _ => _ end) => destruct x end;
            repeat ready_step).
  all: repeat match goal with
             | |- context [match ?x with _ => _ end] => destruct x
             | |- context [if ?x then _ else _] => destruct x
             end; done.
Qed.

Lemma guarded_ok {A} (k : M (LightRAGTool S) A) (t : LightRAGTool S) :
  rag_ready t = true → bind _ensure_rag_ready (λ _, k) t = k t.
Proof. intros Hr. unfold bind. by rewrite ensure_rag_ready_ok. Qed.

Lemma initialize_outcome (t : LightRAGTool S) (r : string) (t' : LightRAGTool S) :
  is_initialized t = false →
  initialize t = (Return r, t') →
  (rag_ready t' = true ↔ r = "Initialization successful.").
Proof.
  intros Hi. unfold initialize, bind, get, rag_instance_truthy. rewrite Hi.
  destruct (rag_instance t) as [| |s] eqn:Hs; [discriminate | |].
  - simpl. intros [= <- <-]. unfold rag_ready. rewrite Hs. split; discriminate.
  - simpl. unfold try_except, bind. rewrite (call_Obj _ _ _ Hs).
    destruct (initialize_storages s) as [[[]|e] s1]; simpl.
    + rewrite (call_Obj _ (with_instance s1 t) s1) by done.
      destruct (initialize_pipeline_status s1) as [[[]|e] s2]; simpl.
      * intros [= <- <-]. done.
      * intros [= <- <-]. split; discriminate.
    + intros [= <- <-]. split; discriminate.
Qed.

Lemma initialize_constructed (key : string) (s s1 s2 : S) (top_k : Z) :
  key ≠ "" →
  initialize_storages s = (Return tt, s1) →
  initialize_pipeline_status s1 = (Return tt, s2) →
  initialize (__init__ true (Some key) (Return s) top_k) =
    (Return "Initialization successful.",
     {| rag_instance := Obj s2; is_initialized := true; default_top_k := top_k |}).
Proof.
  intros Hk H1 H2. unfold __init__. apply truthy_str_true in Hk. cbn [truthy_opt_str negb].
  rewrite Hk. cbn [negb]. unfold initialize, bind, get, rag_instance_truthy. simpl.
  unfold try_except, bind, call. simpl. rewrite H1. simpl. rewrite H2. reflexivity.
Qed.

Lemma finalize_not_ready (t : LightRAGTool S) : rag_ready (snd (finalize t)) = false.
Proof.
  unfold finalize, bind, get, rag_instance_truthy, rag_ready.
  destruct (is_initialized t) eqn:Hi; simpl.
  - destruct (rag_instance t) as [| |s] eqn:Hs; simpl; try by rewrite Hs.
    unfold try_except, bind. rewrite (call_Obj _ _ _ Hs).
    by destruct (finalize_storages s) as [[[]|e] s1].
  - rewrite Hi. by destruct (rag_instance t).
Qed.

End LightRAGReady.

Section LastSegment.
Import LightRAGTool.

Lemma last_segment_from_app (acc a b : string) :
  last_segment_from acc (a +:+ "." +:+ b) = last_segment_from "" b.
Proof.
  revert acc. induction a as [|c a IH]; intros acc.
  - reflexivity.
  - change (String c a +:+ "." +:+ b) with (String c (a +:+ "." +:+ b)).
    cbn [last_segment_from]. destruct (Ascii.eqb c "."%char); apply IH.
Qed.

Lemma append_nil_r (s : string) : s +:+ "" = s.
Proof.
  induction s as [|c s IH]; [reflexivity |].
  change (String c s +:+ "") with (String c (s +:+ "")). by f_equal.
Qed.

Lemma append_assoc (a b c : string) : (a +:+ b) +:+ c = a +:+ (b +:+ c).
Proof.
  induction a as [|x a IH]; [reflexivity |].
  change (String x ((a +:+ b) +:+ c) = String x (a +:+ (b +:+ c))). by f_equal.
Qed.

Lemma last_segment_from_plain (acc s : string) :
  contains "." s = false → last_segment_from acc s = acc +:+ s.
Proof.
  revert acc. induction s as [|c s IH]; intros acc Hs.
  - simpl. by rewrite append_nil_r.
  - assert (contains "." (String c s) =
            String.prefix "." (String c s) || contains "." s) as Hc by reflexivity.
    rewrite Hc in Hs. apply orb_false_iff in Hs as [Hp Hs].
    cbn [last_segment_from]. destruct (Ascii.eqb_spec c "."%char) as [-> | Hne].
    + exfalso.
      assert (String.prefix "." (String "." s) = true) as Ht
        by (apply prefix_spec; by exists s).
      congruence.
    + rewrite IH by done. by rewrite append_assoc.
Qed.

Lemma last_segment_dotted (prefix name : string) :
  contains "." name = false → last_segment (prefix +:+ "." +:+ name) = name.
Proof.
  intros Hn. unfold last_segment. rewrite last_segment_from_app.
  by rewrite last_segment_from_plain.
Qed.

Lemma dict_set_fresh (k : string) (v : value) (d : pydict) :
  k ∉ dict_keys d → dict_set k v d = (d ++ [(k, v)])%list.
Proof.
  induction d as [|[k0 v0] d IH]; intros Hk; [done |]. simpl.
  destruct (String.eqb_spec k0 k) as [-> | Hne].
  - exfalso. apply Hk. by left.
  - f_equal. apply IH. intros Hin. apply Hk. by right.
Qed.

Lemma fold_dict_set_fresh {A} (f : A → string) (g : A → value) (l : list A) (d : pydict) :
  NoDup (dict_keys d ++ map f l) →
  fold_left (λ d x, dict_set (f x) (g x) d) l d = (d ++ map (λ x, (f x, g x)) l)%list.
Proof.
  revert d. induction l as [|x l IH]; intros d Hnd; simpl.
  - by rewrite app_nil_r.
  - apply NoDup_app in Hnd as (Hd & Hdis & Hl). simpl in Hl.
    apply NoDup_cons in Hl as [Hx Hl].
    rewrite dict_set_fresh by (intros Hin; apply (Hdis _ Hin); by left).
    rewrite IH.
    + by rewrite <- app_assoc.
    + unfold dict_keys. rewrite map_app. simpl. rewrite <- app_assoc. simpl.
      apply NoDup_app. split; [done |]. split; [| by apply NoDup_cons].
      intros y Hy Hin. apply (Hdis y Hy). done.
Qed.

End LastSegment.

(** ** The Pinecone index: connection, reading back, batches *)

Section PineconeIndex.
Context `{PyRuntime} `{Pinecone.PineconeService} `{Pinecone.PineconeIndexApi}.
Import Pinecone.

Lemma ensure_index_not_connected (st : state) :
  _index (self st) = None →
  ∃ msg st',
    _ensure_index_connected st = (Raise (ValueError msg), st') ∧
    index_store st' = index_store st ∧ uuid_draws st' = uuid_draws st ∧
    _index (self st') = None ∧
    (msg = "Not connected to Pinecone. Please check your API key." ∨
     msg = "Not connected to a Pinecone index. Please connect to an index first.").
Proof.
  intros Hi. destruct st as [[pc ix key nm dim ns] store d]. simpl in Hi. subst ix.
  unfold _ensure_index_connected, _ensure_connected, _connect_to_pinecone, set_pc,
    try_except.
  unfold bind, get, ret, raise. simpl.
  destruct pc as [c|]; simpl.
  - eexists _, _. split; [reflexivity |]. simpl. eauto.
  - destruct (client_accepts key); simpl.
    + eexists _, _. split; [reflexivity |]. simpl. eauto.
    + eexists _, _. split; [reflexivity |]. simpl. eauto.
Qed.

Lemma try_not_connected {A} (k : unit → M state A) (f : exn → A) (st : state) :
  _index (self st) = None →
  ∃ msg st',
    try_except (bind _ensure_index_connected k) (λ e, ret (f e)) st =
      (Return (f (ValueError msg)), st') ∧
    index_store st' = index_store st ∧ uuid_draws st' = uuid_draws st ∧
    (msg = "Not connected to Pinecone. Please check your API key." ∨
     msg = "Not connected to a Pinecone index. Please connect to an index first.").
Proof.
  intros Hi. destruct (ensure_index_not_connected st Hi) as (msg & st' & He & Hs & Hd & _ & Hm).
  exists msg, st'. unfold try_except, bind. rewrite He. done.
Qed.

Lemma not_connected_operations (st : state) :
  _index (self st) = None →
  (∀ content metadata thought_id, ∃ msg st',
      upsert_thought content metadata thought_id st =
        (Return ("Error: Failed to upsert thought: " +:+ msg), st') ∧
      index_store st' = index_store st ∧ uuid_draws st' = uuid_draws st ∧
      (msg = "Not connected to Pinecone. Please check your API key." ∨
       msg = "Not connected to a Pinecone index. Please connect to an index first.")) ∧
  (∀ thoughts namespace, ∃ msg st',
      upsert_thoughts_batch thoughts namespace st =
        (Return ("Error: Failed to upsert thoughts batch: " +:+ msg), st') ∧
      index_store st' = index_store st ∧ uuid_draws st' = uuid_draws st ∧
      (msg = "Not connected to Pinecone. Please check your API key." ∨
       msg = "Not connected to a Pinecone index. Please connect to an index first.")) ∧
  (∀ query top_k namespace, ∃ msg st',
      query_similar_thoughts query top_k namespace st =
        (Return ("Error: Failed to query similar thoughts: " +:+ msg), st') ∧
      index_store st' = index_store st ∧ uuid_draws st' = uuid_draws st ∧
      (msg = "Not connected to Pinecone. Please check your API key." ∨
       msg = "Not connected to a Pinecone index. Please connect to an index first.")) ∧
  (∀ thought_id namespace, ∃ msg st',
      fetch_thought thought_id namespace st =
        (Return ("Error: Failed to fetch thought: " +:+ msg), st') ∧
      index_store st' = index_store st ∧ uuid_draws st' = uuid_draws st ∧
      (msg = "Not connected to Pinecone. Please check your API key." ∨
       msg = "Not connected to a Pinecone index. Please connect to an index first.")) ∧
  (∀ thought_id namespace, ∃ msg st',
      delete_thought thought_id namespace st =
        (Return ("Error: Failed to delete thought: " +:+ msg), st') ∧
      index_store st' = index_store st ∧ uuid_draws st' = uuid_draws st ∧
      (msg = "Not connected to Pinecone. Please check your API key." ∨
       msg = "Not connected to a Pinecone index. Please connect to an index first.")).
Proof.
  intros Hi. repeat split; intros.
  - apply (try_not_connected _ (λ e, "Error: Failed to upsert thought: " +:+ str_exn e) st Hi).
  - apply (try_not_connected _
             (λ e, "Error: Failed to upsert thoughts batch: " +:+ str_exn e) st Hi).
  - apply (try_not_connected _
             (λ e, "Error: Failed to query similar thoughts: " +:+ str_exn e) st Hi).
  - apply (try_not_connected _ (λ e, "Error: Failed to fetch thought: " +:+ str_exn e) st Hi).
  - apply (try_not_connected _ (λ e, "Error: Failed to delete thought: " +:+ str_exn e) st Hi).
Qed.

(** Reading a thought back. *)

Lemma fetch_thought_ready (thought_id : string) (namespace : option string) (st : state) :
  index_ready st = true →
  fetch_thought thought_id namespace st =
    (Return match namespace_records (ns_key namespace) st !! thought_id with
            | None => "Error: Thought with ID '" +:+ thought_id +:+ "' not found"
            | Some vector_data =>
                json_dumps_default_str
                  (VDict [("id", VStr thought_id);
                          ("content",
                           default (VStr "") (dict_get "text" (rec_metadata vector_data)));
                          ("metadata", VDict (without_text (rec_metadata vector_data)))])
            end, st).
Proof.
  intros Hr. unfold fetch_thought, try_except, bind.
  rewrite ensure_index_connected_ready by done.
  unfold index_fetch, bind, get, ret.
  by destruct (namespace_records _ st !! thought_id).
Qed.

Lemma without_text_set (v : value) (d : pydict) :
  without_text (dict_set "text" v d) = without_text d.
Proof.
  unfold without_text. induction d as [|[k0 v0] d IH]; [reflexivity |]. simpl.
  destruct (String.eqb_spec k0 "text") as [-> | Hne]; simpl.
  - reflexivity.
  - destruct (String.eqb_spec k0 "text"); [done |]. simpl. by rewrite IH.
Qed.

Lemma put_record_other (ns ns' id : string) (r : vector_record) (draws : nat) (st : state) :
  ns' ≠ ns → namespace_records ns' (put_record ns id r draws st) = namespace_records ns' st.
Proof. intros Hne. unfold namespace_records, put_record. simpl. by rewrite lookup_insert_ne. Qed.

Lemma delete_thought_ready (thought_id : string) (namespace : option string) (st : state) :
  index_ready st = true →
  delete_thought thought_id namespace st =
    if delete_accepts thought_id (namespace_records (ns_key namespace) st)
    then (Return ("Thought with ID '" +:+ thought_id +:+ "' deleted successfully"),
          {| self := self st;
             index_store :=
               <[ns_key namespace :=
                   delete thought_id (namespace_records (ns_key namespace) st)]>
                 (index_store st);
             uuid_draws := uuid_draws st |})
    else (Return ("Error: Failed to delete thought: delete rejected"), st).
Proof.
  intros Hr. unfold delete_thought, try_except, bind.
  rewrite ensure_index_connected_ready by done.
  unfold index_delete. by destruct (delete_accepts _ _).
Qed.

Lemma query_similar_thoughts_ready (query : string) (top_k : option Z)
    (namespace : option string) (st : state) :
  index_ready st = true →
  query_similar_thoughts query top_k namespace st =
    (Return match query_matches (get_embedding query) (default 5%Z top_k)
                    (namespace_records (ns_key namespace) st) with
            | Return results => json_dumps_default_str (VList (map match_entry results))
            | Raise e => "Error: Failed to query similar thoughts: " +:+ str_exn e
            end, st).
Proof.
  intros Hr. unfold query_similar_thoughts, try_except, bind.
  rewrite ensure_index_connected_ready by done.
  unfold get, lift_outcome, ret. by destruct (query_matches _ _ _).
Qed.

Lemma batch_vectors_frame (thoughts : list pydict) (st : state) :
  self (snd (batch_vectors thoughts st)) = self st ∧
  index_store (snd (batch_vectors thoughts st)) = index_store st.
Proof.
  revert st. induction thoughts as [|thought thoughts IH]; intros st; [done |].
  cbn [batch_vectors]. unfold bind, ret, raise, lift_outcome, uuid4.
  destruct (negb (truthy (default VNone (dict_get "id" thought))));
    destruct (dict_get "content" thought) as [c|]; try done;
    destruct (set_text c _) as [md|e]; try done;
    destruct (get_embedding_of c) as [emb|e]; try done;
    match goal with
    | |- context [batch_vectors thoughts ?s] =>
        specialize (IH s); destruct (batch_vectors thoughts s) as [[vs|e] st']
    end; done.
Qed.

Lemma batch_vectors_missing_content (thoughts : list pydict) (thought : pydict) (st : state) :
  thought ∈ thoughts → dict_get "content" thought = None →
  ∃ e st', batch_vectors thoughts st = (Raise e, st').
Proof.
  intros Hin Hc. revert st. induction thoughts as [|thought0 thoughts IH]; intros st.
  - by apply elem_of_nil in Hin.
  - cbn [batch_vectors]. unfold bind, ret, raise, lift_outcome, uuid4.
    apply elem_of_cons in Hin as [<- | Hin].
    + rewrite Hc. destruct (negb _); by eexists _, _.
    + destruct (negb (truthy (default VNone (dict_get "id" thought0))));
        destruct (dict_get "content" thought0) as [c|]; try (by eexists _, _);
        destruct (set_text c _) as [md|e]; try (by eexists _, _);
        destruct (get_embedding_of c) as [emb|e]; try (by eexists _, _);
        match goal with
        | |- context [batch_vectors thoughts ?s] =>
            destruct (IH Hin s) as (e & st' & ->)
        end; by eexists _, _.
Qed.

Lemma set_text_get (content metadata : value) (md : pydict) :
  set_text content metadata = Return md → dict_get "text" md = Some content.
Proof.
  destruct metadata; try discriminate. intros [= <-]. apply dict_get_set_eq.
Qed.

Lemma truthy_given_id (id : string) : id ≠ "" → negb (truthy (VStr id)) = false.
Proof. intros Hid. simpl. apply truthy_str_true in Hid. by rewrite Hid. Qed.

Lemma batch_vectors_Return (thoughts : list pydict) (st st' : state)
    (vectors : list (value * vector_record)) :
  batch_vectors thoughts st = (Return vectors, st') →
  Forall2 (λ thought v,
             is_Some (dict_get "content" thought) ∧
             dict_get "text" (rec_metadata (snd v)) = dict_get "content" thought ∧
             ∀ id, dict_get "id" thought = Some (VStr id) → id ≠ "" → fst v = VStr id)
          thoughts vectors.
Proof.
  revert st st' vectors. induction thoughts as [|thought thoughts IH]; intros st st' vectors.
  - intros [= <- _]. constructor.
  - cbn [batch_vectors]. unfold bind, ret, raise, lift_outcome, uuid4.
    destruct (negb (truthy (default VNone (dict_get "id" thought)))) eqn:Hid;
      destruct (dict_get "content" thought) as [c|] eqn:Hc; try discriminate;
      destruct (set_text c _) as [md|e] eqn:Hmd; try discriminate;
      destruct (get_embedding_of c) as [emb|e]; try discriminate;
      match goal with
      | |- context [batch_vectors thoughts ?s] =>
          specialize (IH s); destruct (batch_vectors thoughts s) as [[vs|e] st1]
      end; try discriminate; intros [= <- <-];
      (constructor; [| by eapply IH]); cbn [fst snd rec_metadata].
    all: rewrite Hc.
    all: (split; [by eexists |]); (split; [by eapply set_text_get |]); intros id Hget Hne.
    + rewrite Hget in Hid. change (default VNone (Some (VStr id))) with (VStr id) in Hid.
      by rewrite truthy_given_id in Hid.
    + by rewrite Hget.
Qed.

Lemma connect_to_pinecone_eq (st : state) :
  _connect_to_pinecone st =
    if client_accepts (api_key (self st))
    then (Return true,
          {| self := {| _pc := Some (api_key (self st)); _index := _index (self st);
                        api_key := api_key (self st); index_name := index_name (self st);
                        dimension := dimension (self st);
                        name_space := name_space (self st) |};
             index_store := index_store st; uuid_draws := uuid_draws st |})
    else (Return false, st).
Proof.
  unfold _connect_to_pinecone, try_except, bind, get, set_pc, ret, raise.
  by destruct (client_accepts _).
Qed.

End PineconeIndex.

(** ** The claims *)

Section Claims.
Context `{PyRuntime} `{Neo4j.Neo4jServer} `{Pinecone.PineconeService}
        {S : Type} `{LightRAG S}.

(** C1. Creating under an id that is taken fails and changes nothing.
    For the thought graph: once [add_thought] has created the thought
    [X] (it returned [X], and no error text), every further
    [add_thought] under [X] returns the error text of the uniqueness
    constraint's violation and leaves the whole state, so the first
    thought's content, metadata and timestamp, as it was. For the
    knowledge base, whose library refuses to create an entity twice: once
    [create_entity] has reported the creation of [name], every further
    [create_entity] under [name] returns the library's error text and
    leaves the tool and the storages as they were. *)
Theorem C1_create_on_existing_id_fails :
  (∀ (content X : string) (metadata : option pydict) (now : Z) (st st1 : Neo4j.state),
      Neo4j.thought_id_unique (Neo4j.graph st) = true →
      X ≠ "" →
      String.prefix "Error: " X = false →
      Neo4j.add_thought content (Some X) metadata now st = (Return X, st1) →
      ∀ content' metadata' now',
        ∃ e, Neo4j.add_thought content' (Some X) metadata' now' st1 =
               (Return ("Error: Failed to add thought: " +:+ str_exn e), st1) ∧
             (∀ s, json_dumps (VDict (or_empty_dict metadata')) = Return s →
                   e = Neo4jError (ConstraintValidationFailed "Thought" "id" X))) ∧
  ((∀ n d d' s r s',
       acreate_entity n d s = (Return r, s') →
       ∃ m, acreate_entity n d' s' = (Raise (ValueError m), s')) →
   ∀ (name : string) (description entity_type source_id : option string)
     (t t1 : LightRAGTool.LightRAGTool S),
     LightRAGTool.create_entity name description entity_type source_id t =
       (Return ("Entity '" +:+ name +:+ "' created successfully."), t1) →
     ∀ description' entity_type' source_id',
       ∃ m, LightRAGTool.create_entity name description' entity_type' source_id' t1 =
              (Return ("Error: " +:+ m), t1)).
Proof.
  split.
  - intros content X metadata now st st1 Hc HX Hpre Hadd content' metadata' now'.
    destruct (add_thought_created _ _ _ _ _ _ HX Hpre Hadd)
      as (Hr & Hself & _ & s & _ & Hrun).
    apply run_create_thought_Return in Hrun as (_ & Hc1 & _ & Hnodes).
    apply (add_thought_existing content' (Some X)); [| congruence | done |].
    + unfold Neo4j.ready. by rewrite Hself.
    + rewrite Hnodes, existsb_app. simpl. rewrite node_has_id_new.
      by rewrite orb_true_r.
  - intros Hlaw name d ty src t t1 Hfirst d' ty' src'.
    by apply (create_entity_twice name d ty src t t1).
Qed.

(** C2. A relation needs both end points. For the thought graph:
    [connect_thoughts] with an end point that matches no thought returns
    the "Failed to connect thoughts" error text (the "one or both
    thoughts not found" one whenever the toolkit is ready and the
    statement parses) and leaves the state, so the set of relationships,
    as it was; once both thoughts have been created, the same call, for a
    statement that parses and properties that can be stored, returns the
    success text and a relationship of the asked type links the two
    thoughts. For the knowledge base, whose library refuses a relation
    with an absent end point and creates a new one between present end
    points: [create_relation] returns an error text and changes nothing
    in the first case; in the second it reports the creation and leaves
    the instance as [acreate_relation], called with the relation's data,
    left it, so with the relation in it. *)
Theorem C2_relation_requires_endpoints :
  (∀ (a b : string) (rt : option string) (w : option float) (props : option pydict)
     (st : Neo4j.state),
      Neo4j.match_thought a (Neo4j.graph st) = [] ∨
      Neo4j.match_thought b (Neo4j.graph st) = [] →
      ∃ msg,
        Neo4j.connect_thoughts a b rt w props st =
          (Return ("Error: Failed to connect thoughts" +:+ msg), st) ∧
        (Neo4j.ready st = true →
         Neo4j.cypher_parses
           (Neo4j.connect_query (default "RELATED_TO" rt)
              (Neo4j.connect_props (weighted (default 0.5%float w) props))) = true →
         msg = " - one or both thoughts not found")) ∧
  (∀ (ca cb a b : string) (ma mb : option pydict) (ta tb : Z)
     (rt : option string) (w : option float) (props : option pydict)
     (st sta stb : Neo4j.state),
      a ≠ "" → b ≠ "" →
      String.prefix "Error: " a = false → String.prefix "Error: " b = false →
      Neo4j.add_thought ca (Some a) ma ta st = (Return a, sta) →
      Neo4j.add_thought cb (Some b) mb tb sta = (Return b, stb) →
      Neo4j.cypher_parses
        (Neo4j.connect_query (default "RELATED_TO" rt)
           (Neo4j.connect_props (weighted (default 0.5%float w) props))) = true →
      storable_request (default 0.5%float w) props →
      ∃ st' r na nb,
        Neo4j.connect_thoughts a b rt w props stb =
          (Return (connected_msg (default "RELATED_TO" rt) (default 0.5%float w)), st') ∧
        Neo4j.nodes (Neo4j.graph st') = Neo4j.nodes (Neo4j.graph stb) ∧
        r ∈ Neo4j.rels (Neo4j.graph st') ∧
        na ∈ Neo4j.match_thought a (Neo4j.graph stb) ∧
        nb ∈ Neo4j.match_thought b (Neo4j.graph stb) ∧
        Neo4j.rel_start r = Neo4j.node_id na ∧
        Neo4j.rel_end r = Neo4j.node_id nb ∧
        Neo4j.rel_type r = default "RELATED_TO" rt) ∧
  ((∀ a b d s, has_node a s = false ∨ has_node b s = false →
               ∃ m, acreate_relation a b d s = (Raise (ValueError m), s)) →
   ∀ (a b : string) (description keywords : option string) (weight : option float)
     (source_id : option string) (t : LightRAGTool.LightRAGTool S) (s : S),
     LightRAGTool.rag_instance t = LightRAGTool.Obj s →
     LightRAGTool.is_initialized t = true →
     has_node a s = false ∨ has_node b s = false →
     ∃ m, LightRAGTool.create_relation a b description keywords weight source_id t =
            (Return ("Error: " +:+ m), t)) ∧
  ((∀ a b d s, has_node a s = true → has_node b s = true → has_edge a b s = false →
               ∃ r s', acreate_relation a b d s = (Return r, s') ∧ has_edge a b s' = true) →
   ∀ (a b : string) (description keywords : option string) (weight : option float)
     (source_id : option string) (t : LightRAGTool.LightRAGTool S) (s : S),
     LightRAGTool.rag_instance t = LightRAGTool.Obj s →
     LightRAGTool.is_initialized t = true →
     a ≠ "" → b ≠ "" →
     has_node a s = true → has_node b s = true → has_edge a b s = false →
     ∃ s',
       snd (acreate_relation a b
              (LightRAGTool.relation_data description keywords (default 1%float weight)
                 (default "manual" source_id)) s) = s' ∧
       LightRAGTool.create_relation a b description keywords weight source_id t =
         (Return ("Relation '" +:+ a +:+ "' -> '" +:+ b +:+ "' created successfully."),
          LightRAGTool.with_instance s' t) ∧
       has_edge a b s' = true).
Proof.
  split; [|split; [|split]].
  - intros. by apply connect_thoughts_missing.
  - intros ca cb a b ma mb ta tb rt w props st sta stb Ha Hb Hpa Hpb Hadda Haddb Hp Hst.
    destruct (add_thought_matched _ _ _ _ _ _ Ha Hpa Hadda) as (_ & Hma & _).
    destruct (add_thought_matched _ _ _ _ _ _ Hb Hpb Haddb) as (Hr & Hmb & Hkeep).
    apply Hkeep in Hma.
    destruct (Neo4j.match_thought a (Neo4j.graph stb)) as [|na ss] eqn:Hea; [done |].
    destruct (Neo4j.match_thought b (Neo4j.graph stb)) as [|nb ts] eqn:Heb; [done |].
    destruct (connect_thoughts_present a b rt w props stb na nb ss ts Hr Hp Hea Heb Hst)
      as (st' & Hrun & _ & Hnodes & _ & r & Hin & Hs & Ht & Hty & _).
    exists st', r, na, nb. rewrite Hrun.
    repeat split; try done; apply elem_of_cons; by left.
  - intros Hlaw a b d k w src t s Hs Hi Hm.
    by apply (create_relation_missing a b d k w src t s).
  - intros Hlaw a b d k w src t s Hs Hi Ha Hb Hna Hnb He.
    by apply (create_relation_present a b d k w src t s).
Qed.

(** C3. Merging an entity into itself alone is refused without touching
    the store: on a ready tool [merge_entities [target] target] returns
    an invalid-argument error text (that the entity cannot be merged into
    itself or, for the empty name, that the target must be non-empty),
    and the tool with the storages of its LightRAG instance is exactly
    as before. *)
Theorem C3_self_merge_rejected (target : string) (override : option pydict)
    (t : LightRAGTool.LightRAGTool S) :
  LightRAGTool.rag_ready t = true →
  LightRAGTool.merge_entities [target] target override t =
    (Return (self_merge_msg target), t) ∧
  String.prefix "Error: " (self_merge_msg target) = true.
Proof.
  intros Hr. split; [by apply merge_entities_self |].
  unfold self_merge_msg. by destruct (String.eqb target "").
Qed.

(** C4. Retrieval modes. The tool hands the mode name to the library as
    it is; for a library that refuses every mode other than naive, local,
    global, hybrid and mix, retrieval under such a mode on a ready tool
    returns the error text naming the mode. On a ready tool and a
    non-empty query every retrieval returns a text and never raises, in
    particular each of the five retrieval methods, and an empty answer of
    the library comes back as the "No results" text. *)
Theorem C4_retrieval_modes (query : string) (t : LightRAGTool.LightRAGTool S) :
  (∀ q m k s, m ∉ retrieval_modes → ∃ e s', aquery q m k s = (Raise e, s')) →
  LightRAGTool.rag_ready t = true →
  query ≠ "" →
  (∀ mode top_k, mode ∉ retrieval_modes →
     ∃ e t', LightRAGTool._retrieve query mode top_k t =
               (Return ("Error during '" +:+ mode +:+ "' retrieval: " +:+ str_exn e), t')) ∧
  (∀ mode top_k, ∃ r t', LightRAGTool._retrieve query mode top_k t = (Return r, t')) ∧
  (∀ top_k, ∃ r t', LightRAGTool.retrieve_naive query top_k t = (Return r, t')) ∧
  (∀ top_k, ∃ r t', LightRAGTool.retrieve_local_kg query top_k t = (Return r, t')) ∧
  (∀ top_k, ∃ r t', LightRAGTool.retrieve_global_kg query top_k t = (Return r, t')) ∧
  (∀ top_k, ∃ r t', LightRAGTool.retrieve_hybrid query top_k t = (Return r, t')) ∧
  (∀ top_k, ∃ r t', LightRAGTool.retrieve_mix_kg_vector query top_k t = (Return r, t')) ∧
  (∀ mode top_k s s',
     LightRAGTool.rag_instance t = LightRAGTool.Obj s →
     aquery query mode (default (LightRAGTool.default_top_k t) top_k) s =
       (Return (RespStr ""), s') →
     LightRAGTool._retrieve query mode top_k t =
       (Return ("No results or response generated for mode '" +:+ mode +:+ "'."),
        LightRAGTool.with_instance s' t)).
Proof.
  intros Hlaw Hr Hq. repeat split; intros.
  - by apply retrieve_rejected.
  - by apply retrieve_returns.
  - by apply retrieve_returns.
  - by apply retrieve_returns.
  - by apply retrieve_returns.
  - by apply retrieve_returns.
  - by apply retrieve_returns.
  - apply rag_ready_Obj in Hr as (s0 & Hs0 & Hi). by apply (retrieve_no_results _ _ _ _ s).
Qed.


(** C6, at the failing input. A tool built without an API key never had
    [rag_instance] assigned: its data operations and [initialize] fail
    with [AttributeError] when the guard reads the attribute, which is
    not the not-ready [RuntimeError] the guard is written to raise. *)
Theorem C6_unassigned_instance (construct : outcome S) (top_k : Z)
    (text : string) (document_id file_path : option string) :
  LightRAGTool.store_text text document_id file_path
    (LightRAGTool.__init__ true None construct top_k) =
    (Raise (OtherError "AttributeError"
              "'LightRAGTool' object has no attribute 'rag_instance'"),
     LightRAGTool.__init__ true None construct top_k) ∧
  LightRAGTool.initialize (LightRAGTool.__init__ true None construct top_k) =
    (Raise (OtherError "AttributeError"
              "'LightRAGTool' object has no attribute 'rag_instance'"),
     LightRAGTool.__init__ true None construct top_k) ∧
  OtherError "AttributeError" "'LightRAGTool' object has no attribute 'rag_instance'" ≠
    RuntimeError LightRAGTool.not_ready_msg.
Proof. by repeat split. Qed.


(** C8, as the code has it. The weight is stored as given, whatever its
    value: after a successful [connect_thoughts] a relationship of the
    asked type links the two thoughts and carries the weight argument
    (or, when an equal relationship was merged with, a value Cypher
    holds equal to it); and [create_relation] hands the library a
    relation whose weight is the argument. No range is checked and
    nothing is clamped. *)
Theorem C8_weight_stored_as_given :
  (∀ (a b : string) (rt : option string) (w : option float) (props : option pydict)
     (st : Neo4j.state) (na nb : Neo4j.node) (ss ts : list Neo4j.node),
      Neo4j.ready st = true →
      Neo4j.cypher_parses
        (Neo4j.connect_query (default "RELATED_TO" rt)
           (Neo4j.connect_props (weighted (default 0.5%float w) props))) = true →
      Neo4j.match_thought a (Neo4j.graph st) = na :: ss →
      Neo4j.match_thought b (Neo4j.graph st) = nb :: ts →
      storable_request (default 0.5%float w) props →
      ∃ st' r,
        Neo4j.connect_thoughts a b rt w props st =
          (Return (connected_msg (default "RELATED_TO" rt) (default 0.5%float w)), st') ∧
        r ∈ Neo4j.rels (Neo4j.graph st') ∧
        Neo4j.rel_start r = Neo4j.node_id na ∧
        Neo4j.rel_end r = Neo4j.node_id nb ∧
        Neo4j.rel_type r = default "RELATED_TO" rt ∧
        carries_weight (default 0.5%float w) r) ∧
  (∀ (a b : string) (description keywords : option string) (w : float)
     (source_id : option string) (t : LightRAGTool.LightRAGTool S) (s : S),
      LightRAGTool.rag_instance t = LightRAGTool.Obj s →
      LightRAGTool.is_initialized t = true →
      a ≠ "" → b ≠ "" →
      ∃ data,
        dict_get "weight" data = Some (VFloat w) ∧
        LightRAGTool.create_relation a b description keywords (Some w) source_id t =
          (Return match fst (acreate_relation a b data s) with
                  | Return _ =>
                      "Relation '" +:+ a +:+ "' -> '" +:+ b +:+ "' created successfully."
                  | Raise e =>
                      if is_ValueError e then "Error: " +:+ str_exn e
                      else "Error creating relation '" +:+ a +:+ "'->'" +:+ b +:+ "': " +:+
                           str_exn e
                  end,
           LightRAGTool.with_instance (snd (acreate_relation a b data s)) t)).
Proof.
  split.
  - intros a b rt w props st na nb ss ts Hr Hp Ha Hb Hst.
    destruct (connect_thoughts_present a b rt w props st na nb ss ts Hr Hp Ha Hb Hst)
      as (st' & Hrun & _ & _ & _ & r & Hin & Hs & Ht & Hty & Hw).
    eauto 10.
  - intros a b d k w src t s Hs Hi Ha Hb.
    exists (LightRAGTool.relation_data d k w (default "manual" src)).
    split; [reflexivity |].
    by rewrite (create_relation_ready a b d k (Some w) src t s Hs Hi Ha Hb).
Qed.

(** C9. The metadata round trip. [add_thought] stores the text
    [json.dumps] gives for the map [m]; [get_thought] returns the
    serialized record of the thought's id, content and timestamp, with
    what [json.loads] reads from that text under "metadata" and no
    "metadata_json" entry. The map read back is the JSON image of [m]:
    it is [m] when [m] parses back from its own text, and another map
    otherwise (a tuple comes back as a list). When the stored text of a
    thought does not parse, [get_thought] returns, without an error, the
    record with the empty map under "metadata". *)
Theorem C9_metadata_round_trip :
  (∀ (content X : string) (m : pydict) (s : string) (v : value) (now : Z)
     (st st1 : Neo4j.state),
      Neo4j.thought_id_unique (Neo4j.graph st) = true →
      X ≠ "" →
      String.prefix "Error: " X = false →
      json_dumps (VDict m) = Return s →
      json_loads s = Return v →
      Neo4j.add_thought content (Some X) (Some m) now st = (Return X, st1) →
      Neo4j.get_thought_record X st1 =
        (Return (Some (thought_record X content now v)), st1) ∧
      Neo4j.get_thought X st1 =
        (Return (json_dumps_default_str (VDict (thought_record X content now v))), st1) ∧
      dict_get "metadata" (thought_record X content now v) = Some v ∧
      dict_get "metadata_json" (thought_record X content now v) = None ∧
      (v = VDict m ↔
       dict_get "metadata" (thought_record X content now v) = Some (VDict m))) ∧
  (∀ (X : string) (st : Neo4j.state) (n : Neo4j.node) (rest : list Neo4j.node)
     (s msg : string),
      Neo4j.ready st = true →
      Neo4j.match_thought X (Neo4j.graph st) = n :: rest →
      dict_get "metadata_json" (Neo4j.node_props n) = Some (VStr s) →
      json_loads s = Raise (JSONDecodeError msg) →
      Neo4j.get_thought_record X st =
        (Return (Some (dict_set "metadata" (VDict []) (Neo4j.node_props n))), st) ∧
      Neo4j.get_thought X st =
        (Return (json_dumps_default_str
                   (VDict (dict_set "metadata" (VDict []) (Neo4j.node_props n)))), st) ∧
      dict_get "metadata" (dict_set "metadata" (VDict []) (Neo4j.node_props n)) =
        Some (VDict [])).
Proof.
  split.
  - intros content X m s v now st st1 Hc HX Hpre Hd Hl Hadd.
    destruct (add_get_metadata _ _ _ _ _ _ _ _ Hc HX Hpre Hd Hl Hadd) as [Hrec Hget].
    repeat split; try done.
    + by intros ->.
    + by intros [= ->].
  - intros X st n rest s msg Hr Hm Hd Hl.
    destruct (get_thought_invalid_metadata _ _ _ _ _ _ Hr Hm Hd Hl) as [Hrec Hget].
    repeat split; try done. apply dict_get_set_eq.
Qed.

(** The knowledge base tool before initialization and after
    finalization. Every data operation of a tool that is not ready fails
    in the guard, before its arguments are looked at and before the
    LightRAG instance is called: the tool and the storages are left as
    they were; when the constructor assigned [rag_instance] the failure is
    the not-ready [RuntimeError]. *)
Theorem lightrag_not_ready_operations_fail (t : LightRAGTool.LightRAGTool S) :
  LightRAGTool.rag_ready t = false →
  (LightRAGTool.rag_instance t ≠ LightRAGTool.Unset →
   guard_exn t = RuntimeError LightRAGTool.not_ready_msg) ∧
  (∀ text doc path, LightRAGTool.store_text text doc path t = (Raise (guard_exn t), t)) ∧
  (∀ q mode k, LightRAGTool._retrieve q mode k t = (Raise (guard_exn t), t)) ∧
  (∀ q k, LightRAGTool.retrieve_naive q k t = (Raise (guard_exn t), t)) ∧
  (∀ q k, LightRAGTool.retrieve_local_kg q k t = (Raise (guard_exn t), t)) ∧
  (∀ q k, LightRAGTool.retrieve_global_kg q k t = (Raise (guard_exn t), t)) ∧
  (∀ q k, LightRAGTool.retrieve_hybrid q k t = (Raise (guard_exn t), t)) ∧
  (∀ q k, LightRAGTool.retrieve_mix_kg_vector q k t = (Raise (guard_exn t), t)) ∧
  (∀ n d ty src, LightRAGTool.create_entity n d ty src t = (Raise (guard_exn t), t)) ∧
  (∀ n u r, LightRAGTool.edit_entity n u r t = (Raise (guard_exn t), t)) ∧
  (∀ n, LightRAGTool.delete_entity n t = (Raise (guard_exn t), t)) ∧
  (∀ a b d k w src,
      LightRAGTool.create_relation a b d k w src t = (Raise (guard_exn t), t)) ∧
  (∀ a b u, LightRAGTool.edit_relation a b u t = (Raise (guard_exn t), t)) ∧
  (∀ a b, LightRAGTool.delete_relation a b t = (Raise (guard_exn t), t)) ∧
  (∀ srcs tgt o, LightRAGTool.merge_entities srcs tgt o t = (Raise (guard_exn t), t)) ∧
  (∀ n, LightRAGTool.get_entity_details n t = (Raise (guard_exn t), t)) ∧
  (∀ a b, LightRAGTool.get_relation_details a b t = (Raise (guard_exn t), t)) ∧
  LightRAGTool.get_doc_processing_status t = (Raise (guard_exn t), t) ∧
  (∀ d, LightRAGTool.delete_document d t = (Raise (guard_exn t), t)) ∧
  (∀ modes, LightRAGTool.clear_llm_cache modes t = (Raise (guard_exn t), t)).
Proof.
  intros Hr. split; [apply guard_exn_assigned | by apply not_ready_data_operations].
Qed.

(** The thought graph toolkit before a successful initialization. Every
    data operation answers with the "not initialized" error text and
    leaves the state, so the graph, as it was. *)
Theorem neo4j_not_ready_operations_fail (st : Neo4j.state) :
  Neo4j.ready st = false →
  (∀ c id md now,
      Neo4j.add_thought c id md now st = (Return (not_ready_error "add thought"), st)) ∧
  (∀ a b rt w ps,
      Neo4j.connect_thoughts a b rt w ps st =
        (Return (not_ready_error "connect thoughts"), st)) ∧
  (∀ id, Neo4j.get_thought id st = (Return (not_ready_error "get thought"), st)) ∧
  (∀ id rt w,
      Neo4j.get_related_thoughts id rt w st =
        (Return (not_ready_error "get related thoughts"), st)) ∧
  (∀ q l, Neo4j.search_thoughts q l st = (Return (not_ready_error "search thoughts"), st)) ∧
  (∀ q ps,
      Neo4j.execute_custom_query q ps st =
        (Return (not_ready_error "execute custom query"), st)) ∧
  Neo4j.get_graph_summary st = (Return (not_ready_error "get graph summary"), st) ∧
  Neo4j.get_all_node_ids st = (Return (not_ready_error "retrieve thought node IDs"), st).
Proof. apply neo4j_not_ready_data_operations. Qed.

(** Initialization is idempotent. [initialize] on an initialized
    knowledge base tool reports that and changes nothing.
    [initialize_connection] on a connected toolkit whose server still
    answers reports success and leaves the graph, where the constraint
    already is, untouched. *)
Theorem initialization_idempotent :
  (∀ t : LightRAGTool.LightRAGTool S,
      LightRAGTool.is_initialized t = true →
      LightRAGTool.initialize t = (Return "LightRAGTool is already initialized.", t)) ∧
  (∀ st : Neo4j.state,
      Neo4j.ready st = true →
      Neo4j.thought_id_unique (Neo4j.graph st) = true →
      Neo4j.driver_accepts (Neo4j.uri (Neo4j.self st)) (Neo4j.username (Neo4j.self st))
        (Neo4j.password (Neo4j.self st)) = true →
      Neo4j.server_reachable (Neo4j.uri (Neo4j.self st)) (Neo4j.username (Neo4j.self st))
        (Neo4j.password (Neo4j.self st)) = true →
      ∃ st', Neo4j.initialize_connection st =
               (Return "Neo4j connection initialized successfully", st') ∧
             Neo4j.graph st' = Neo4j.graph st ∧ Neo4j.ready st' = true ∧
             Neo4j.uuid_draws st' = Neo4j.uuid_draws st).
Proof.
  split.
  - intros t Hi. by apply initialize_again.
  - intros st Hr Hc Hd Hs. by apply initialize_connection_again.
Qed.

(** C10. The default thought id. A call of [add_thought] that leaves
    [thought_id] out never draws a UUID. On a ready toolkit, under the
    uniqueness constraint and with serializable metadata, where no
    thought has the id "Thought" yet, such a call creates the thought
    under the id "Thought" and returns that id; every further call that
    leaves the id out then returns the error text of the constraint's
    violation and changes nothing. *)
Theorem C10_default_thought_id :
  (∀ (content : string) (metadata : option pydict) (now : Z) (st : Neo4j.state),
      Neo4j.uuid_draws (snd (Neo4j.add_thought content None metadata now st)) =
      Neo4j.uuid_draws st) ∧
  (∀ (content s : string) (metadata : option pydict) (now : Z) (st : Neo4j.state),
      Neo4j.ready st = true →
      Neo4j.thought_id_unique (Neo4j.graph st) = true →
      json_dumps (VDict (or_empty_dict metadata)) = Return s →
      existsb (Neo4j.node_has_id "Thought") (Neo4j.nodes (Neo4j.graph st)) = false →
      ∃ st1,
        Neo4j.add_thought content None metadata now st = (Return "Thought", st1) ∧
        Neo4j.match_thought "Thought" (Neo4j.graph st1) =
          [{| Neo4j.node_id := Neo4j.next_node_id (Neo4j.graph st);
              Neo4j.node_props := thought_props "Thought" content now s |}] ∧
        ∀ content' metadata' now',
          ∃ e, Neo4j.add_thought content' None metadata' now' st1 =
                 (Return ("Error: Failed to add thought: " +:+ str_exn e), st1) ∧
               (∀ s', json_dumps (VDict (or_empty_dict metadata')) = Return s' →
                      e = Neo4jError (ConstraintValidationFailed "Thought" "id" "Thought"))).
Proof.
  split.
  - intros. apply add_thought_default_id.
  - intros content s metadata now st Hr Hc Hd Hfresh.
    destruct (add_thought_default_id content metadata now st) as [_ Hadd].
    specialize (Hadd Hr). rewrite Hd in Hadd.
    destruct (Neo4j.run_create_thought "Thought" content s now (Neo4j.graph st))
      as [g|e] eqn:Hrun.
    2:{ unfold Neo4j.run_create_thought in Hrun. rewrite Hc, Hfresh in Hrun. done. }
    eexists. split; [exact Hadd |].
    pose proof Hrun as Hrun'.
    apply run_create_thought_Return in Hrun' as (_ & Hc1 & _ & Hnodes).
    split.
    + cbn [Neo4j.graph]. rewrite (match_thought_app _ _ _ _ Hnodes), node_has_id_new.
      unfold Neo4j.match_thought. by rewrite (filter_none _ _ Hfresh).
    + intros content' metadata' now'.
      apply (add_thought_existing content' None); cbn [Neo4j.graph default];
        [done | congruence | done |].
      rewrite Hnodes, existsb_app. cbn [existsb]. rewrite node_has_id_new.
      by rewrite orb_true_r.
Qed.
End Claims.

(** ** Further properties of the three tools

    Properties of the methods the claims leave out, and of the claimed
    ones together with them. *)

Section FurtherNeo4j.
Context `{PyRuntime} `{Neo4j.Neo4jServer}.
Import Neo4j.

(** No method of the thought graph toolkit raises: in every state each
    returns a text. The five methods that only read (get_thought,
    get_related_thoughts, search_thoughts, get_graph_summary and
    get_all_node_ids) return with the toolkit, the graph and the UUID
    counter exactly as they found them. *)
Theorem neo4j_methods_return (st : state) :
  (∃ r st', initialize_connection st = (Return r, st')) ∧
  (∀ content thought_id metadata now,
      ∃ r st', add_thought content thought_id metadata now st = (Return r, st')) ∧
  (∀ a b rt w props, ∃ r st', connect_thoughts a b rt w props st = (Return r, st')) ∧
  (∀ q params, ∃ r st', execute_custom_query q params st = (Return r, st')) ∧
  (∀ id, ∃ r, get_thought id st = (Return r, st)) ∧
  (∀ id rt w, ∃ r, get_related_thoughts id rt w st = (Return r, st)) ∧
  (∀ q limit, ∃ r, search_thoughts q limit st = (Return r, st)) ∧
  (∃ r, get_graph_summary st = (Return r, st)) ∧
  (∃ r, get_all_node_ids st = (Return r, st)).

Proof.
  repeat split; intros; try apply try_except_returns.
  - apply keeps_state_returns.
    apply keeps_state_bind; [apply keeps_state_ensure | intros _].
    apply keeps_state_bind.
    + unfold get_thought_record. apply keeps_state_bind; [apply keeps_state_session_read |].
      intros [|r l]; [apply keeps_state_ret |].
      apply keeps_state_bind; [apply keeps_state_lift | intros; apply keeps_state_ret].
    + intros [t|]; apply keeps_state_ret.
  - apply keeps_state_returns.
    apply keeps_state_bind; [apply keeps_state_ensure | intros _].
    apply keeps_state_bind; [apply keeps_state_session_read | intros].
    apply keeps_state_bind; [apply keeps_state_lift | intros; apply keeps_state_ret].
  - apply keeps_state_returns.
    apply keeps_state_bind; [apply keeps_state_ensure | intros _].
    apply keeps_state_bind; [| intros; apply keeps_state_ret].
    unfold search_thoughts_records.
    apply keeps_state_bind; [apply keeps_state_session_read | intros; apply keeps_state_lift].
  - apply keeps_state_returns.
    apply keeps_state_bind; [apply keeps_state_ensure | intros _].
    repeat (apply keeps_state_bind; [apply keeps_state_session_read | intros]).
    apply keeps_state_ret.
  - apply keeps_state_returns.
    apply keeps_state_bind; [apply keeps_state_ensure | intros _].
    apply keeps_state_bind; [apply keeps_state_session_read | intros; apply keeps_state_lift].
Qed.

(** What the writing methods leave alone. [add_thought] never touches the
    toolkit object, the relationships or the constraint, and either
    leaves the graph as it was or appends exactly one node, which holds
    the id it returns, the content, the server's time and the serialized
    metadata. [connect_thoughts] never touches the toolkit object, the
    UUID counter, the nodes or the constraint, and only appends
    relationships: each of the asked type, carrying the weight given,
    from a thought matching the source id to one matching the target id.
    [initialize_connection] leaves the nodes, the relationships and the
    UUID counter as they were. *)
Theorem neo4j_writes_frame (st : state) :
  (∀ content thought_id metadata now,
      self (snd (add_thought content thought_id metadata now st)) = self st ∧
      rels (graph (snd (add_thought content thought_id metadata now st))) =
        rels (graph st) ∧
      thought_id_unique (graph (snd (add_thought content thought_id metadata now st))) =
        thought_id_unique (graph st) ∧
      (graph (snd (add_thought content thought_id metadata now st)) = graph st ∨
       ∃ X s,
         fst (add_thought content thought_id metadata now st) = Return X ∧
         json_dumps (VDict (or_empty_dict metadata)) = Return s ∧
         nodes (graph (snd (add_thought content thought_id metadata now st))) =
           (nodes (graph st) ++
              [{| node_id := next_node_id (graph st);
                  node_props := thought_props X content now s |}])%list)) ∧
  (∀ a b rt w props,
      self (snd (connect_thoughts a b rt w props st)) = self st ∧
      uuid_draws (snd (connect_thoughts a b rt w props st)) = uuid_draws st ∧
      nodes (graph (snd (connect_thoughts a b rt w props st))) = nodes (graph st) ∧
      thought_id_unique (graph (snd (connect_thoughts a b rt w props st))) =
        thought_id_unique (graph st) ∧
      ∃ new,
        rels (graph (snd (connect_thoughts a b rt w props st))) =
          (rels (graph st) ++ new)%list ∧
        Forall (λ r, rel_type r = default "RELATED_TO" rt ∧
                     dict_get "weight" (rel_props r) = Some (VFloat (default 0.5%float w)) ∧
                     ∃ s t, s ∈ match_thought a (graph st) ∧
                            t ∈ match_thought b (graph st) ∧
                            rel_start r = node_id s ∧ rel_end r = node_id t) new) ∧
  nodes (graph (snd (initialize_connection st))) = nodes (graph st) ∧
  rels (graph (snd (initialize_connection st))) = rels (graph st) ∧
  next_node_id (graph (snd (initialize_connection st))) = next_node_id (graph st) ∧
  uuid_draws (snd (initialize_connection st)) = uuid_draws st.
Proof.
  split; [| split].
  - intros. apply add_thought_frame.
  - intros a b rt w props. rewrite connect_thoughts_eq.
    destruct (ready st).
    + cbn [self graph uuid_draws]. do 2 (split; [done |]).
      destruct (connect_run_frame a b (default "RELATED_TO" rt) (default 0.5%float w)
                  props (graph st)) as (Hu & _ & Hn & Hnew).
      done.
    + do 4 (split; [done |]). exists []. by rewrite app_nil_r.
  - apply initialize_connection_frame.
Qed.

(** [connect_thoughts] is idempotent. On a ready toolkit, with both
    thoughts present, a statement that parses, properties the server can
    store and holds equal to themselves: the call succeeds, and the same
    call again succeeds and leaves the state as the first call made it;
    no second relationship is added. *)

Theorem connect_thoughts_idempotent (a b : string) (rt : option string) (w : option float)
    (props : option pydict) (st : state) (s t : node) (ss ts : list node) :
  ready st = true →
  cypher_parses (connect_query (default "RELATED_TO" rt)
                   (connect_props (weighted (default 0.5%float w) props))) = true →
  match_thought a (graph st) = s :: ss →
  match_thought b (graph st) = t :: ts →
  storable_request (default 0.5%float w) props →
  self_equal_request (default 0.5%float w) props →
  ∃ st1,
    connect_thoughts a b rt w props st =
      (Return (connected_msg (default "RELATED_TO" rt) (default 0.5%float w)), st1) ∧
    connect_thoughts a b rt w props st1 =
      (Return (connected_msg (default "RELATED_TO" rt) (default 0.5%float w)), st1).
Proof.
  intros Hr Hp Ha Hb Hst Hself.
  destruct (connect_run_again a b _ _ props (graph st) s t ss ts Hp Ha Hb Hst Hself)
    as (n & g' & Hrun1 & Hrun2).
  eexists. split.
  - rewrite connect_thoughts_ready by done. cbv zeta. rewrite Hrun1. reflexivity.
  - rewrite connect_thoughts_ready by done. cbv zeta. cbn [graph self uuid_draws snd].
    rewrite Hrun2. reflexivity.
Qed.

(** An id no thought has. On a ready toolkit [get_thought] answers with
    the "not found" error text, while [get_related_thoughts], whose
    statement parses, answers with the empty list and no error; both
    leave the state as it was. *)

Theorem missing_thought_lookups (X : string) (st : state) :
  ready st = true →
  match_thought X (graph st) = [] →
  get_thought X st = (Return ("Error: Thought with ID '" +:+ X +:+ "' not found"), st) ∧
  (∀ rt min_weight,
      cypher_parses
        (related_query (if truthy_opt_str rt then ":`" +:+ default "" rt +:+ "`" else "")
           ("r.weight >= " +:+ str_float (default 0%float min_weight))) = true →
      get_related_thoughts X rt min_weight st =
        (Return (json_dumps_default_str (VList [])), st)).
Proof.
  intros Hr Hm. split.
  - rewrite get_thought_ready by done. by rewrite Hm.
  - intros rt mw Hp. rewrite get_related_thoughts_ready by done. cbv zeta.
    unfold run_related. rewrite Hp, Hm. reflexivity.
Qed.

(** [get_all_node_ids] lists every thought once, most recent first. On a
    ready toolkit the ids returned are those of a rearrangement of all the
    nodes in which no node stands before one with a later timestamp
    (nodes without a timestamp come first); the text is the serialized
    object, or the error text when an id is not serializable. *)

Theorem all_node_ids_most_recent_first (st : state) :
  ready st = true →
  ∃ listed : list node,
    get_all_node_ids st =
      (Return match json_dumps
                      (VDict [("node_ids",
                               VList (map (λ n, default VNone (dict_get "id" (node_props n)))
                                          listed))]) with
              | Return s => s
              | Raise e => "Error: Failed to retrieve thought node IDs: " +:+ str_exn e
              end, st) ∧
    listed ≡ₚ nodes (graph st) ∧
    StronglySorted (desc_before node_timestamp) listed.
Proof.
  intros Hr. exists (sort_desc node_timestamp (nodes (graph st))).
  split; [by apply get_all_node_ids_ready |].
  split; [apply sort_desc_perm | apply sort_desc_sorted].
Qed.

(** [get_graph_summary] counts. On a ready toolkit the summary holds the
    number of thoughts, the number of relationships, and one entry for
    each relationship type that occurs, with the number of relationships
    of that type; the types are pairwise different, their counts add up
    to the number of relationships, and no entry stands before one with
    a greater count. *)

Theorem graph_summary_counts (st : state) :
  ready st = true →
  ∃ types : list (string * Z),
    get_graph_summary st =
      (Return (json_dumps_default_str
                 (VDict [("thought_count", VInt (Z.of_nat (length (nodes (graph st)))));
                         ("relationship_count",
                          VInt (Z.of_nat (length (rels (graph st)))));
                         ("relationship_types",
                          VList (map (λ tc, VList [VStr (fst tc); VInt (snd tc)]) types))])),
       st) ∧
    NoDup (map fst types) ∧
    (∀ ty c, (ty, c) ∈ types ↔ c = count_of ty (rels (graph st)) ∧ (0 < c)%Z) ∧
    foldr Z.add 0%Z (map snd types) = Z.of_nat (length (rels (graph st))) ∧
    StronglySorted (λ x y, (snd y ≤ snd x)%Z) types.
Proof.
  intros Hr.
  destruct (fold_count_type (rels (graph st)) []) as (Hnd & Hpos & Htally & Hsum);
    [constructor | constructor |].
  set (h := fold_left (λ h r, count_type (rel_type r) h) (rels (graph st)) []) in *.
  exists (sort_desc (λ tc, Some (snd tc)) h).
  pose proof (sort_desc_perm (λ tc : string * Z, Some (snd tc)) h) as Hperm.
  split; [by apply get_graph_summary_ready |]. split; [| split; [| split]].
  - by rewrite (Permutation_map fst Hperm).
  - intros ty c. rewrite Hperm, (tally_elem ty c h Hnd Hpos), Htally.
    unfold tally. simpl. split; intros [? ?]; split; (done || lia).
  - rewrite (foldr_add_perm _ (map snd h)) by (by apply Permutation_map).
    rewrite Hsum. simpl. lia.
  - eapply StronglySorted_impl; [| apply sort_desc_sorted]. intros x y. done.
Qed.

(** What [connect_thoughts] links, [get_related_thoughts] lists. On a
    ready toolkit with both thoughts present, after a successful
    [connect_thoughts a b], [get_related_thoughts a], unfiltered or
    filtered by the type used, and with a threshold the stored weight
    passes, returns a list with an entry for the thought matched under
    [b], with the relationship's type, weight and properties. *)


(** The constructor never fails and never touches the thoughts. The
    toolkit comes out ready exactly when the driver takes the address,
    the server answers, and the constraint is there or can be created
    (no two thoughts share an id); it comes out ready only with the
    constraint in place. The driver stays assigned when the server does
    not answer. *)
Theorem neo4j_constructor (u n p : string) (g : graph_db) (draws : nat) :
  ready (__init__ u n p g draws) =
    driver_accepts u n p && server_reachable u n p &&
    (thought_id_unique g || distinct (thought_ids g)) ∧
  thought_id_unique (graph (__init__ u n p g draws)) =
    thought_id_unique g || ready (__init__ u n p g draws) ∧
  nodes (graph (__init__ u n p g draws)) = nodes g ∧
  rels (graph (__init__ u n p g draws)) = rels g ∧
  next_node_id (graph (__init__ u n p g draws)) = next_node_id g ∧
  uuid_draws (__init__ u n p g draws) = draws ∧
  driver (self (__init__ u n p g draws)) =
    (if driver_accepts u n p
     then Some {| drv_uri := u; drv_username := n; drv_password := p |} else None).

Proof.
  unfold __init__, initialize_connection, new_driver, verify_connectivity, session_write,
    session_run, set_driver, set_is_initialized, run_create_constraint, try_except.
  unfold bind, get, ret, raise, ready. simpl.
  destruct (driver_accepts u n p); simpl; [| by rewrite orb_false_r].
  destruct (server_reachable u n p); simpl; [| by rewrite orb_false_r].
  destruct (thought_id_unique g) eqn:Hc; simpl; [done |].
  destruct (distinct (thought_ids g)); simpl; done.
Qed.

(** An empty thought id. On a ready toolkit [add_thought] with the id
    [""] draws a UUID, whether the call then succeeds or not; when the
    metadata serializes and the UUID is free, the thought is created
    under the UUID, which is returned. *)
Theorem add_thought_empty_id_draws_uuid (content : string) (metadata : option pydict)
    (now : Z) (st : state) :
  ready st = true →
  uuid_draws (snd (add_thought content (Some "") metadata now st)) = S (uuid_draws st) ∧
  ∀ s,
    json_dumps (VDict (or_empty_dict metadata)) = Return s →
    thought_id_unique (graph st) &&
      existsb (node_has_id (uuid4_at (uuid_draws st))) (nodes (graph st)) = false →
    ∃ st',
      add_thought content (Some "") metadata now st =
        (Return (uuid4_at (uuid_draws st)), st') ∧
      nodes (graph st') =
        (nodes (graph st) ++
           [{| node_id := next_node_id (graph st);
               node_props := thought_props (uuid4_at (uuid_draws st)) content now s |}])%list ∧
      rels (graph st') = rels (graph st).
Proof. apply add_thought_empty_id. Qed.

(** The bounds of [search_thoughts]. On a ready toolkit a negative limit
    is answered with the error text of the server's refusal, the limit 0
    with the empty list, and the empty query text, under a limit no
    smaller than the number of thoughts, with every thought whose content
    is a text. *)


(** A thought added is found. After [add_thought] has created a thought,
    [search_thoughts] for any text its content contains, under a limit
    no smaller than the number of thoughts, returns a list that holds the
    thought with its id and content. *)


End FurtherNeo4j.

Section FurtherLightRAG.
Context `{PyRuntime} {S : Type} `{LightRAG S}.
Import LightRAGTool.

(** Empty arguments. On a ready tool every operation refuses an empty
    text, query, name, document id, update dictionary or list of sources
    with its "Invalid input" error text, before the LightRAG instance is
    called: the tool and the storages are left as they were. *)
Theorem lightrag_empty_arguments_rejected (t : LightRAGTool S) :
  rag_ready t = true →
  (∀ doc path,
      store_text "" doc path t =
        (Return "Error: Invalid input. 'text_content' must be a non-empty string.", t)) ∧
  (∀ mode k,
      _retrieve "" mode k t =
        (Return "Error: Invalid input. 'query' must be a non-empty string.", t)) ∧
  (∀ d ty src,
      create_entity "" d ty src t =
        (Return "Error: Invalid input. 'entity_name' must be a non-empty string.", t)) ∧
  (∀ u r,
      edit_entity "" u r t =
        (Return "Error: Invalid input. 'entity_name' must be a non-empty string.", t)) ∧
  (∀ n r, n ≠ "" →
      edit_entity n [] r t =
        (Return "Error: Invalid input. 'updates' must be a non-empty dictionary.", t)) ∧
  delete_entity "" t =
    (Return "Error: Invalid input. 'entity_name' must be a non-empty string.", t) ∧
  (∀ a b d k w src, a = "" ∨ b = "" →
      create_relation a b d k w src t =
        (Return "Error: Both 'source_entity' and 'target_entity' must be non-empty strings.",
         t)) ∧
  (∀ a b u, a = "" ∨ b = "" →
      edit_relation a b u t =
        (Return "Error: Both 'source_entity' and 'target_entity' must be non-empty strings.",
         t)) ∧
  (∀ a b, a ≠ "" → b ≠ "" →
      edit_relation a b [] t =
        (Return "Error: Invalid input. 'updates' must be a non-empty dictionary.", t)) ∧
  (∀ a b, a = "" ∨ b = "" →
      delete_relation a b t =
        (Return "Error: Both 'source_entity' and 'target_entity' must be non-empty strings.",
         t)) ∧
  (∀ tgt o,
      merge_entities [] tgt o t =
        (Return "Error: 'source_entities' must be a non-empty list of strings.", t)) ∧
  (∀ src srcs o,
      merge_entities (src :: srcs) "" o t =
        (Return "Error: 'target_entity' must be a non-empty string.", t)) ∧
  get_entity_details "" t =
    (Return (VStr "Error: Invalid input. 'entity_name' must be a non-empty string."), t) ∧
  (∀ a b, a = "" ∨ b = "" →
      get_relation_details a b t =
        (Return (VStr "Error: Both 'source_entity' and 'target_entity' must be non-empty strings."),
         t)) ∧
  delete_document "" t =
    (Return "Error: Invalid input. 'document_id' must be a non-empty string.", t).
Proof.
  intros Hr.
  assert (∀ a b, a = "" ∨ b = "" → negb (truthy_str a) || negb (truthy_str b) = true) as Hab.
  { intros a b [-> | ->]; [done |]. by rewrite orb_true_r. }
  assert (∀ a, a ≠ "" → negb (truthy_str a) = false) as Hne.
  { intros a Ha. apply truthy_str_true in Ha. by rewrite Ha. }
  repeat split; intros;
    unfold store_text, _retrieve, create_entity, edit_entity, delete_entity,
      create_relation, edit_relation, delete_relation, merge_entities,
      get_entity_details, get_relation_details, delete_document;
    cbv zeta; rewrite guarded_ok by done;
    rewrite ?Hab by done; rewrite ?Hne by done; try reflexivity.
Qed.

(** On a ready tool no data operation raises, and none makes the tool
    unready: each returns a result and leaves a ready tool, whatever the
    LightRAG instance does. *)
Theorem lightrag_ready_operations_return (t : LightRAGTool S) :
  rag_ready t = true →
  (∀ text doc path, ∃ r t', store_text text doc path t = (Return r, t') ∧ rag_ready t' = true) ∧
  (∀ q mode k, ∃ r t', _retrieve q mode k t = (Return r, t') ∧ rag_ready t' = true) ∧
  (∀ n d ty src, ∃ r t', create_entity n d ty src t = (Return r, t') ∧ rag_ready t' = true) ∧
  (∀ n u r0, ∃ r t', edit_entity n u r0 t = (Return r, t') ∧ rag_ready t' = true) ∧
  (∀ n, ∃ r t', delete_entity n t = (Return r, t') ∧ rag_ready t' = true) ∧
  (∀ a b d k w src,
      ∃ r t', create_relation a b d k w src t = (Return r, t') ∧ rag_ready t' = true) ∧
  (∀ a b u, ∃ r t', edit_relation a b u t = (Return r, t') ∧ rag_ready t' = true) ∧
  (∀ a b, ∃ r t', delete_relation a b t = (Return r, t') ∧ rag_ready t' = true) ∧
  (∀ srcs tgt o, ∃ r t', merge_entities srcs tgt o t = (Return r, t') ∧ rag_ready t' = true) ∧
  (∀ n, ∃ r t', get_entity_details n t = (Return r, t') ∧ rag_ready t' = true) ∧
  (∀ a b, ∃ r t', get_relation_details a b t = (Return r, t') ∧ rag_ready t' = true) ∧
  (∃ r t', get_doc_processing_status t = (Return r, t') ∧ rag_ready t' = true) ∧
  (∀ d, ∃ r t', delete_document d t = (Return r, t') ∧ rag_ready t' = true) ∧
  (∀ modes, ∃ r t', clear_llm_cache modes t = (Return r, t') ∧ rag_ready t' = true).
Proof. apply ready_operations. Qed.

(** The life cycle of the knowledge base tool. A tool constructed with an
    API key becomes ready by [initialize] when the storages and the
    pipeline status initialize. On a tool that is not initialized,
    [initialize] leaves a ready tool exactly when it answers
    "Initialization successful.". After [finalize] the tool is never
    ready, whatever [finalize] answered; on a ready tool [finalize]
    returns the success text or the text of the failure. *)
Theorem lightrag_life_cycle :
  (∀ (key : string) (s s1 s2 : S) (top_k : Z),
      key ≠ "" →
      initialize_storages s = (Return tt, s1) →
      initialize_pipeline_status s1 = (Return tt, s2) →
      ∃ t', initialize (__init__ true (Some key) (Return s) top_k) =
              (Return "Initialization successful.", t') ∧
            rag_ready t' = true ∧ rag_instance t' = Obj s2) ∧
  (∀ (t : LightRAGTool S) (r : string) (t' : LightRAGTool S),
      is_initialized t = false →
      initialize t = (Return r, t') →
      (rag_ready t' = true ↔ r = "Initialization successful.")) ∧
  (∀ t : LightRAGTool S, rag_ready (snd (finalize t)) = false) ∧
  (∀ t : LightRAGTool S,
      rag_ready t = true →
      ∃ r t', finalize t = (Return r, t') ∧
              (r = "Finalization successful." ∨
               ∃ e, r = "Error during LightRAGTool async finalization: " +:+ str_exn e)).
Proof.
  split; [| split; [| split]].
  - intros key s s1 s2 top_k Hk H1 H2. eexists.
    split; [by apply (initialize_constructed key s s1 s2) | done].
  - intros t r t' Hi Hinit. by apply (initialize_outcome t).
  - apply finalize_not_ready.
  - intros t Hr. apply rag_ready_Obj in Hr as (s & Hs & Hi).
    unfold finalize, bind, get, rag_instance_truthy. rewrite Hi. simpl. rewrite Hs. simpl.
    unfold try_except, bind. rewrite (call_Obj _ _ _ Hs).
    destruct (finalize_storages s) as [[[]|e] s1]; simpl; eexists _, _; eauto.
Qed.

(** The keys of [get_doc_processing_status]. On a ready tool, when the
    instance reports counts under keys of the form [prefix.name], with
    names that hold no dot and differ from each other, the dictionary
    returned maps each name to its count, in the order reported. *)

Theorem doc_status_keys (t : LightRAGTool S) (s s' : S)
    (counts : list (string * string * Z)) :
  rag_instance t = Obj s → is_initialized t = true →
  Forall (λ c, contains "." (snd (fst c)) = false) counts →
  NoDup (map (λ c, snd (fst c)) counts) →
  get_processing_status s =
    (Return (map (λ c, (fst (fst c) +:+ "." +:+ snd (fst c), snd c)) counts), s') →
  get_doc_processing_status t =
    (Return (VDict (map (λ c, (snd (fst c), VInt (snd c))) counts)), with_instance s' t).
Proof.
  intros Hs Hi Hplain Hnd Hst. unfold get_doc_processing_status.
  rewrite guarded_ok by (unfold rag_ready; by rewrite Hs).
  unfold try_except, bind. rewrite (call_Obj _ _ _ Hs), Hst. cbn [fst snd]. unfold ret.
  do 2 f_equal.
  assert (map (λ kv : string * Z, last_segment (fst kv))
            (map (λ c : string * string * Z,
                    (fst (fst c) +:+ "." +:+ snd (fst c), snd c)) counts) =
          map (λ c, snd (fst c)) counts) as Hkeys.
  { rewrite map_map. apply map_ext_Forall.
    eapply Forall_impl; [exact Hplain |]. intros c Hc. simpl.
    by apply last_segment_dotted. }
  rewrite (fold_dict_set_fresh (λ kv, last_segment (fst kv)) (λ kv, VInt (snd kv)))
    by (simpl; by rewrite Hkeys).
  simpl app. rewrite map_map. f_equal. apply map_ext_Forall.
  eapply Forall_impl; [exact Hplain |]. intros c Hc. simpl.
  by rewrite last_segment_dotted.
Qed.

End FurtherLightRAG.

Section FurtherPinecone.
Context `{PyRuntime} `{Pinecone.PineconeService} `{Pinecone.PineconeIndexApi}.
Import Pinecone.

(** Without an open index every data operation of the Pinecone toolkit
    returns its "Failed to ..." error text, which says that the client
    or the index is not connected, and leaves the contents of the index
    and the UUID counter as they were. *)
Theorem pinecone_not_connected_operations_fail (st : state) :
  _index (self st) = None →
  (∀ content metadata thought_id, ∃ msg st',
      upsert_thought content metadata thought_id st =
        (Return ("Error: Failed to upsert thought: " +:+ msg), st') ∧
      index_store st' = index_store st ∧ uuid_draws st' = uuid_draws st ∧
      (msg = "Not connected to Pinecone. Please check your API key." ∨
       msg = "Not connected to a Pinecone index. Please connect to an index first.")) ∧
  (∀ thoughts namespace, ∃ msg st',
      upsert_thoughts_batch thoughts namespace st =
        (Return ("Error: Failed to upsert thoughts batch: " +:+ msg), st') ∧
      index_store st' = index_store st ∧ uuid_draws st' = uuid_draws st ∧
      (msg = "Not connected to Pinecone. Please check your API key." ∨
       msg = "Not connected to a Pinecone index. Please connect to an index first.")) ∧
  (∀ query top_k namespace, ∃ msg st',
      query_similar_thoughts query top_k namespace st =
        (Return ("Error: Failed to query similar thoughts: " +:+ msg), st') ∧
      index_store st' = index_store st ∧ uuid_draws st' = uuid_draws st ∧
      (msg = "Not connected to Pinecone. Please check your API key." ∨
       msg = "Not connected to a Pinecone index. Please connect to an index first.")) ∧
  (∀ thought_id namespace, ∃ msg st',
      fetch_thought thought_id namespace st =
        (Return ("Error: Failed to fetch thought: " +:+ msg), st') ∧
      index_store st' = index_store st ∧ uuid_draws st' = uuid_draws st ∧
      (msg = "Not connected to Pinecone. Please check your API key." ∨
       msg = "Not connected to a Pinecone index. Please connect to an index first.")) ∧
  (∀ thought_id namespace, ∃ msg st',
      delete_thought thought_id namespace st =
        (Return ("Error: Failed to delete thought: " +:+ msg), st') ∧
      index_store st' = index_store st ∧ uuid_draws st' = uuid_draws st ∧
      (msg = "Not connected to Pinecone. Please check your API key." ∨
       msg = "Not connected to a Pinecone index. Please connect to an index first.")).
Proof. apply not_connected_operations. Qed.

(** What [upsert_thought] stores, [fetch_thought] reads back. On a
    connected toolkit, after a thought is stored under an id of the
    caller's, [fetch_thought] for that id in the toolkit's namespace
    returns the id, the content, and the caller's metadata without its
    ["text"] entry, which the content has replaced. *)

Theorem fetch_after_upsert (content X : string) (metadata : option pydict) (st : state) :
  index_ready st = true → X ≠ "" →
  upsert_accepts X (get_embedding content)
    (dict_set "text" (VStr content) (default [] metadata)) = true →
  ∃ st1,
    upsert_thought content metadata (Some X) st = (Return X, st1) ∧
    fetch_thought X (Some (name_space (self st))) st1 =
      (Return (json_dumps_default_str (fetched_thought X content (default [] metadata))),
       st1).
Proof.
  intros Hr HX Hacc. eexists. split; [by apply upsert_thought_given_id |].
  rewrite fetch_thought_ready by (by rewrite put_record_ready).
  unfold ns_key. cbn [default]. rewrite put_record_lookup, lookup_insert_eq.
  unfold thought_vector, fetched_thought. cbn [rec_metadata].
  by rewrite dict_get_set_eq, without_text_set.
Qed.

(** The namespace left out is not the toolkit's. [upsert_thought] writes
    into the namespace [name_space] of the toolkit, while [fetch_thought],
    [delete_thought] and [query_similar_thoughts] called without a
    namespace work on the default one. When [name_space] is not the
    default namespace, a thought just stored is not found by
    [fetch_thought] (unless the default namespace holds the id), is still
    there after [delete_thought], whatever that answered, and, with the
    default namespace empty, is in no answer of [query_similar_thoughts],
    which returns the empty list or an error text. *)

Theorem default_namespace_misses (content X : string) (metadata : option pydict)
    (st : state) :
  index_ready st = true → X ≠ "" →
  upsert_accepts X (get_embedding content)
    (dict_set "text" (VStr content) (default [] metadata)) = true →
  name_space (self st) ≠ "" →
  ∃ st1,
    upsert_thought content metadata (Some X) st = (Return X, st1) ∧
    (namespace_records "" st !! X = None →
     fetch_thought X None st1 =
       (Return ("Error: Thought with ID '" +:+ X +:+ "' not found"), st1)) ∧
    namespace_records (name_space (self st)) (snd (delete_thought X None st1)) !! X =
      Some (thought_vector content metadata) ∧
    (matches_are_stored → namespace_records "" st = ∅ →
     ∀ query top_k,
       query_similar_thoughts query top_k None st1 =
         (Return (json_dumps_default_str (VList [])), st1) ∨
       ∃ e, query_similar_thoughts query top_k None st1 =
              (Return ("Error: Failed to query similar thoughts: " +:+ str_exn e), st1)).
Proof.
  intros Hr HX Hacc Hns. eexists. split; [by apply upsert_thought_given_id |].
  assert (index_ready (put_record (name_space (self st)) X (thought_vector content metadata)
                         (uuid_draws st) st) = true) as Hr1 by (by rewrite put_record_ready).
  split; [| split].
  - intros Hnone. rewrite fetch_thought_ready by done.
    unfold ns_key. cbn [default]. rewrite put_record_other by done. by rewrite Hnone.
  - rewrite delete_thought_ready by done. unfold ns_key. cbn [default].
    destruct (delete_accepts _ _); cbn [snd].
    + unfold namespace_records at 1. cbn [index_store].
      rewrite lookup_insert_ne by done.
      fold (namespace_records (name_space (self st))
              (put_record (name_space (self st)) X (thought_vector content metadata)
                 (uuid_draws st) st)).
      by rewrite put_record_lookup, lookup_insert_eq.
    + by rewrite put_record_lookup, lookup_insert_eq.
  - intros Hlaw Hempty query top_k. rewrite query_similar_thoughts_ready by done.
    unfold ns_key. cbn [default]. rewrite put_record_other by done. rewrite Hempty.
    destruct (query_matches _ _ ∅) as [ms|e] eqn:Hq; [left | right; eauto].
    apply Hlaw in Hq. destruct ms as [|m ms]; [done |].
    apply Forall_cons in Hq as [(r & Hr' & _) _]. by rewrite lookup_empty in Hr'.
Qed.

(** [delete_thought] then [fetch_thought]. On a connected toolkit, when
    the index carries out the deletion, [delete_thought] reports success,
    [fetch_thought] for the id in the same namespace then answers "not
    found", the other ids of the namespace are fetched as before, the
    other namespaces are untouched, and deleting an id that was not there
    leaves the namespace as it was. *)

Theorem delete_then_fetch (X : string) (namespace : option string) (st : state) :
  index_ready st = true →
  delete_accepts X (namespace_records (ns_key namespace) st) = true →
  ∃ st1,
    delete_thought X namespace st =
      (Return ("Thought with ID '" +:+ X +:+ "' deleted successfully"), st1) ∧
    fetch_thought X namespace st1 =
      (Return ("Error: Thought with ID '" +:+ X +:+ "' not found"), st1) ∧
    (∀ Y, Y ≠ X →
          fst (fetch_thought Y namespace st1) = fst (fetch_thought Y namespace st)) ∧
    (∀ ns, ns ≠ ns_key namespace → namespace_records ns st1 = namespace_records ns st) ∧
    (namespace_records (ns_key namespace) st !! X = None →
     namespace_records (ns_key namespace) st1 = namespace_records (ns_key namespace) st).
Proof.
  intros Hr Hacc. rewrite delete_thought_ready, Hacc by done.
  eexists. split; [reflexivity |].
  set (st1 := {| self := self st; index_store := _; uuid_draws := uuid_draws st |}).
  assert (index_ready st1 = true) as Hr1 by done.
  assert (namespace_records (ns_key namespace) st1 =
          delete X (namespace_records (ns_key namespace) st)) as Hrec.
  { unfold namespace_records at 1. subst st1. cbn [index_store].
    by rewrite lookup_insert_eq. }
  split; [| split; [| split]].
  - rewrite fetch_thought_ready by done. by rewrite Hrec, lookup_delete_eq.
  - intros Y HY. rewrite !fetch_thought_ready by done. cbn [fst].
    by rewrite Hrec, lookup_delete_ne.
  - intros ns Hns. unfold namespace_records. subst st1. cbn [index_store].
    by rewrite lookup_insert_ne.
  - intros Hnone. rewrite Hrec. by apply delete_id.
Qed.

(** [upsert_thoughts_batch] writes all or nothing. On a connected toolkit
    it returns a text and leaves the toolkit object alone; the index is
    either as it was, or holds, in the namespace given (the default one
    when left out), one more record for each thought, in order, each with
    the thought's content under ["text"] and under the id the thought
    gave. When a thought has no ["content"], nothing is written and the
    error text is returned, also for the thoughts before it. *)

Theorem batch_all_or_nothing (thoughts : list pydict) (namespace : option string)
    (st : state) :
  index_ready st = true →
  ∃ r st',
    upsert_thoughts_batch thoughts namespace st = (Return r, st') ∧
    self st' = self st ∧
    (index_store st' = index_store st ∨
     ∃ records,
       Forall2 batch_record thoughts records ∧
       index_store st' =
         <[ns_key namespace :=
             fold_left (λ m r, <[fst r := snd r]> m) records
               (namespace_records (ns_key namespace) st)]> (index_store st)) ∧
    ((∃ thought, thought ∈ thoughts ∧ dict_get "content" thought = None) →
     index_store st' = index_store st ∧
     ∃ e, r = "Error: Failed to upsert thoughts batch: " +:+ str_exn e).
Proof.
  intros Hr. unfold upsert_thoughts_batch, try_except, bind.
  rewrite ensure_index_connected_ready by done.
  destruct (batch_vectors_frame thoughts st) as [Hself Hstore].
  destruct (batch_vectors thoughts st) as [[vectors|e] st1] eqn:Hb; cbn [snd] in *.
  2:{ eexists _, _. split; [reflexivity |]. split; [done |]. split; [by left |].
      intros _. split; [done | eauto]. }
  assert ((∃ thought, thought ∈ thoughts ∧ dict_get "content" thought = None) → False)
    as Hno.
  { intros (thought & Hin & Hc).
    destruct (batch_vectors_missing_content thoughts thought st Hin Hc) as (e & st' & He).
    congruence. }
  unfold index_upsert_many.
  destruct (mapM _ vectors) as [records|] eqn:Hm.
  2:{ eexists _, _. split; [reflexivity |]. split; [done |]. split; [by left |].
      intros Hex. by destruct Hno. }
  destruct (upsert_many_accepts records).
  2:{ eexists _, _. split; [reflexivity |]. split; [done |]. split; [by left |].
      intros Hex. by destruct Hno. }
  unfold lift_outcome.
  assert (∃ r, (let (o, s') := (json_dumps (VList (map fst vectors)),
                     {| self := self st1;
                        index_store :=
                          <[ns_key namespace :=
                              fold_left (λ m r, <[fst r := snd r]> m) records
                                (namespace_records (ns_key namespace) st1)]>
                            (index_store st1);
                        uuid_draws := uuid_draws st1 |}) in
                match o with
                | Return a => (Return a, s')
                | Raise e => ret ("Error: Failed to upsert thoughts batch: " +:+ str_exn e) s'
                end) =
               (Return r,
                {| self := self st1;
                   index_store :=
                     <[ns_key namespace :=
                         fold_left (λ m r, <[fst r := snd r]> m) records
                           (namespace_records (ns_key namespace) st1)]>
                       (index_store st1);
                   uuid_draws := uuid_draws st1 |})) as [r Hres].
  { destruct (json_dumps _); eauto. }
  cbn beta iota. 
  eexists r, _. split; [exact Hres |]. cbn [self index_store]. split; [done |]. split.
  - right. exists records. split.
    + apply batch_vectors_Return in Hb. apply mapM_Some in Hm.
      clear -Hb Hm. revert records Hm.
      induction Hb as [|thought v thoughts vectors (Hc & Ht & Hi) Hb IH]; intros records Hm.
      * apply Forall2_nil_inv_l in Hm as ->. constructor.
      * apply Forall2_cons_inv_l in Hm as ([id r] & records' & Hv & Hm & ->).
        constructor; [| by apply IH].
        destruct v as [vid vr]. simpl in Hv. destruct vid; try discriminate.
        injection Hv as -> ->. unfold batch_record. cbn [fst snd] in *.
        split; [done |]. split; [done |]. intros id' Hget Hne.
        specialize (Hi id' Hget Hne). by injection Hi.
    + unfold namespace_records. by rewrite Hstore.
  - intros Hex. by destruct Hno.
Qed.

(** The constructor of the Pinecone toolkit. Without a configuration it
    raises [AttributeError]. With one it never raises and leaves the index
    alone; the API key is the configured one or, when that is empty, the
    one of the environment; the toolkit comes out connected to its index
    exactly when there is a key the client takes and an index name that
    opens. *)

Theorem pinecone_constructor (pinecone_config : Responses.PineconeAuthConfig)
    (name_space : option string) (env_api_key : option string)
    (store : gmap string (gmap string vector_record)) (draws : nat) :
  __init__ None name_space env_api_key store draws =
    Raise (OtherError "AttributeError" "'NoneType' object has no attribute 'api_key'") ∧
  ∃ st,
    __init__ (Some pinecone_config) name_space env_api_key store draws = Return st ∧
    index_store st = store ∧ uuid_draws st = draws ∧
    Pinecone.name_space (self st) = default "AI-Reflections" name_space ∧
    api_key (self st) =
      (if truthy_opt_str (Responses.api_key pinecone_config)
       then Responses.api_key pinecone_config else env_api_key) ∧
    index_ready st =
      truthy_opt_str (api_key (self st)) && client_accepts (api_key (self st)) &&
      truthy_opt_str (Responses.index_name pinecone_config) &&
      index_opens (default "" (Responses.index_name pinecone_config)).
Proof.
  split; [reflexivity |].
  unfold __init__.
  set (key := if truthy_opt_str (Responses.api_key pinecone_config)
              then Responses.api_key pinecone_config else env_api_key).
  destruct (truthy_opt_str key) eqn:Hk.
  2:{ unfold ret. eexists. split; [reflexivity |]. simpl. by rewrite Hk. }
  unfold bind at 1. rewrite connect_to_pinecone_eq. cbn [self api_key].
  destruct (client_accepts key) eqn:Hc.
  - destruct (truthy_opt_str (Responses.index_name pinecone_config)) eqn:Hn.
    + unfold bind, _connect_to_index, try_except, bind, get, set_index, ret, raise.
      cbn [self _pc].
      destruct (index_opens _) eqn:Ho; (eexists; split; [reflexivity |]); simpl;
        by rewrite Hk, Hc.
    + unfold ret. eexists. split; [reflexivity |]. simpl. by rewrite Hk, Hc.
  - destruct (truthy_opt_str (Responses.index_name pinecone_config)) eqn:Hn.
    + unfold bind, _connect_to_index, try_except, bind, get, set_index, ret, raise.
      cbn [self _pc]. eexists. split; [reflexivity |]. simpl. by rewrite Hk, Hc.
    + unfold ret. eexists. split; [reflexivity |]. simpl. by rewrite Hk, Hc.
Qed.

End FurtherPinecone.

Import Reference.


Lemma ref_storable_request (w : float) :
  Neo4j.storable (VFloat w) = true → storable_request w None.
Proof.
  intros Hw. split; [constructor |]. split; [done |].
  intros k v Hin. by apply elem_of_nil in Hin.
Qed.

Lemma C1_witness :
  (∃ e, Neo4j.add_thought "alpha again" (Some "a1") None 2%Z ref_state1 =
          (Return ("Error: Failed to add thought: " +:+ str_exn e), ref_state1) ∧
        (∀ s, json_dumps (VDict (or_empty_dict None)) = Return s →
              e = Neo4jError (ConstraintValidationFailed "Thought" "id" "a1"))) ∧
  (∃ m, LightRAGTool.create_entity "X" None None None ref_tool1 =
          (Return ("Error: " +:+ m), ref_tool1)).
Proof.
  split.
  - apply (proj1 C1_create_on_existing_id_fails "alpha one" "a1" (Some [("k", VInt 3)]) 1%Z
             ref_state0 ref_state1);
      [vm_compute; reflexivity | discriminate | vm_compute; reflexivity
      | vm_compute; reflexivity].
  - apply (proj2 C1_create_on_existing_id_fails ref_create_entity_law
             "X" (Some "d") (Some "Concept") None ref_tool0 ref_tool1).
    vm_compute. reflexivity.
Defined.

Lemma C2_witness :
  (∃ msg,
     Neo4j.connect_thoughts "a1" "a2" None None None ref_state0 =
       (Return ("Error: Failed to connect thoughts" +:+ msg), ref_state0) ∧
     (Neo4j.ready ref_state0 = true →
      Neo4j.cypher_parses
        (Neo4j.connect_query (default "RELATED_TO" None)
           (Neo4j.connect_props (weighted (default 0.5%float None) None))) = true →
      msg = " - one or both thoughts not found")) ∧
  (∃ st' r na nb,
     Neo4j.connect_thoughts "a1" "a2" None None None ref_state2 =
       (Return (connected_msg (default "RELATED_TO" None) (default 0.5%float None)), st') ∧
     Neo4j.nodes (Neo4j.graph st') = Neo4j.nodes (Neo4j.graph ref_state2) ∧
     r ∈ Neo4j.rels (Neo4j.graph st') ∧
     na ∈ Neo4j.match_thought "a1" (Neo4j.graph ref_state2) ∧
     nb ∈ Neo4j.match_thought "a2" (Neo4j.graph ref_state2) ∧
     Neo4j.rel_start r = Neo4j.node_id na ∧
     Neo4j.rel_end r = Neo4j.node_id nb ∧
     Neo4j.rel_type r = default "RELATED_TO" None) ∧
  (∃ m, LightRAGTool.create_relation "X" "Y" None None None None ref_tool1 =
          (Return ("Error: " +:+ m), ref_tool1)) ∧
  (∃ s',
     snd (acreate_relation "X" "Y"
            (LightRAGTool.relation_data None None (default 1%float None)
               (default "manual" None)) (instance_of ref_tool2)) = s' ∧
     LightRAGTool.create_relation "X" "Y" None None None None ref_tool2 =
       (Return ("Relation '" +:+ "X" +:+ "' -> '" +:+ "Y" +:+ "' created successfully."),
        LightRAGTool.with_instance s' ref_tool2) ∧
     has_edge "X" "Y" s' = true).
Proof.
  destruct (C2_relation_requires_endpoints (S := kg)) as (Hmiss & Hboth & Hkg1 & Hkg2).
  split; [|split; [|split]].
  - apply Hmiss. left. vm_compute. reflexivity.
  - apply (Hboth "alpha one" "alpha two" "a1" "a2" (Some [("k", VInt 3)]) None 1%Z 2%Z
             None None None ref_state0 ref_state1 ref_state2);
      try discriminate; try (vm_compute; reflexivity).
    apply ref_storable_request. reflexivity.
  - apply (Hkg1 ref_relation_missing_law "X" "Y" None None None None ref_tool1
             (instance_of ref_tool1));
      [vm_compute; reflexivity | reflexivity | right; vm_compute; reflexivity].
  - apply (Hkg2 ref_relation_present_law "X" "Y" None None None None ref_tool2
             (instance_of ref_tool2));
      try discriminate; vm_compute; reflexivity.
Defined.

Lemma C3_witness :
  LightRAGTool.merge_entities ["X"] "X" None ref_tool1 =
    (Return (self_merge_msg "X"), ref_tool1) ∧
  String.prefix "Error: " (self_merge_msg "X") = true.
Proof. apply (C3_self_merge_rejected "X" None ref_tool1). vm_compute. reflexivity. Defined.

Lemma C4_witness :
  (∀ mode top_k, mode ∉ retrieval_modes →
     ∃ e t', LightRAGTool._retrieve "what is alpha" mode top_k ref_tool0 =
               (Return ("Error during '" +:+ mode +:+ "' retrieval: " +:+ str_exn e), t')) ∧
  (∀ mode top_k,
     ∃ r t', LightRAGTool._retrieve "what is alpha" mode top_k ref_tool0 = (Return r, t')) ∧
  (∀ top_k, ∃ r t', LightRAGTool.retrieve_naive "what is alpha" top_k ref_tool0 = (Return r, t')) ∧
  (∀ top_k, ∃ r t',
     LightRAGTool.retrieve_local_kg "what is alpha" top_k ref_tool0 = (Return r, t')) ∧
  (∀ top_k, ∃ r t',
     LightRAGTool.retrieve_global_kg "what is alpha" top_k ref_tool0 = (Return r, t')) ∧
  (∀ top_k, ∃ r t',
     LightRAGTool.retrieve_hybrid "what is alpha" top_k ref_tool0 = (Return r, t')) ∧
  (∀ top_k, ∃ r t',
     LightRAGTool.retrieve_mix_kg_vector "what is alpha" top_k ref_tool0 = (Return r, t')) ∧
  (∀ mode top_k s s',
     LightRAGTool.rag_instance ref_tool0 = LightRAGTool.Obj s →
     aquery "what is alpha" mode (default (LightRAGTool.default_top_k ref_tool0) top_k) s =
       (Return (RespStr ""), s') →
     LightRAGTool._retrieve "what is alpha" mode top_k ref_tool0 =
       (Return ("No results or response generated for mode '" +:+ mode +:+ "'."),
        LightRAGTool.with_instance s' ref_tool0)).
Proof.
  apply (C4_retrieval_modes "what is alpha" ref_tool0 ref_unknown_mode_law);
    [vm_compute; reflexivity | discriminate].
Defined.





(** C8, refuted as stated: a weight of 2.0 is neither refused nor clamped;
    the call succeeds and the relationship stored carries 2.0. *)
Lemma C8_counterexample :
  fst (Neo4j.connect_thoughts "a1" "a2" None (Some 2%float) None ref_state2) =
    Return "Thoughts connected successfully with relationship type 'RELATED_TO' and weight 2.0" ∧
  Neo4j.rels (Neo4j.graph
    (snd (Neo4j.connect_thoughts "a1" "a2" None (Some 2%float) None ref_state2))) =
    [{| Neo4j.rel_start := 0; Neo4j.rel_end := 1; Neo4j.rel_type := "RELATED_TO";
        Neo4j.rel_props := [("weight", VFloat 2)] |}] ∧
  PrimFloat.leb 2 1 = false.
Proof. vm_compute. repeat split. Qed.

Lemma C8_witness :
  (∃ st' r,
     Neo4j.connect_thoughts "a1" "a2" None (Some 2%float) None ref_state2 =
       (Return (connected_msg (default "RELATED_TO" None) (default 0.5%float (Some 2%float))),
        st') ∧
     r ∈ Neo4j.rels (Neo4j.graph st') ∧
     Neo4j.rel_start r = 0 ∧
     Neo4j.rel_end r = 1 ∧
     Neo4j.rel_type r = default "RELATED_TO" None ∧
     carries_weight (default 0.5%float (Some 2%float)) r) ∧
  (∃ data,
     dict_get "weight" data = Some (VFloat 2) ∧
     LightRAGTool.create_relation "X" "Y" None None (Some 2%float) None ref_tool2 =
       (Return match fst (acreate_relation "X" "Y" data (instance_of ref_tool2)) with
               | Return _ =>
                   "Relation '" +:+ "X" +:+ "' -> '" +:+ "Y" +:+ "' created successfully."
               | Raise e =>
                   if is_ValueError e then "Error: " +:+ str_exn e
                   else "Error creating relation '" +:+ "X" +:+ "'->'" +:+ "Y" +:+ "': " +:+
                        str_exn e
               end,
        LightRAGTool.with_instance
          (snd (acreate_relation "X" "Y" data (instance_of ref_tool2))) ref_tool2)).
Proof.
  destruct (C8_weight_stored_as_given (S := kg)) as (Hneo & Hkg).
  split.
  - apply (Hneo "a1" "a2" None (Some 2%float) None ref_state2
             {| Neo4j.node_id := 0;
                Neo4j.node_props := thought_props "a1" "alpha one" 1 ref_k3_text |}
             {| Neo4j.node_id := 1;
                Neo4j.node_props := thought_props "a2" "alpha two" 2 "{}" |} [] []);
      try (vm_compute; reflexivity).
    apply ref_storable_request. reflexivity.
  - apply (Hkg "X" "Y" None None 2%float None ref_tool2 (instance_of ref_tool2));
      try discriminate; vm_compute; reflexivity.
Defined.

Lemma C9_counterexample :
  json_dumps (VDict ref_pair_metadata) = Return ref_pair_text ∧
  Neo4j.add_thought "alpha" (Some "t1") (Some ref_pair_metadata) 1%Z ref_state0 =
    (Return "t1", ref_state_pair) ∧
  Neo4j.get_thought_record "t1" ref_state_pair =
    (Return (Some (thought_record "t1" "alpha" 1 (VDict [("k", VList [VInt 1; VInt 2])]))),
     ref_state_pair) ∧
  Neo4j.get_thought "t1" ref_state_pair =
    (Return (json_dumps_default_str
               (VDict (thought_record "t1" "alpha" 1
                         (VDict [("k", VList [VInt 1; VInt 2])])))),
     ref_state_pair) ∧
  ref_pair_metadata = [("k", VTuple [VInt 1; VInt 2])] ∧
  VDict [("k", VList [VInt 1; VInt 2])] ≠ VDict ref_pair_metadata.
Proof. repeat split; try (vm_compute; reflexivity). discriminate. Qed.

Lemma C9_witness :
  (Neo4j.get_thought_record "a1" ref_state1 =
     (Return (Some (thought_record "a1" "alpha one" 1 (VDict [("k", VInt 3)]))), ref_state1) ∧
   Neo4j.get_thought "a1" ref_state1 =
     (Return (json_dumps_default_str
                (VDict (thought_record "a1" "alpha one" 1 (VDict [("k", VInt 3)])))),
      ref_state1) ∧
   dict_get "metadata" (thought_record "a1" "alpha one" 1 (VDict [("k", VInt 3)])) =
     Some (VDict [("k", VInt 3)]) ∧
   dict_get "metadata_json" (thought_record "a1" "alpha one" 1 (VDict [("k", VInt 3)])) =
     None ∧
   (VDict [("k", VInt 3)] = VDict [("k", VInt 3)] ↔
    dict_get "metadata" (thought_record "a1" "alpha one" 1 (VDict [("k", VInt 3)])) =
      Some (VDict [("k", VInt 3)]))) ∧
  (Neo4j.get_thought_record "bad" ref_state_bad =
     (Return (Some (dict_set "metadata" (VDict [])
                      (thought_props "bad" "beta" 3 "{not json"))), ref_state_bad) ∧
   Neo4j.get_thought "bad" ref_state_bad =
     (Return (json_dumps_default_str
                (VDict (dict_set "metadata" (VDict [])
                          (thought_props "bad" "beta" 3 "{not json")))), ref_state_bad) ∧
   dict_get "metadata" (dict_set "metadata" (VDict [])
                          (thought_props "bad" "beta" 3 "{not json")) = Some (VDict [])).
Proof.
  destruct C9_metadata_round_trip as (Hround & Hbad).
  split.
  - apply (Hround "alpha one" "a1" [("k", VInt 3)] ref_k3_text (VDict [("k", VInt 3)]) 1%Z
             ref_state0 ref_state1);
      try discriminate; vm_compute; reflexivity.
  - apply (Hbad "bad" ref_state_bad
             {| Neo4j.node_id := 0;
                Neo4j.node_props := thought_props "bad" "beta" 3 "{not json" |} []
             "{not json" "Expecting value");
      vm_compute; reflexivity.
Defined.

Lemma C10_witness :
  ∃ st1,
    Neo4j.add_thought "first" None None 1%Z ref_state0 = (Return "Thought", st1) ∧
    Neo4j.match_thought "Thought" (Neo4j.graph st1) =
      [{| Neo4j.node_id := Neo4j.next_node_id (Neo4j.graph ref_state0);
          Neo4j.node_props := thought_props "Thought" "first" 1 "{}" |}] ∧
    ∀ content' metadata' now',
      ∃ e, Neo4j.add_thought content' None metadata' now' st1 =
             (Return ("Error: Failed to add thought: " +:+ str_exn e), st1) ∧
           (∀ s', json_dumps (VDict (or_empty_dict metadata')) = Return s' →
                  e = Neo4jError (ConstraintValidationFailed "Thought" "id" "Thought")).
Proof.
  apply (proj2 C10_default_thought_id "first" "{}" None 1%Z ref_state0);
    vm_compute; reflexivity.
Defined.

Lemma lightrag_not_ready_witness :
  LightRAGTool.store_text "alpha" None None ref_tool_new =
    (Raise (RuntimeError LightRAGTool.not_ready_msg), ref_tool_new) ∧
  LightRAGTool.retrieve_naive "alpha" None ref_tool_new =
    (Raise (RuntimeError LightRAGTool.not_ready_msg), ref_tool_new) ∧
  LightRAGTool.create_entity "X" None None None (snd (LightRAGTool.finalize ref_tool1)) =
    (Raise (RuntimeError LightRAGTool.not_ready_msg), snd (LightRAGTool.finalize ref_tool1)).
Proof.
  assert (LightRAGTool.rag_ready ref_tool_new = false) as Hnew by reflexivity.
  assert (LightRAGTool.rag_ready (snd (LightRAGTool.finalize ref_tool1)) = false) as Hfin
    by (vm_compute; reflexivity).
  destruct (lightrag_not_ready_operations_fail ref_tool_new Hnew)
    as (_ & Hstore & _ & Hnaive & _).
  destruct (lightrag_not_ready_operations_fail _ Hfin)
    as (_ & _ & _ & _ & _ & _ & _ & _ & Hcreate & _).
  split; [apply Hstore | split; [apply Hnaive | apply Hcreate]].
Defined.

Lemma neo4j_not_ready_witness :
  Neo4j.add_thought "alpha" (Some "a1") None 1%Z ref_state_down =
    (Return (not_ready_error "add thought"), ref_state_down) ∧
  Neo4j.search_thoughts "alpha" None ref_state_down =
    (Return (not_ready_error "search thoughts"), ref_state_down).
Proof.
  assert (Neo4j.ready ref_state_down = false) as Hdown by reflexivity.
  destruct (neo4j_not_ready_operations_fail ref_state_down Hdown)
    as (Hadd & _ & _ & _ & Hsearch & _).
  split; [apply Hadd | apply Hsearch].
Defined.

Lemma initialization_idempotent_witness :
  LightRAGTool.initialize ref_tool1 =
    (Return "LightRAGTool is already initialized.", ref_tool1) ∧
  ∃ st', Neo4j.initialize_connection ref_state2 =
           (Return "Neo4j connection initialized successfully", st') ∧
         Neo4j.graph st' = Neo4j.graph ref_state2 ∧ Neo4j.ready st' = true ∧
         Neo4j.uuid_draws st' = Neo4j.uuid_draws ref_state2.
Proof.
  destruct (initialization_idempotent (S := kg)) as (Hkg & Hneo).
  split.
  - apply Hkg. vm_compute. reflexivity.
  - apply Hneo; vm_compute; reflexivity.
Defined.

(** The reference server compares a weight with itself and with a
    threshold as the numbers compare; the reference index names stored
    records only. *)
Lemma ref_self_equal_request (w : float) :
  PrimFloat.eqb w w = true → self_equal_request w None.
Proof.
  intros Hw. split; [exact Hw |]. intros k v Hin. by apply elem_of_nil in Hin.
Qed.


Lemma ref_matches_are_stored : matches_are_stored.
Proof.
  intros v k records ms. simpl. unfold ref_query_matches.
  destruct (k <? 1)%Z; [discriminate |]. intros [= <-].
  apply Forall_take, Forall_forall. intros m Hin.
  apply list_elem_of_In, in_map_iff in Hin as ([id r] & <- & Hin).
  apply list_elem_of_In, elem_of_map_to_list in Hin. by exists r.
Qed.

Lemma connect_thoughts_idempotent_witness :
  ∃ st1,
    Neo4j.connect_thoughts "a1" "a2" None None None ref_state2 =
      (Return (connected_msg (default "RELATED_TO" None) (default 0.5%float None)), st1) ∧
    Neo4j.connect_thoughts "a1" "a2" None None None st1 =
      (Return (connected_msg (default "RELATED_TO" None) (default 0.5%float None)), st1).
Proof.
  apply (connect_thoughts_idempotent "a1" "a2" None None None ref_state2
           {| Neo4j.node_id := 0;
              Neo4j.node_props := thought_props "a1" "alpha one" 1 ref_k3_text |}
           {| Neo4j.node_id := 1;
              Neo4j.node_props := thought_props "a2" "alpha two" 2 "{}" |} [] []);
    try (vm_compute; reflexivity).
  - apply ref_storable_request. reflexivity.
  - apply ref_self_equal_request. reflexivity.
Defined.

Lemma missing_thought_lookups_witness :
  Neo4j.get_thought "a2" ref_state1 =
    (Return ("Error: Thought with ID '" +:+ "a2" +:+ "' not found"), ref_state1) ∧
  (∀ rt min_weight,
      Neo4j.cypher_parses
        (Neo4j.related_query
           (if truthy_opt_str rt then ":`" +:+ default "" rt +:+ "`" else "")
           ("r.weight >= " +:+ str_float (default 0%float min_weight))) = true →
      Neo4j.get_related_thoughts "a2" rt min_weight ref_state1 =
        (Return (json_dumps_default_str (VList [])), ref_state1)).
Proof.
  apply (missing_thought_lookups "a2" ref_state1); vm_compute; reflexivity.
Defined.

Lemma all_node_ids_most_recent_first_witness :
  ∃ listed : list Neo4j.node,
    Neo4j.get_all_node_ids ref_state2 =
      (Return match json_dumps
                      (VDict [("node_ids",
                               VList (map (λ n, default VNone
                                                  (dict_get "id" (Neo4j.node_props n)))
                                          listed))]) with
              | Return s => s
              | Raise e => "Error: Failed to retrieve thought node IDs: " +:+ str_exn e
              end, ref_state2) ∧
    listed ≡ₚ Neo4j.nodes (Neo4j.graph ref_state2) ∧
    StronglySorted (desc_before Neo4j.node_timestamp) listed.
Proof. apply (all_node_ids_most_recent_first ref_state2). vm_compute. reflexivity. Defined.

Lemma graph_summary_counts_witness :
  ∃ types : list (string * Z),
    Neo4j.get_graph_summary ref_state3 =
      (Return (json_dumps_default_str
                 (VDict [("thought_count",
                          VInt (Z.of_nat (length (Neo4j.nodes (Neo4j.graph ref_state3)))));
                         ("relationship_count",
                          VInt (Z.of_nat (length (Neo4j.rels (Neo4j.graph ref_state3)))));
                         ("relationship_types",
                          VList (map (λ tc, VList [VStr (fst tc); VInt (snd tc)]) types))])),
       ref_state3) ∧
    NoDup (map fst types) ∧
    (∀ ty c, (ty, c) ∈ types ↔
             c = count_of ty (Neo4j.rels (Neo4j.graph ref_state3)) ∧ (0 < c)%Z) ∧
    foldr Z.add 0%Z (map snd types) =
      Z.of_nat (length (Neo4j.rels (Neo4j.graph ref_state3))) ∧
    StronglySorted (λ x y, (snd y ≤ snd x)%Z) types.
Proof. apply (graph_summary_counts ref_state3). vm_compute. reflexivity. Defined.


Lemma add_thought_empty_id_draws_uuid_witness :
  Neo4j.uuid_draws (snd (Neo4j.add_thought "first" (Some "") None 1%Z ref_state0)) =
    S (Neo4j.uuid_draws ref_state0) ∧
  ∀ s,
    json_dumps (VDict (or_empty_dict None)) = Return s →
    Neo4j.thought_id_unique (Neo4j.graph ref_state0) &&
      existsb (Neo4j.node_has_id (uuid4_at (Neo4j.uuid_draws ref_state0)))
        (Neo4j.nodes (Neo4j.graph ref_state0)) = false →
    ∃ st',
      Neo4j.add_thought "first" (Some "") None 1%Z ref_state0 =
        (Return (uuid4_at (Neo4j.uuid_draws ref_state0)), st') ∧
      Neo4j.nodes (Neo4j.graph st') =
        (Neo4j.nodes (Neo4j.graph ref_state0) ++
           [{| Neo4j.node_id := Neo4j.next_node_id (Neo4j.graph ref_state0);
               Neo4j.node_props :=
                 thought_props (uuid4_at (Neo4j.uuid_draws ref_state0)) "first" 1 s |}])%list ∧
      Neo4j.rels (Neo4j.graph st') = Neo4j.rels (Neo4j.graph ref_state0).
Proof.
  apply (add_thought_empty_id_draws_uuid "first" None 1%Z ref_state0).
  vm_compute. reflexivity.
Defined.



Lemma lightrag_empty_arguments_rejected_witness :
  LightRAGTool.store_text "" None None ref_tool0 =
    (Return "Error: Invalid input. 'text_content' must be a non-empty string.", ref_tool0) ∧
  LightRAGTool.merge_entities [] "X" None ref_tool0 =
    (Return "Error: 'source_entities' must be a non-empty list of strings.", ref_tool0).
Proof.
  assert (LightRAGTool.rag_ready ref_tool0 = true) as Hr by (vm_compute; reflexivity).
  destruct (lightrag_empty_arguments_rejected ref_tool0 Hr)
    as (Hstore & _ & _ & _ & _ & _ & _ & _ & _ & _ & Hmerge & _).
  split; [apply Hstore | apply Hmerge].
Defined.

Lemma lightrag_ready_operations_return_witness :
  (∃ r t', LightRAGTool.delete_entity "X" ref_tool1 = (Return r, t') ∧
           LightRAGTool.rag_ready t' = true) ∧
  (∃ r t', LightRAGTool.get_doc_processing_status ref_tool1 = (Return r, t') ∧
           LightRAGTool.rag_ready t' = true).
Proof.
  assert (LightRAGTool.rag_ready ref_tool1 = true) as Hr by (vm_compute; reflexivity).
  destruct (lightrag_ready_operations_return ref_tool1 Hr)
    as (_ & _ & _ & _ & Hdel & _ & _ & _ & _ & _ & _ & Hstatus & _).
  split; [apply Hdel | exact Hstatus].
Defined.

Lemma lightrag_life_cycle_witness :
  (∃ t', LightRAGTool.initialize ref_tool_new = (Return "Initialization successful.", t') ∧
         LightRAGTool.rag_ready t' = true ∧
         LightRAGTool.rag_instance t' = LightRAGTool.Obj (kg_set_open true empty_kg)) ∧
  LightRAGTool.rag_ready (snd (LightRAGTool.finalize ref_tool1)) = false.
Proof.
  destruct (lightrag_life_cycle (S := kg)) as (Hinit & _ & Hfin & _).
  split; [| apply Hfin].
  apply (Hinit "sk-test" empty_kg (kg_set_open true empty_kg) (kg_set_open true empty_kg) 5%Z);
    [discriminate | reflexivity | reflexivity].
Defined.

Lemma doc_status_keys_witness :
  LightRAGTool.get_doc_processing_status ref_tool0 =
    (Return (VDict (map (λ c : string * string * Z, (snd (fst c), VInt (snd c)))
                        [("DocStatus", "PROCESSED", 0%Z)])),
     LightRAGTool.with_instance (instance_of ref_tool0) ref_tool0).
Proof.
  apply (doc_status_keys ref_tool0 (instance_of ref_tool0) (instance_of ref_tool0)
           [("DocStatus", "PROCESSED", 0%Z)]);
    try (vm_compute; reflexivity).
  - repeat constructor.
  - apply NoDup_singleton.
Defined.

Lemma pinecone_not_connected_operations_fail_witness :
  (∃ msg st',
     Pinecone.upsert_thought "The sky is blue" None (Some "sky") ref_index_closed =
       (Return ("Error: Failed to upsert thought: " +:+ msg), st') ∧
     Pinecone.index_store st' = Pinecone.index_store ref_index_closed ∧
     Pinecone.uuid_draws st' = Pinecone.uuid_draws ref_index_closed ∧
     (msg = "Not connected to Pinecone. Please check your API key." ∨
      msg = "Not connected to a Pinecone index. Please connect to an index first.")) ∧
  (∃ msg st',
     Pinecone.fetch_thought "sky" None ref_index_closed =
       (Return ("Error: Failed to fetch thought: " +:+ msg), st') ∧
     Pinecone.index_store st' = Pinecone.index_store ref_index_closed ∧
     Pinecone.uuid_draws st' = Pinecone.uuid_draws ref_index_closed ∧
     (msg = "Not connected to Pinecone. Please check your API key." ∨
      msg = "Not connected to a Pinecone index. Please connect to an index first.")).
Proof.
  assert (Pinecone._index (Pinecone.self ref_index_closed) = None) as Hi by reflexivity.
  destruct (pinecone_not_connected_operations_fail ref_index_closed Hi)
    as (Hup & _ & _ & Hfetch & _).
  split; [apply Hup | apply Hfetch].
Defined.

Lemma fetch_after_upsert_witness :
  ∃ st1,
    Pinecone.upsert_thought "The sky is blue"
      (Some [("mood", VStr "calm"); ("text", VStr "old")]) (Some "sky") ref_index0 =
      (Return "sky", st1) ∧
    Pinecone.fetch_thought "sky" (Some (Pinecone.name_space (Pinecone.self ref_index0))) st1 =
      (Return (json_dumps_default_str
                 (fetched_thought "sky" "The sky is blue"
                    (default [] (Some [("mood", VStr "calm"); ("text", VStr "old")])))),
       st1).
Proof.
  apply (fetch_after_upsert "The sky is blue" "sky"
           (Some [("mood", VStr "calm"); ("text", VStr "old")]) ref_index0);
    [reflexivity | discriminate | reflexivity].
Defined.

Lemma default_namespace_misses_witness :
  ∃ st1,
    Pinecone.upsert_thought "The sky is blue" None (Some "sky") ref_index0 =
      (Return "sky", st1) ∧
    (Pinecone.namespace_records "" ref_index0 !! "sky" = None →
     Pinecone.fetch_thought "sky" None st1 =
       (Return ("Error: Thought with ID '" +:+ "sky" +:+ "' not found"), st1)) ∧
    Pinecone.namespace_records (Pinecone.name_space (Pinecone.self ref_index0))
      (snd (Pinecone.delete_thought "sky" None st1)) !! "sky" =
      Some (thought_vector "The sky is blue" None) ∧
    (matches_are_stored → Pinecone.namespace_records "" ref_index0 = ∅ →
     ∀ query top_k,
       Pinecone.query_similar_thoughts query top_k None st1 =
         (Return (json_dumps_default_str (VList [])), st1) ∨
       ∃ e, Pinecone.query_similar_thoughts query top_k None st1 =
              (Return ("Error: Failed to query similar thoughts: " +:+ str_exn e), st1)).
Proof.
  apply (default_namespace_misses "The sky is blue" "sky" None ref_index0);
    [reflexivity | discriminate | reflexivity | discriminate].
Defined.

Lemma delete_then_fetch_witness :
  ∃ st1,
    Pinecone.delete_thought "sky" (Some "AI-Reflections") ref_index1 =
      (Return ("Thought with ID '" +:+ "sky" +:+ "' deleted successfully"), st1) ∧
    Pinecone.fetch_thought "sky" (Some "AI-Reflections") st1 =
      (Return ("Error: Thought with ID '" +:+ "sky" +:+ "' not found"), st1).
Proof.
  destruct (delete_then_fetch "sky" (Some "AI-Reflections") ref_index1)
    as (st1 & Hdel & Hfetch & _); [reflexivity | reflexivity |].
  exists st1. split; [exact Hdel | exact Hfetch].
Defined.

Lemma batch_all_or_nothing_witness :
  ∃ r st',
    Pinecone.upsert_thoughts_batch
      [[("id", VStr "t1"); ("content", VStr "one")]; [("id", VStr "t2")]] None ref_index0 =
      (Return r, st') ∧
    Pinecone.index_store st' = Pinecone.index_store ref_index0 ∧
    ∃ e, r = "Error: Failed to upsert thoughts batch: " +:+ str_exn e.
Proof.
  destruct (batch_all_or_nothing
              [[("id", VStr "t1"); ("content", VStr "one")]; [("id", VStr "t2")]]
              None ref_index0) as (r & st' & Hrun & _ & _ & Hmiss); [reflexivity |].
  exists r, st'. split; [exact Hrun |]. apply Hmiss.
  exists [("id", VStr "t2")]. split; [| reflexivity].
  apply elem_of_cons. right. apply elem_of_cons. by left.
Defined.
